(** * Prometheus dashboard API: a shallow embedding of [netlify/functions/api.js]

    The file embeds the request router and the eight handlers of the serverless
    endpoint, together with the parts of the JavaScript runtime they use
    (binary64 numbers, [JSON.parse], [JSON.stringify], [Date]) and a model of
    the document store they talk to.

    - JavaScript numbers are IEEE 754 binary64 values: Rocq's primitive
      [float], whose operations are the ones the engine performs.
    - JavaScript strings are modelled by their UTF-8 bytes (Rocq [string]).
    - The handlers run in a state-and-exception monad over a [World] holding
      the store, the trace of store operations and the console. *)

From Stdlib Require Import ZArith QArith Qround Qabs List String Ascii Bool Lia.
From Stdlib Require Import PrimFloat FloatOps SpecFloat FloatAxioms.
From Stdlib Require Import DecimalString.
From Stdlib Require Import Sorted.
Import ListNotations.

Set Warnings "-inexact-float,-register-all".
Local Open Scope string_scope.
Local Open Scope Z_scope.

(* ================================================================= *)
(** ** Characters and strings *)

Definition chr (n : Z) : ascii := ascii_of_N (Z.to_N n).
Definition code (c : ascii) : Z := Z.of_N (N_of_ascii c).

(** The double quote character, and a string wrapped in double quotes. *)
Definition dquote : string := String (chr 34) EmptyString.
Definition quoted (s : string) : string := dquote ++ s ++ dquote.

Fixpoint repeat_string (s : string) (n : nat) : string :=
  match n with
  | O => EmptyString
  | S n' => s ++ repeat_string s n'
  end.

(** Decimal digits of a natural number, without sign or padding. *)
Definition digits_of_Z (z : Z) : string :=
  NilZero.string_of_uint (N.to_uint (Z.to_N z)).

(** [padStart(width, "0")] of the decimal digits of [z]. *)
Definition pad_digits (width : nat) (z : Z) : string :=
  let d := digits_of_Z z in
  repeat_string "0" (width - String.length d) ++ d.

(** [s.substring(0, n)] and [s.substring(n)] on bytes. *)
Definition str_take (n : nat) (s : string) : string := String.substring 0 n s.
Definition str_drop (n : nat) (s : string) : string :=
  String.substring n (String.length s - n) s.

(* ================================================================= *)
(** ** Numbers: IEEE 754 binary64 *)

Module Number.

(** The Number value for the mathematical integer [z] (round to nearest,
    ties to even; exact whenever [|z| <= 2^53]). *)
Definition of_Z (z : Z) : float :=
  SF2Prim (binary_normalize prec emax z 0 false).

Definition of_nat (n : nat) : float := of_Z (Z.of_nat n).

(** The Number value nearest to [n / d] for positive integers [n] and [d].
    The quotient is taken with more than 1100 fractional bits and a sticky
    bit, so that the single rounding of [binary_normalize] is the rounding
    of the exact quotient. *)
Definition of_ratio (n d : Z) : float :=
  let k := 1100 + Z.log2_up d in
  let q := Z.shiftl n k / d in
  let sticky := if Z.shiftl n k mod d =? 0 then 0 else 1 in
  SF2Prim (binary_normalize prec emax (2 * q + sticky) (- k - 1) false).

(** The Number value nearest to [digits * 10^exp10], [digits >= 0]. *)
Definition of_decimal (digits exp10 : Z) : float :=
  if digits =? 0 then PrimFloat.zero
  else if 400 <? exp10 then PrimFloat.infinity
  else if 0 <=? exp10 then of_Z (digits * 10 ^ exp10)
  else if exp10 <? -400 - Z.log2_up digits then PrimFloat.zero
  else of_ratio digits (10 ^ (- exp10)).

(** The exact value of a finite, non-zero Number as a rational. *)
Definition exact (m : positive) (e : Z) : Q :=
  if 0 <=? e then inject_Z (Zpos m * 2 ^ e)
  else Qmake (Zpos m) (Z.to_pos (2 ^ (- e))).

Definition Qltb (a b : Q) : bool := negb (Qle_bool b a).

(** [floor (x + 1/2)]: the integer nearest to [x], ties upwards. *)
Definition round_half_up (x : Q) : Z := Qfloor (x + (1 # 2))%Q.

(** [Math.round(x)]: the integral Number closest to [x], ties towards
    +Infinity; NaN, infinities and zeros are returned unchanged, and a
    negative [x >= -0.5] gives -0. *)
Definition Math_round (x : float) : float :=
  match Prim2SF x with
  | S754_finite s m e =>
      if 0 <=? e then x
      else
        let v := exact m e in
        let n := round_half_up (if s then Qopp v else v) in
        if n =? 0 then (if s then PrimFloat.neg_zero else PrimFloat.zero)
        else of_Z n
  | _ => x
  end.

(** *** Number::toString (radix 10) *)

(** For a positive finite Number [m * 2^e] in canonical form, the bounds
    of the set of reals that round to it, and whether they belong to it
    (they do when the significand is even). *)
Definition round_interval (m : positive) (e : Z) : Q * Q * bool :=
  let x := exact m e in
  let ulp := exact 1 e in
  let below :=
    if (Zpos m =? 2 ^ 52) && (-1074 <? e) then (ulp / 4)%Q else (ulp / 2)%Q in
  ((x - below)%Q, (x + ulp / 2)%Q, Z.even (Zpos m)).

Definition in_interval (i : Q * Q * bool) (v : Q) : bool :=
  let '(lo, hi, closed) := i in
  if closed then Qle_bool lo v && Qle_bool v hi
  else Qltb lo v && Qltb v hi.

Definition pow10 (n : Z) : Q :=
  if 0 <=? n then inject_Z (10 ^ n) else Qmake 1 (Z.to_pos (10 ^ (- n))).

(** The least [n], searched upwards from [n0], with [x < 10^n]. *)
Fixpoint magnitude (fuel : nat) (x : Q) (n0 : Z) : Z :=
  match fuel with
  | O => n0
  | S fuel' => if Qltb x (pow10 n0) then n0 else magnitude fuel' x (n0 + 1)
  end.

Definition Qabs_diff (a b : Q) : Q := Qabs (a - b)%Q.

(** The [k]-digit decimals next to [x] (below and above) that round to [x];
    of two, the closer one, and of two equally close ones the even one. *)
Definition candidate (i : Q * Q * bool) (x : Q) (n k : Z) : option (Z * Z) :=
  let unit := pow10 (n - k) in
  let s1 := Qfloor (x / unit)%Q in
  let s2 := s1 + 1 in
  let v1 := (inject_Z s1 * unit)%Q in
  let v2 := (inject_Z s2 * unit)%Q in
  let ok1 := (10 ^ (k - 1) <=? s1) && in_interval i v1 in
  let ok2 := in_interval i v2 in
  let pick2 := if s2 =? 10 ^ k then (10 ^ (k - 1), n + 1) else (s2, n) in
  match ok1, ok2 with
  | false, false => None
  | true, false => Some (s1, n)
  | false, true => Some pick2
  | true, true =>
      match Qcompare (Qabs_diff v1 x) (Qabs_diff v2 x) with
      | Lt => Some (s1, n)
      | Gt => Some pick2
      | Eq => if Z.even s1 then Some (s1, n) else Some pick2
      end
  end.

(** The shortest digit string: the first [k] for which a candidate exists. *)
Fixpoint shortest (fuel : nat) (i : Q * Q * bool) (x : Q) (n k : Z)
  : Z * Z * Z :=
  match fuel with
  | O => (Qfloor (x / pow10 (n - k))%Q, n, k)
  | S fuel' =>
      match candidate i x n k with
      | Some (s, n') => (s, n', k)
      | None => shortest fuel' i x n (k + 1)
      end
  end.

Definition format_digits (s n k : Z) : string :=
  let d := digits_of_Z s in
  if (-5 <=? n) && (n <=? 21) then
    if k <=? n then d ++ repeat_string "0" (Z.to_nat (n - k))
    else if 0 <? n then str_take (Z.to_nat n) d ++ "." ++ str_drop (Z.to_nat n) d
    else "0." ++ repeat_string "0" (Z.to_nat (- n)) ++ d
  else
    let e := n - 1 in
    let es := (if 0 <=? e then "+" else "-") ++ digits_of_Z (Z.abs e) in
    if k =? 1 then d ++ "e" ++ es
    else str_take 1 d ++ "." ++ str_drop 1 d ++ "e" ++ es.

Definition toString_pos (m : positive) (e : Z) : string :=
  let x := exact m e in
  let b := Z.log2 (Zpos m) + e in
  let n := magnitude 6 x (b * 30103 / 100000 - 1) in
  let '(s, n', k) := shortest 17 (round_interval m e) x n 1 in
  format_digits s n' k.

Definition toString (x : float) : string :=
  match Prim2SF x with
  | S754_nan => "NaN"
  | S754_zero _ => "0"
  | S754_infinity s => if s then "-Infinity" else "Infinity"
  | S754_finite s m e => (if s then "-" else "") ++ toString_pos m e
  end.

(** *** Number.prototype.toFixed *)

(** [x.toFixed(f)] for [0 <= f <= 100]: the integer [n] for which
    [n / 10^f - x] is closest to zero (the larger of two), written with
    [f] digits after the point. *)
Definition toFixed_digits (n : Z) (f : nat) : string :=
  let m := digits_of_Z n in
  match f with
  | O => m
  | _ =>
      let m := repeat_string "0" (f + 1 - String.length m) ++ m in
      let k := String.length m in
      str_take (k - f) m ++ "." ++ str_drop (k - f) m
  end.

Definition toFixed (x : float) (f : nat) : string :=
  match Prim2SF x with
  | S754_finite s m e =>
      let v := exact m e in
      if Qle_bool (pow10 21) v then toString x
      else
        let n := round_half_up (v * pow10 (Z.of_nat f))%Q in
        (if s then "-" else "") ++ toFixed_digits n f
  | S754_zero _ => toFixed_digits 0 f
  | _ => toString x
  end.

(** [ToBoolean] of a Number: zeros and NaN are falsy. *)
Definition truthy (x : float) : bool :=
  negb (PrimFloat.is_nan x || PrimFloat.is_zero x).

(** [x > y] *)
Definition gt (x y : float) : bool := PrimFloat.ltb y x.

End Number.

(* ================================================================= *)
(** ** JavaScript values of JSON shape *)

(** The values the handlers compute with: what [JSON.parse] returns, what is
    handed to [JSON.stringify], and [undefined].  An object is the list of
    its own properties in enumeration order. *)
Inductive value : Type :=
| VUndefined
| VNull
| VBool (b : bool)
| VNum (x : float)
| VStr (s : string)
| VArr (items : list value)
| VObj (props : list (string * value)).

(** [ToBoolean] *)
Definition truthy (v : value) : bool :=
  match v with
  | VUndefined | VNull => false
  | VBool b => b
  | VNum x => Number.truthy x
  | VStr s => negb (String.eqb s "")
  | VArr _ | VObj _ => true
  end.

(** [a || b] *)
Definition or_else (a b : value) : value := if truthy a then a else b.

Fixpoint lookup {A : Type} (k : string) (ps : list (string * A)) : option A :=
  match ps with
  | [] => None
  | (k', v) :: ps' => if String.eqb k k' then Some v else lookup k ps'
  end.

(** [v.k] for a property name [k] that no prototype defines (the names this
    program reads: name, description, trigger, steps, command, and the metric
    names): an own property of an object, [undefined] on any other value, and
    a TypeError ([None]) on [null] and [undefined]. *)
Definition get_prop (v : value) (k : string) : option value :=
  match v with
  | VUndefined | VNull => None
  | VObj ps => Some (match lookup k ps with Some x => x | None => VUndefined end)
  | _ => Some VUndefined
  end.

(** [v?.k] *)
Definition get_prop_opt (v : value) (k : string) : value :=
  match get_prop v k with Some x => x | None => VUndefined end.

(** *** Property order of ordinary objects *)

Definition is_digit (c : ascii) : bool := (48 <=? code c) && (code c <=? 57).

Fixpoint all_digits (s : string) : bool :=
  match s with
  | EmptyString => true
  | String c s' => is_digit c && all_digits s'
  end.

Fixpoint digits_value (acc : Z) (s : string) : Z :=
  match s with
  | EmptyString => acc
  | String c s' => digits_value (10 * acc + (code c - 48)) s'
  end.

(** An array index: the canonical decimal form of an integer below 2^32 - 1. *)
Definition array_index (k : string) : option Z :=
  match k with
  | EmptyString => None
  | String c rest =>
      if all_digits k && (negb (Ascii.eqb c "0") || String.eqb rest "")
         && (String.length k <=? 10)%nat && (digits_value 0 k <? 4294967295)
      then Some (digits_value 0 k) else None
  end.

Fixpoint replace_prop (k : string) (v : value) (ps : list (string * value))
  : list (string * value) :=
  match ps with
  | [] => []
  | (k', v') :: ps' =>
      if String.eqb k k' then (k', v) :: ps' else (k', v') :: replace_prop k v ps'
  end.

(** A new index key goes before the first property that is not a smaller
    index; a new string key goes last. *)
Fixpoint insert_index (i : Z) (k : string) (v : value) (ps : list (string * value))
  : list (string * value) :=
  match ps with
  | [] => [(k, v)]
  | (k', v') :: ps' =>
      match array_index k' with
      | Some j => if j <? i then (k', v') :: insert_index i k v ps'
                  else (k, v) :: ps
      | None => (k, v) :: ps
      end
  end.

(** [o[k] = v] on an ordinary object: an existing property keeps its place;
    integer keys enumerate first, in ascending order, then string keys in
    order of creation. *)
Definition obj_define (ps : list (string * value)) (k : string) (v : value)
  : list (string * value) :=
  match lookup k ps with
  | Some _ => replace_prop k v ps
  | None =>
      match array_index k with
      | Some i => insert_index i k v ps
      | None => ps ++ [(k, v)]
      end
  end.

(** [o[k] = v] as an assignment: on an object that inherits from
    [Object.prototype] the key [__proto__] reaches the inherited setter,
    which changes the prototype and creates no property. *)
Definition obj_assign (ps : list (string * value)) (k : string) (v : value)
  : list (string * value) :=
  if String.eqb k "__proto__" then ps else obj_define ps k v.

(* ================================================================= *)
(** ** JSON.stringify and JSON.parse *)

Module JSON.

Definition hex_digit (n : Z) : string :=
  String (chr (if n <? 10 then 48 + n else 87 + n)) EmptyString.

Definition hex4 (n : Z) : string :=
  hex_digit (n / 4096 mod 16) ++ hex_digit (n / 256 mod 16)
  ++ hex_digit (n / 16 mod 16) ++ hex_digit (n mod 16).

Definition escape_unit (n : Z) : string :=
  String (chr 92) (String "u" (hex4 n)).

(** The characters of a quoted JSON string.  A lone surrogate, held as its
    three-byte generalised UTF-8 form (ED A0..BF xx), is escaped. *)
Fixpoint quote_chars (s : string) : string :=
  match s with
  | EmptyString => EmptyString
  | String c rest =>
      let n := code c in
      let surrogate :=
        match rest with
        | String c1 (String c2 _) =>
            if (n =? 237) && (160 <=? code c1) then
              Some (55296 + (code c1 - 160) * 64 + (code c2 - 128))
            else None
        | _ => None
        end in
      match surrogate, rest with
      | Some u, String _ (String _ rest') => escape_unit u ++ quote_chars rest'
      | _, _ =>
          (if n =? 34 then String (chr 92) dquote
           else if n =? 92 then String (chr 92) (String (chr 92) EmptyString)
           else if n =? 8 then String (chr 92) "b"
           else if n =? 12 then String (chr 92) "f"
           else if n =? 10 then String (chr 92) "n"
           else if n =? 13 then String (chr 92) "r"
           else if n =? 9 then String (chr 92) "t"
           else if n <? 32 then escape_unit n
           else String c EmptyString) ++ quote_chars rest
      end
  end.

Definition quote (s : string) : string := quoted (quote_chars s).

(** [SerializeJSONProperty]: [None] is [undefined] (the property is left
    out of an object and written [null] in an array). *)
Fixpoint serialize (v : value) : option string :=
  match v with
  | VUndefined => None
  | VNull => Some "null"
  | VBool b => Some (if b then "true" else "false")
  | VNum x => Some (if PrimFloat.is_finite x then Number.toString x else "null")
  | VStr s => Some (quote s)
  | VArr items =>
      Some ("[" ++ String.concat ","
              (List.map (fun i => match serialize i with
                                  | Some t => t
                                  | None => "null"
                                  end) items) ++ "]")
  | VObj props =>
      Some ("{" ++ String.concat ","
              (List.flat_map (fun p => match serialize (snd p) with
                                       | Some t => [quote (fst p) ++ ":" ++ t]
                                       | None => []
                                       end) props) ++ "}")
  end.

(** [JSON.stringify(v)] for a [v] that is not [undefined]. *)
Definition stringify (v : value) : string :=
  match serialize v with Some t => t | None => "null" end.

(** *** JSON.parse *)

Definition is_ws (c : ascii) : bool :=
  let n := code c in (n =? 32) || (n =? 9) || (n =? 10) || (n =? 13).

Fixpoint skip_ws (s : string) : string :=
  match s with
  | String c rest => if is_ws c then skip_ws rest else s
  | EmptyString => s
  end.

Fixpoint strip_prefix (p s : string) : option string :=
  match p, s with
  | EmptyString, _ => Some s
  | String a p', String b s' => if Ascii.eqb a b then strip_prefix p' s' else None
  | String _ _, EmptyString => None
  end.

Definition hex_value (c : ascii) : option Z :=
  let n := code c in
  if (48 <=? n) && (n <=? 57) then Some (n - 48)
  else if (65 <=? n) && (n <=? 70) then Some (n - 55)
  else if (97 <=? n) && (n <=? 102) then Some (n - 87)
  else None.

Definition read_hex4 (s : string) : option (Z * string) :=
  match s with
  | String a (String b (String c (String d rest))) =>
      match hex_value a, hex_value b, hex_value c, hex_value d with
      | Some x, Some y, Some z, Some w => Some (((x * 16 + y) * 16 + z) * 16 + w, rest)
      | _, _, _, _ => None
      end
  | _ => None
  end.

(** The (generalised) UTF-8 bytes of a code point or of a lone surrogate. *)
Definition utf8 (u : Z) : string :=
  let byte n := String (chr n) EmptyString in
  if u <? 128 then byte u
  else if u <? 2048 then byte (192 + u / 64) ++ byte (128 + u mod 64)
  else if u <? 65536 then
    byte (224 + u / 4096) ++ byte (128 + u / 64 mod 64) ++ byte (128 + u mod 64)
  else
    byte (240 + u / 262144) ++ byte (128 + u / 4096 mod 64)
    ++ byte (128 + u / 64 mod 64) ++ byte (128 + u mod 64).

Definition is_high_surrogate (u : Z) : bool := (55296 <=? u) && (u <? 56320).
Definition is_low_surrogate (u : Z) : bool := (56320 <=? u) && (u <? 57344).

(** A [\uXXXX] escape whose four digits gave [u]: a high surrogate joins a
    low surrogate escape that follows it. *)
Definition read_unit (u : Z) (s : string) : Z * string :=
  if is_high_surrogate u then
    match strip_prefix (String (chr 92) "u") s with
    | Some s' =>
        match read_hex4 s' with
        | Some (l, s'') =>
            if is_low_surrogate l
            then (65536 + (u - 55296) * 1024 + (l - 56320), s'')
            else (u, s)
        | None => (u, s)
        end
    | None => (u, s)
    end
  else (u, s).

(** The characters of a string literal, after its opening quote. *)
Fixpoint read_string (fuel : nat) (s : string) (acc : string)
  : option (string * string) :=
  match fuel, s with
  | O, _ | _, EmptyString => None
  | S fuel', String c rest =>
      let n := code c in
      if n =? 34 then Some (acc, rest)
      else if n <? 32 then None
      else if n =? 92 then
        match rest with
        | EmptyString => None
        | String e rest' =>
            let m := code e in
            let simple (b : Z) :=
              read_string fuel' rest' (acc ++ String (chr b) EmptyString) in
            if m =? 34 then simple 34
            else if m =? 92 then simple 92
            else if m =? 47 then simple 47
            else if m =? 98 then simple 8
            else if m =? 102 then simple 12
            else if m =? 110 then simple 10
            else if m =? 114 then simple 13
            else if m =? 116 then simple 9
            else if m =? 117 then
              match read_hex4 rest' with
              | Some (u, after) =>
                  let '(cp, after') := read_unit u after in
                  read_string fuel' after' (acc ++ utf8 cp)
              | None => None
              end
            else None
        end
      else read_string fuel' rest (acc ++ String c EmptyString)
  end.

Fixpoint read_digits (s : string) (acc count : Z) : Z * Z * string :=
  match s with
  | String c rest =>
      if is_digit c then read_digits rest (10 * acc + (code c - 48)) (count + 1)
      else (acc, count, s)
  | EmptyString => (acc, count, s)
  end.

Definition read_sign (s : string) : bool * string :=
  match s with
  | String c rest => if code c =? 45 then (true, rest) else (false, s)
  | EmptyString => (false, s)
  end.

Definition read_fraction (int_part : Z) (s : string) : option (Z * Z * string) :=
  match s with
  | String c rest =>
      if code c =? 46 then
        let '(v, count, rest') := read_digits rest int_part 0 in
        if count =? 0 then None else Some (v, count, rest')
      else Some (int_part, 0, s)
  | EmptyString => Some (int_part, 0, s)
  end.

Definition read_exponent (s : string) : option (Z * string) :=
  match s with
  | String c rest =>
      if (code c =? 101) || (code c =? 69) then
        let '(neg, rest1) :=
          match rest with
          | String d rest' =>
              if code d =? 45 then (true, rest')
              else if code d =? 43 then (false, rest')
              else (false, rest)
          | EmptyString => (false, rest)
          end in
        let '(v, count, rest2) := read_digits rest1 0 0 in
        if count =? 0 then None else Some ((if neg then - v else v), rest2)
      else Some (0, s)
  | EmptyString => Some (0, s)
  end.

(** A number token: an optional minus sign; an integer part that is 0 or
    starts with a non-zero digit; an optional fraction of at least one
    digit; an optional exponent of at least one digit. *)
Definition read_number (s : string) : option (float * string) :=
  let '(neg, s1) := read_sign s in
  match s1 with
  | EmptyString => None
  | String c rest =>
      if is_digit c then
        let '(int_part, s2) :=
          if code c =? 48 then (0, rest)
          else let '(v, _, r) := read_digits s1 0 0 in (v, r) in
        match read_fraction int_part s2 with
        | None => None
        | Some (digits, frac_len, s3) =>
            match read_exponent s3 with
            | None => None
            | Some (e10, s4) =>
                let x := Number.of_decimal digits (e10 - frac_len) in
                Some ((if neg then PrimFloat.opp x else x), s4)
            end
        end
      else None
  end.

Definition read_literal (s : string) : option (value * string) :=
  match strip_prefix "true" s, strip_prefix "false" s, strip_prefix "null" s with
  | Some r, _, _ => Some (VBool true, r)
  | _, Some r, _ => Some (VBool false, r)
  | _, _, Some r => Some (VNull, r)
  | _, _, _ => None
  end.

Fixpoint parse_value (fuel : nat) (s : string) : option (value * string) :=
  match fuel with
  | O => None
  | S fuel' =>
      match skip_ws s with
      | EmptyString => None
      | String c rest as t =>
          let n := code c in
          if n =? 123 then
            match skip_ws rest with
            | String d r as body =>
                if code d =? 125 then Some (VObj [], r)
                else parse_members fuel' body []
            | EmptyString => None
            end
          else if n =? 91 then
            match skip_ws rest with
            | String d r as body =>
                if code d =? 93 then Some (VArr [], r)
                else parse_elements fuel' body []
            | EmptyString => None
            end
          else if n =? 34 then
            match read_string (S (String.length rest)) rest EmptyString with
            | Some (str, r) => Some (VStr str, r)
            | None => None
            end
          else if (n =? 45) || is_digit c then
            match read_number t with
            | Some (x, r) => Some (VNum x, r)
            | None => None
            end
          else read_literal t
      end
  end
with parse_elements (fuel : nat) (s : string) (acc : list value)
  : option (value * string) :=
  match fuel with
  | O => None
  | S fuel' =>
      match parse_value fuel' s with
      | Some (v, r) =>
          match skip_ws r with
          | String d r' =>
              if code d =? 44 then parse_elements fuel' r' (acc ++ [v])
              else if code d =? 93 then Some (VArr (acc ++ [v]), r')
              else None
          | EmptyString => None
          end
      | None => None
      end
  end
with parse_members (fuel : nat) (s : string) (acc : list (string * value))
  : option (value * string) :=
  match fuel with
  | O => None
  | S fuel' =>
      match skip_ws s with
      | EmptyString => None
      | String c rest =>
          if code c =? 34 then
            match read_string (S (String.length rest)) rest EmptyString with
            | Some (k, r) =>
                match skip_ws r with
                | String d r1 =>
                    if code d =? 58 then
                      match parse_value fuel' r1 with
                      | Some (v, r2) =>
                          match skip_ws r2 with
                          | String e r3 =>
                              if code e =? 44
                              then parse_members fuel' r3 (obj_define acc k v)
                              else if code e =? 125
                              then Some (VObj (obj_define acc k v), r3)
                              else None
                          | EmptyString => None
                          end
                      | None => None
                      end
                    else None
                | EmptyString => None
                end
            | None => None
            end
          else None
      end
  end.

(** [JSON.parse(text)]; [None] stands for the SyntaxError it throws. *)
Definition parse (text : string) : option value :=
  match parse_value (2 * String.length text + 2) text with
  | Some (v, r) =>
      match skip_ws r with
      | EmptyString => Some v
      | String _ _ => None
      end
  | None => None
  end.

End JSON.

(* ================================================================= *)
(** ** Date *)

(** A [Date] object is its time value: milliseconds since the epoch, UTC. *)
Module Date.

Definition msPerDay : Z := 86400000.

(** Year, month (1..12) and day of the month of a day number. *)
Definition civil (days : Z) : Z * Z * Z :=
  let z := days + 719468 in
  let era := z / 146097 in
  let doe := z - era * 146097 in
  let yoe := (doe - doe / 1460 + doe / 36524 - doe / 146096) / 365 in
  let doy := doe - (365 * yoe + yoe / 4 - yoe / 100) in
  let mp := (5 * doy + 2) / 153 in
  let d := doy - (153 * mp + 2) / 5 + 1 in
  let m := if mp <? 10 then mp + 3 else mp - 9 in
  let y := yoe + era * 400 + (if m <=? 2 then 1 else 0) in
  (y, m, d).

Definition year_string (y : Z) : string :=
  if (0 <=? y) && (y <=? 9999) then pad_digits 4 y
  else (if y <? 0 then "-" else "+") ++ pad_digits 6 (Z.abs y).

(** [t.toISOString()] *)
Definition toISOString (t : Z) : string :=
  let ms := t mod msPerDay in
  let '(y, m, d) := civil (t / msPerDay) in
  year_string y ++ "-" ++ pad_digits 2 m ++ "-" ++ pad_digits 2 d
  ++ "T" ++ pad_digits 2 (ms / 3600000) ++ ":" ++ pad_digits 2 (ms / 60000 mod 60)
  ++ ":" ++ pad_digits 2 (ms / 1000 mod 60) ++ "." ++ pad_digits 3 (ms mod 1000)
  ++ "Z".

(** [LocalTime(t)] and [UTC(t)] for a host whose [LocalTZA(t, isUTC)] is
    [tza t isUTC]: the offset of local time from UTC, in milliseconds, that
    the rules of the host's time zone give at the time value [t] (for
    [isUTC = true]) or at the local time [t] (for [isUTC = false]). *)
Definition LocalTime (tza : Z -> bool -> Z) (t : Z) : Z := t + tza t true.

Definition UTC (tza : Z -> bool -> Z) (t : Z) : Z := t - tza t false.

(** The time value [t.setHours(0, 0, 0, 0)] gives [t] (and returns):
    [UTC(MakeDate(Day(LocalTime(t)), 0))], the time value of 00:00:00.000 of
    the local calendar day of [t]. *)
Definition setHours0 (tza : Z -> bool -> Z) (t : Z) : Z :=
  UTC tza (LocalTime tza t / msPerDay * msPerDay).

(** [a - b] for two dates: the difference of their time values, a Number. *)
Definition sub (a b : Z) : float :=
  PrimFloat.sub (Number.of_Z a) (Number.of_Z b).

End Date.

(* ================================================================= *)
(** ** The document store *)

(** Documents carry the fields of the data model; a field a document lacks
    is [None] (or [VUndefined] where the field holds caller-supplied JSON),
    and so is a field that holds [null], except the timestamp of an alert,
    where the code tells the two apart (a query that orders by the field
    returns the documents where it is [null], and not those that lack it).
    A stored timestamp is the time value its [toDate()] returns.  Document
    ids are the store's: unique within a collection, and never [__proto__]
    (the store reserves ids of that form).  During one invocation no other
    client writes to the store. *)

Module Agent.
Record doc : Type := {
  last_heartbeat : option Z;
  version : option string;
  description : option string;
  capabilities : option (list string);
  metrics : value
}.
End Agent.

Module Lead.
Record doc : Type := {
  created : option Z;
  status : option string;
  score : option float
}.
End Lead.

(** A timestamp field that the store orders by: the document has no such
    field, the field holds [null], or it holds a Timestamp. *)
Inductive TimeField : Type :=
| Absent
| Null
| Timestamp (t : Z).

Module Alert.
Record doc : Type := {
  severity : option string;
  message : option string;
  agent_id : option string;
  timestamp : TimeField;
  resolved : option bool;
  resolved_at : option Z;
  resolved_by : option string
}.
End Alert.

Module Workflow.
Record doc : Type := {
  name : value;
  description : value;
  trigger : value;
  steps : value;
  status : value;
  created : option Z;
  created_by : value;
  completed_today : value
}.
End Workflow.

(** A collection lists its documents with their ids, in the order [get()]
    returns them, which is the order of the ids. *)
Record Store : Type := {
  prometheus_agents : list (string * Agent.doc);
  leads : list (string * Lead.doc);
  system_alerts : list (string * Alert.doc);
  workflows : list (string * Workflow.doc)
}.

(** What the handlers ask of the store, as recorded in the trace. *)
Inductive Operand : Type :=
| OStr (s : string)
| OBool (b : bool)
| ODate (t : Z).

Inductive StoreOp : Type :=
| OpGet (collection : string) (wheres : list (string * string * Operand))
        (orderBy : option (string * string)) (limit : option Z)
| OpUpdate (collection id : string)
| OpAdd (collection : string).

(** The errors the engine raises by itself. *)
Inductive EngineError : Type :=
| JsonSyntaxError (text : string)
| ReadOfNullish (property : string)
| NotAFunction (property : string).

Inductive LogEntry : Type :=
| ConsoleLog (text : string) (arg : value)
| ConsoleError (text : string) (error_message : string).

(** What one invocation is given from outside: the offsets from UTC of the
    host's time zone ([LocalTZA(t, isUTC)]), the successive readings of the
    clock, the upper case that Unicode gives a character outside ASCII,
    which store operations fail (and with what message), which documents the
    store refuses to add (and with what message), the ids the store
    generates, and the wording of the messages of the engine and of the
    store. *)
Record Env : Type := {
  tzOffset : Z -> bool -> Z;
  clock : nat -> Z;
  upperCase : string -> string;
  fault : nat -> option string;
  refuses : Workflow.doc -> option string;
  autoId : nat -> string;
  engineMessage : EngineError -> string;
  notFoundMessage : string -> string
}.

Record World : Type := {
  store : Store;
  ticks : nat;
  trace : list StoreOp;
  adds : nat;
  console : list LogEntry
}.

(* ================================================================= *)
(** ** Computations that read and write the world and may throw *)

Inductive outcome (A : Type) : Type :=
| Ok (a : A)
| Throw (message : string).
Arguments Ok {A} a.
Arguments Throw {A} message.

Definition M (A : Type) : Type := World -> outcome A * World.

Definition ret {A} (a : A) : M A := fun w => (Ok a, w).
Definition throw {A} (message : string) : M A := fun w => (Throw message, w).

Definition bind {A B} (m : M A) (k : A -> M B) : M B :=
  fun w =>
    match m w with
    | (Ok a, w') => k a w'
    | (Throw e, w') => (Throw e, w')
    end.

(** [try { m } catch (error) { h error }] *)
Definition try_catch {A} (m : M A) (h : string -> M A) : M A :=
  fun w =>
    match m w with
    | (Ok a, w') => (Ok a, w')
    | (Throw e, w') => h e w'
    end.

Declare Scope js_scope.
Delimit Scope js_scope with js.
Notation "x <- m ;; k" := (bind m (fun x => k))
  (at level 61, m at next level, right associativity) : js_scope.
Notation "m ;;; k" := (bind m (fun _ => k))
  (at level 61, right associativity) : js_scope.
Local Open Scope js_scope.

Definition with_store (s : Store) (w : World) : World :=
  {| store := s; ticks := ticks w; trace := trace w; adds := adds w;
     console := console w |}.

Definition log (entry : LogEntry) : M unit :=
  fun w =>
    (Ok tt, {| store := store w; ticks := ticks w; trace := trace w;
               adds := adds w; console := console w ++ [entry] |}).

(* ================================================================= *)
(** ** Requests and responses *)

Module Event.
Record t : Type := {
  httpMethod : string;
  path : string;
  body : option string
}.
End Event.

Record Response : Type := {
  statusCode : Z;
  headers : list (string * string);
  body : string
}.

(** [s.replace(pattern, replacement)] for a string pattern: the first
    occurrence only. *)
Definition replace_first (pattern replacement s : string) : string :=
  match String.index 0 pattern s with
  | Some i =>
      str_take i s ++ replacement ++ str_drop (i + String.length pattern) s
  | None => s
  end.

(** [s.split("/")] *)
Fixpoint split_slash (s : string) (current : string) : list string :=
  match s with
  | EmptyString => [current]
  | String c rest =>
      if Ascii.eqb c "/" then current :: split_slash rest EmptyString
      else split_slash rest (current ++ String c EmptyString)
  end.

(** [path.split("/").filter(Boolean)] *)
Definition path_segments (path : string) : list string :=
  List.filter (fun s => negb (String.eqb s "")) (split_slash path EmptyString).

(** [segments[i] === s] and [!segments[i]] *)
Definition segment_is (segments : list string) (i : nat) (s : string) : bool :=
  match nth_error segments i with
  | Some x => String.eqb x s
  | None => false
  end.

Definition no_segment (segments : list string) (i : nat) : bool :=
  match nth_error segments i with
  | Some x => String.eqb x ""
  | None => true
  end.

(** [segments[1]], read only where [segments[2]] has been matched. *)
Definition segment1 (segments : list string) : string := nth 1 segments "".

Definition toUpperCase_ascii (c : ascii) : ascii :=
  if (97 <=? code c) && (code c <=? 122) then chr (code c - 32) else c.

(** The number of bytes that the first character of [s] takes. *)
Definition first_char_bytes (s : string) : nat :=
  match s with
  | EmptyString => 0
  | String c _ =>
      let n := code c in
      if (192 <=? n) && (n <? 224) then 2
      else if (224 <=? n) && (n <? 240) then 3
      else if 240 <=? n then 4
      else 1
  end.

(** [s.charAt(0).toUpperCase() + s.slice(1)].  [charAt(0)] is the first
    UTF-16 code unit of [s]: its first character, unless that character
    lies outside the Basic Multilingual Plane (four bytes), where it is half
    of a surrogate pair, which has no upper case.  The upper case of a..z
    is A..Z; that of a character outside ASCII is [upper] of it, which may
    be longer than the character. *)
Definition capitalize (upper : string -> string) (s : string) : string :=
  match s with
  | EmptyString => EmptyString
  | String c rest =>
      match first_char_bytes s with
      | 2%nat | 3%nat =>
          upper (str_take (first_char_bytes s) s) ++ str_drop (first_char_bytes s) s
      | 4%nat => s
      | _ => String (toUpperCase_ascii c) rest
      end
  end.

(** [snapshot.size] and [array.length]: a count of elements.  Counts are
    kept as natural numbers, compared as such, and become binary64 Numbers
    where they enter a division, a product or the response. *)
Definition size {A} (snapshot : list A) : nat := List.length snapshot.

Definition count (n : nat) : value := VNum (Number.of_nat n).

(** [s.length] in UTF-16 code units, from the UTF-8 bytes. *)
Fixpoint utf16_length (s : string) : Z :=
  match s with
  | EmptyString => 0
  | String c rest =>
      let n := code c in
      (if (128 <=? n) && (n <? 192) then 0 else if 240 <=? n then 2 else 1)
      + utf16_length rest
  end.

(** [v?.length] *)
Definition length_opt (v : value) : value :=
  match v with
  | VArr items => count (List.length items)
  | VStr s => VNum (Number.of_Z (utf16_length s))
  | VObj props => match lookup "length" props with Some x => x | None => VUndefined end
  | _ => VUndefined
  end.

(** [x || d] for an optional string field. *)
Definition str_or (x : option string) (d : string) : string :=
  match x with
  | Some s => if String.eqb s "" then d else s
  | None => d
  end.

Definition opt_str (x : option string) : value :=
  match x with Some s => VStr s | None => VUndefined end.

Definition corsHeaders : list (string * string) :=
  [ ("Access-Control-Allow-Origin", "*");
    ("Access-Control-Allow-Headers", "Content-Type, Authorization");
    ("Access-Control-Allow-Methods", "GET, POST, PUT, DELETE, OPTIONS");
    ("Content-Type", "application/json") ].

(** [agents status]: lines 109-111. *)
Definition agent_status (timeSinceHeartbeat : float) : string :=
  if Number.gt timeSinceHeartbeat 300 then "offline"
  else if Number.gt timeSinceHeartbeat 60 then "degraded"
  else "healthy".

(** [(now - lastHeartbeat) / 1000] *)
Definition seconds_since (now lastHeartbeat : Z) : float :=
  (Date.sub now lastHeartbeat / 1000)%float.

(* ================================================================= *)
(** ** Store queries *)

Definition lead_created_since (t : Z) (d : string * Lead.doc) : bool :=
  match Lead.created (snd d) with
  | Some c => t <=? c
  | None => false
  end.

Definition lead_has_status (s : string) (d : string * Lead.doc) : bool :=
  match Lead.status (snd d) with
  | Some x => String.eqb x s
  | None => false
  end.

(** [data.score > 0.8] *)
Definition lead_is_hot (d : string * Lead.doc) : bool :=
  match Lead.score (snd d) with
  | Some x => Number.gt x 0.8
  | None => false
  end.

(** The store's order of the values of a timestamp field: [null] comes
    before every Timestamp, and Timestamps are in order of time. *)
Definition stamp_ltb (a b : TimeField) : bool :=
  match a, b with
  | Timestamp x, Timestamp y => x <? y
  | Timestamp _, _ => false
  | _, Timestamp _ => true
  | _, _ => false
  end.

Definition stamp_eqb (a b : TimeField) : bool :=
  match a, b with
  | Timestamp x, Timestamp y => x =? y
  | Timestamp _, _ | _, Timestamp _ => false
  | _, _ => true
  end.

(** [where('resolved', '==', false).orderBy('timestamp', 'desc').limit(n)]:
    the unresolved alerts that have a [timestamp] field, whatever it holds,
    latest first and those whose timestamp is [null] last (equal timestamps
    by descending id), at most [n] of them. *)
Definition alert_before (a b : string * Alert.doc) : bool :=
  stamp_ltb (Alert.timestamp (snd b)) (Alert.timestamp (snd a))
  || (stamp_eqb (Alert.timestamp (snd b)) (Alert.timestamp (snd a))
      && String.ltb (fst b) (fst a)).

Definition is_active (d : string * Alert.doc) : bool :=
  match Alert.resolved (snd d), Alert.timestamp (snd d) with
  | Some false, Absent => false
  | Some false, _ => true
  | _, _ => false
  end.

Fixpoint insert_alert (a : string * Alert.doc) (l : list (string * Alert.doc))
  : list (string * Alert.doc) :=
  match l with
  | [] => [a]
  | b :: l' => if alert_before a b then a :: l else b :: insert_alert a l'
  end.

Definition active_alerts (n : nat) (l : list (string * Alert.doc))
  : list (string * Alert.doc) :=
  firstn n (fold_right insert_alert [] (List.filter is_active l)).

(** [update({resolved: true, resolved_at, resolved_by})] on one document. *)
Definition resolve_doc (at_time : Z) (by_user : string) (d : Alert.doc) : Alert.doc :=
  {| Alert.severity := Alert.severity d;
     Alert.message := Alert.message d;
     Alert.agent_id := Alert.agent_id d;
     Alert.timestamp := Alert.timestamp d;
     Alert.resolved := Some true;
     Alert.resolved_at := Some at_time;
     Alert.resolved_by := Some by_user |}.

Fixpoint update_doc {A} (id : string) (f : A -> A) (l : list (string * A))
  : option (list (string * A)) :=
  match l with
  | [] => None
  | (k, d) :: l' =>
      if String.eqb k id then Some ((k, f d) :: l')
      else option_map (cons (k, d)) (update_doc id f l')
  end.

(** A collection with one more document: [get()] returns the documents of
    a collection in the order of their ids (byte by byte), so the document
    takes the place of its id. *)
Fixpoint insert_doc {A} (id : string) (d : A) (l : list (string * A))
  : list (string * A) :=
  match l with
  | [] => [(id, d)]
  | (k, x) :: l' =>
      if String.ltb id k then (id, d) :: l else (k, x) :: insert_doc id d l'
  end.

Definition set_alerts (l : list (string * Alert.doc)) (s : Store) : Store :=
  {| prometheus_agents := prometheus_agents s; leads := leads s;
     system_alerts := l; workflows := workflows s |}.

Definition set_workflows (l : list (string * Workflow.doc)) (s : Store) : Store :=
  {| prometheus_agents := prometheus_agents s; leads := leads s;
     system_alerts := system_alerts s; workflows := l |}.

(* ================================================================= *)
(** ** The handlers *)

Section Api.

Variable env : Env.

(** [new Date()]: the next reading of the clock. *)
Definition new_Date : M Z :=
  fun w =>
    (Ok (clock env (ticks w)),
     {| store := store w; ticks := S (ticks w); trace := trace w;
        adds := adds w; console := console w |}).

Definition throw_engine {A} (e : EngineError) : M A :=
  throw (engineMessage env e).

(** One awaited store operation: it is recorded in the trace, fails with
    the store's message when the environment says so, and otherwise runs
    against the store. *)
Definition store_op {A} (op : StoreOp) (run : Store -> outcome (A * Store)) : M A :=
  fun w =>
    let w1 := {| store := store w; ticks := ticks w; trace := trace w ++ [op];
                 adds := adds w; console := console w |} in
    match fault env (List.length (trace w)) with
    | Some message => (Throw message, w1)
    | None =>
        match run (store w) with
        | Ok (a, s) => (Ok a, with_store s w1)
        | Throw message => (Throw message, w1)
        end
    end.

Definition query {A} (op : StoreOp) (read : Store -> A) : M A :=
  store_op op (fun s => Ok (read s, s)).

(** *** GET /agents *)

(** [x.toFixed(1)] on a value: only a Number has the method. *)
Definition toFixed1 (v : value) : M string :=
  match v with
  | VNum x => ret (Number.toFixed x 1)
  | _ => throw_engine (NotAFunction "toFixed")
  end.

(** The body of the [forEach] callback, lines 102-125. *)
Definition shape_agent (now : Z) (agentId : string) (data : Agent.doc) : M value :=
  let lastHeartbeat :=
    match Agent.last_heartbeat data with Some t => t | None => now end in
  let timeSinceHeartbeat := seconds_since now lastHeartbeat in
  let status := agent_status timeSinceHeartbeat in
  let metric k := get_prop_opt (Agent.metrics data) k in
  uptime <- toFixed1 (or_else (metric "uptime_hours") (VNum 0)) ;;
  ret (VObj
    [ ("id", VStr agentId);
      ("name", VStr (capitalize (upperCase env) agentId));
      ("version", VStr (str_or (Agent.version data) "1.0.0"));
      ("status", VStr status);
      ("description", VStr (str_or (Agent.description data) (agentId ++ " Agent")));
      ("uptime", VStr (uptime ++ " hours"));
      ("tasksCompleted", or_else (metric "tasks_completed") (VNum 0));
      ("errorRate", or_else (metric "error_rate") (VNum 0));
      ("lastHeartbeat", VStr (Date.toISOString lastHeartbeat));
      ("capabilities",
        VArr (List.map VStr (match Agent.capabilities data with
                             | Some l => l
                             | None => []
                             end)));
      ("metrics", or_else (Agent.metrics data) (VObj [])) ]).

(** [agentsSnapshot.forEach(doc => { ... agents[agentId] = {...} })] *)
Fixpoint shape_agents (now : Z) (docs : list (string * Agent.doc))
  (agents : list (string * value)) : M (list (string * value)) :=
  match docs with
  | [] => ret agents
  | (agentId, data) :: rest =>
      a <- shape_agent now agentId data ;;
      shape_agents now rest (obj_assign agents agentId a)
  end.

Definition failure (headers : list (string * string)) (error : string) : Response :=
  {| statusCode := 500;
     headers := headers;
     body := JSON.stringify
               (VObj [("success", VBool false); ("error", VStr error)]) |}.

Definition handleGetAgents (headers : list (string * string)) : M Response :=
  try_catch
    (agentsSnapshot <-
       query (OpGet "prometheus_agents" [] None None) prometheus_agents ;;
     now <- new_Date ;;
     agents <- shape_agents now agentsSnapshot [] ;;
     ret {| statusCode := 200;
            headers := headers;
            body := JSON.stringify
                      (VObj [ ("success", VBool true);
                              ("agents", VObj agents);
                              ("timestamp", VStr (Date.toISOString now)) ]) |})
    (fun error =>
       log (ConsoleError "Error getting agents:" error) ;;;
       ret (failure headers error)).

(** *** POST /agents/:id/command *)

(** [JSON.parse(body || '{}')] *)
Definition parse_body (body : option string) : M value :=
  let text := match body with
              | Some s => if String.eqb s "" then "{}" else s
              | None => "{}"
              end in
  match JSON.parse text with
  | Some v => ret v
  | None => throw_engine (JsonSyntaxError text)
  end.

(** [v.k] *)
Definition member (v : value) (k : string) : M value :=
  match get_prop v k with
  | Some x => ret x
  | None => throw_engine (ReadOfNullish k)
  end.

Definition handleAgentCommand (agentId : string) (body : option string)
  (headers : list (string * string)) : M Response :=
  try_catch
    (command <- parse_body body ;;
     log (ConsoleLog ("Command for " ++ agentId ++ ":") command) ;;;
     name <- member command "command" ;;
     ret {| statusCode := 200;
            headers := headers;
            body := JSON.stringify
                      (VObj [ ("success", VBool true);
                              ("message", VStr ("Command sent to " ++ agentId));
                              ("command", name) ]) |})
    (fun error => ret (failure headers error)).

(** *** GET /leads/metrics *)

(** The [metrics] object of the success response, lines 227-233. *)
Definition lead_metrics (totalLeads leadsToday pendingCount hotCount converted : nat)
  : value :=
  let conversionRate :=
    if (0 <? totalLeads)%nat
    then (Number.of_nat converted / Number.of_nat totalLeads * 100)%float
    else 0%float in
  VObj [ ("total", count totalLeads);
         ("today", count leadsToday);
         ("pending", count pendingCount);
         ("hot", count hotCount);
         ("conversionRate", VStr (Number.toFixed conversionRate 1)) ].

Definition handleGetLeadMetrics (headers : list (string * string)) : M Response :=
  try_catch
    (invoked <- new_Date ;;
     (* [now.setHours(0, 0, 0, 0)] changes [now] itself and returns its new
        time value, from which [todayStart] is built. *)
     let now := Date.setHours0 (tzOffset env) invoked in
     let todayStart := now in
     allLeadsSnapshot <- query (OpGet "leads" [] None None) leads ;;
     let totalLeads := size allLeadsSnapshot in
     todayLeadsSnapshot <-
       query (OpGet "leads" [("created", ">=", ODate todayStart)] None None)
             (fun s => List.filter (lead_created_since todayStart) (leads s)) ;;
     let leadsToday := size todayLeadsSnapshot in
     pendingSnapshot <-
       query (OpGet "leads" [("status", "==", OStr "PENDING_RESEARCH")] None None)
             (fun s => List.filter (lead_has_status "PENDING_RESEARCH") (leads s)) ;;
     let pendingCount := size pendingSnapshot in
     let hotCount := size (List.filter lead_is_hot allLeadsSnapshot) in
     convertedSnapshot <-
       query (OpGet "leads" [("status", "==", OStr "CONVERTED")] None None)
             (fun s => List.filter (lead_has_status "CONVERTED") (leads s)) ;;
     ret {| statusCode := 200;
            headers := headers;
            body := JSON.stringify
                      (VObj [ ("success", VBool true);
                              ("metrics",
                                lead_metrics totalLeads leadsToday pendingCount
                                             hotCount (size convertedSnapshot));
                              ("timestamp", VStr (Date.toISOString now)) ]) |})
    (fun error =>
       log (ConsoleError "Error getting lead metrics:" error) ;;;
       ret (failure headers error)).

(** *** GET /alerts/active *)

Definition shape_alert (d : string * Alert.doc) : M value :=
  let data := snd d in
  stamp <- match Alert.timestamp data with
           | Timestamp t => ret (Date.toISOString t)
           | _ => t <- new_Date ;; ret (Date.toISOString t)
           end ;;
  ret (VObj [ ("id", VStr (fst d));
              ("severity", VStr (str_or (Alert.severity data) "info"));
              ("message", opt_str (Alert.message data));
              ("agent", VStr (str_or (Alert.agent_id data) "system"));
              ("timestamp", VStr stamp) ]).

Fixpoint shape_alerts (docs : list (string * Alert.doc)) : M (list value) :=
  match docs with
  | [] => ret []
  | d :: rest =>
      a <- shape_alert d ;;
      more <- shape_alerts rest ;;
      ret (a :: more)
  end.

Definition has_severity (s : string) (a : value) : bool :=
  match get_prop_opt a "severity" with
  | VStr x => String.eqb x s
  | _ => false
  end.

Definition handleGetAlerts (headers : list (string * string)) : M Response :=
  try_catch
    (alertsSnapshot <-
       query (OpGet "system_alerts" [("resolved", "==", OBool false)]
                    (Some ("timestamp", "desc")) (Some 50))
             (fun s => active_alerts 50 (system_alerts s)) ;;
     alerts <- shape_alerts alertsSnapshot ;;
     let with_severity s := size (List.filter (has_severity s) alerts) in
     let summary :=
       VObj [ ("total", count (size alerts));
              ("critical", count (with_severity "critical"));
              ("warning", count (with_severity "warning"));
              ("info", count (with_severity "info")) ] in
     ret {| statusCode := 200;
            headers := headers;
            body := JSON.stringify
                      (VObj [ ("success", VBool true);
                              ("alerts", VArr alerts);
                              ("summary", summary) ]) |})
    (fun error =>
       log (ConsoleError "Error getting alerts:" error) ;;;
       ret (failure headers error)).

(** *** POST /alerts/:id/resolve *)

(** [alertRef.update({...})]: the store refuses to update a document that
    does not exist. *)
Definition update_alert (alertId : string) (resolved_at : Z) (resolved_by : string)
  : M unit :=
  store_op (OpUpdate "system_alerts" alertId)
    (fun s =>
       match update_doc alertId (resolve_doc resolved_at resolved_by)
                        (system_alerts s) with
       | Some l => Ok (tt, set_alerts l s)
       | None => Throw (notFoundMessage env alertId)
       end).

Definition handleResolveAlert (alertId : string) (headers : list (string * string))
  : M Response :=
  try_catch
    (resolved_at <- new_Date ;;
     update_alert alertId resolved_at "dashboard_user" ;;;
     ret {| statusCode := 200;
            headers := headers;
            body := JSON.stringify
                      (VObj [ ("success", VBool true);
                              ("message", VStr ("Alert " ++ alertId ++ " resolved")) ]) |})
    (fun error => ret (failure headers error)).

(** *** GET /workflows *)

Definition shape_workflow (d : string * Workflow.doc) : value :=
  let data := snd d in
  VObj [ ("id", VStr (fst d));
         ("name", or_else (Workflow.name data) (VStr "Unnamed Workflow"));
         ("status", or_else (Workflow.status data) (VStr "inactive"));
         ("steps", or_else (length_opt (Workflow.steps data)) (VNum 0));
         ("completedToday", or_else (Workflow.completed_today data) (VNum 0));
         ("created", match Workflow.created data with
                     | Some t => VStr (Date.toISOString t)
                     | None => VNull
                     end) ].

Definition handleGetWorkflows (headers : list (string * string)) : M Response :=
  try_catch
    (workflowsSnapshot <- query (OpGet "workflows" [] None None) workflows ;;
     let workflows := List.map shape_workflow workflowsSnapshot in
     ret {| statusCode := 200;
            headers := headers;
            body := JSON.stringify
                      (VObj [ ("success", VBool true);
                              ("workflows", VArr workflows) ]) |})
    (fun error =>
       log (ConsoleError "Error getting workflows:" error) ;;;
       ret (failure headers error)).

(** *** POST /workflows *)

(** [db.collection('workflows').add(workflow)]: unless the store refuses
    the document, it is stored under an id the store generates. *)
Definition add_workflow (workflow : Workflow.doc) : M string :=
  fun w =>
    let id := autoId env (adds w) in
    store_op (OpAdd "workflows")
      (fun s =>
         match refuses env workflow with
         | Some message => Throw message
         | None => Ok (id, set_workflows (insert_doc id workflow (workflows s)) s)
         end)
      {| store := store w; ticks := ticks w; trace := trace w;
         adds := S (adds w); console := console w |}.

(** The object literal of lines 374-383. *)
Definition new_workflow (workflowData : value) : M Workflow.doc :=
  name <- member workflowData "name" ;;
  description <- member workflowData "description" ;;
  trigger <- member workflowData "trigger" ;;
  steps <- member workflowData "steps" ;;
  created <- new_Date ;;
  ret {| Workflow.name := or_else name (VStr "New Workflow");
         Workflow.description := or_else description (VStr "");
         Workflow.trigger := or_else trigger (VStr "manual");
         Workflow.steps := or_else steps (VArr []);
         Workflow.status := VStr "active";
         Workflow.created := Some created;
         Workflow.created_by := VStr "dashboard_user";
         Workflow.completed_today := VNum 0 |}.

Definition handleCreateWorkflow (body : option string)
  (headers : list (string * string)) : M Response :=
  try_catch
    (workflowData <- parse_body body ;;
     workflow <- new_workflow workflowData ;;
     docRef_id <- add_workflow workflow ;;
     ret {| statusCode := 200;
            headers := headers;
            body := JSON.stringify
                      (VObj [ ("success", VBool true);
                              ("workflow_id", VStr docRef_id);
                              ("message", VStr "Workflow created successfully") ]) |})
    (fun error => ret (failure headers error)).

(** *** POST /roi/calculate *)

(** The [roi] object of the success response, lines 426-450. *)
Definition roi (agentsCount totalLeads convertedLeads : nat) : value :=
  let tasksCompleted := 50000%float in
  let timesSavedHours := (tasksCompleted * 0.083)%float in
  let annualTimeSavings := (timesSavedHours * 75 * 12)%float in
  let conversionRate :=
    if (0 <? totalLeads)%nat
    then (Number.of_nat convertedLeads / Number.of_nat totalLeads)%float
    else 0.15%float in
  let annualLeadRevenue := (Number.of_nat convertedLeads * 5000 * 12)%float in
  let totalROI := (annualTimeSavings + annualLeadRevenue)%float in
  VObj [ ("agents_deployed", count agentsCount);
         ("total_leads_processed", count totalLeads);
         ("leads_converted", count convertedLeads);
         ("conversion_rate", VStr (Number.toFixed (conversionRate * 100) 1));
         ("time_saved_hours_annual", VNum (Number.Math_round (timesSavedHours * 12)));
         ("cost_savings_annual", VNum (Number.Math_round annualTimeSavings));
         ("revenue_from_leads_annual", VNum (Number.Math_round annualLeadRevenue));
         ("total_roi_annual", VNum (Number.Math_round totalROI));
         ("roi_multiple", VStr (Number.toFixed (totalROI / 50000) 1)) ].

Definition handleCalculateROI (headers : list (string * string)) : M Response :=
  try_catch
    (agentsSnapshot <-
       query (OpGet "prometheus_agents" [] None None) prometheus_agents ;;
     let agentsCount := size agentsSnapshot in
     totalLeadsSnapshot <- query (OpGet "leads" [] None None) leads ;;
     let totalLeads := size totalLeadsSnapshot in
     convertedSnapshot <-
       query (OpGet "leads" [("status", "==", OStr "CONVERTED")] None None)
             (fun s => List.filter (lead_has_status "CONVERTED") (leads s)) ;;
     let convertedLeads := size convertedSnapshot in
     ret {| statusCode := 200;
            headers := headers;
            body := JSON.stringify
                      (VObj [ ("success", VBool true);
                              ("roi", roi agentsCount totalLeads convertedLeads) ]) |})
    (fun error =>
       log (ConsoleError "Error calculating ROI:" error) ;;;
       ret (failure headers error)).

(** *** The router *)

Definition not_found (headers : list (string * string)) : Response :=
  {| statusCode := 404;
     headers := headers;
     body := JSON.stringify (VObj [("error", VStr "Endpoint not found")]) |}.

(** [exports.handler], lines 20-91: the cases of [switch (true)] are tried
    in order and the first that holds is taken. *)
Definition handler (event : Event.t) : M Response :=
  let headers := corsHeaders in
  let method := Event.httpMethod event in
  if String.eqb method "OPTIONS" then
    ret {| statusCode := 200; headers := headers; body := "" |}
  else
    let path := replace_first "/.netlify/functions/api" "" (Event.path event) in
    let segments := path_segments path in
    try_catch
      (if String.eqb method "GET" && segment_is segments 0 "agents"
          && no_segment segments 1
       then handleGetAgents headers
       else if String.eqb method "POST" && segment_is segments 0 "agents"
               && segment_is segments 2 "command"
       then handleAgentCommand (segment1 segments) (Event.body event) headers
       else if String.eqb method "GET" && segment_is segments 0 "leads"
               && segment_is segments 1 "metrics"
       then handleGetLeadMetrics headers
       else if String.eqb method "GET" && segment_is segments 0 "alerts"
               && segment_is segments 1 "active"
       then handleGetAlerts headers
       else if String.eqb method "POST" && segment_is segments 0 "alerts"
               && segment_is segments 2 "resolve"
       then handleResolveAlert (segment1 segments) headers
       else if String.eqb method "GET" && segment_is segments 0 "workflows"
       then handleGetWorkflows headers
       else if String.eqb method "POST" && segment_is segments 0 "workflows"
       then handleCreateWorkflow (Event.body event) headers
       else if String.eqb method "POST" && segment_is segments 0 "roi"
               && segment_is segments 1 "calculate"
       then handleCalculateROI headers
       else ret (not_found headers))
      (fun error =>
         log (ConsoleError "API Error:" error) ;;;
         ret {| statusCode := 500;
                headers := headers;
                body := JSON.stringify
                          (VObj [ ("error", VStr "Internal server error");
                                  ("message", VStr error) ]) |}).

End Api.

(* ================================================================= *)
(** * Properties *)

(** ** Vocabulary of the statements *)

(** The world once the store operations [ops] have been recorded. *)
Definition traced (ops : list StoreOp) (w : World) : World :=
  {| store := store w; ticks := ticks w; trace := trace w ++ ops;
     adds := adds w; console := console w |}.

(** The world once the clock has been read. *)
Definition ticked (w : World) : World :=
  {| store := store w; ticks := S (ticks w); trace := trace w;
     adds := adds w; console := console w |}.

(** The store answers the next [n] operations. *)
Definition store_up (env : Env) (w : World) (n : nat) : Prop :=
  forall i, (i < n)%nat -> fault env (List.length (trace w) + i) = None.

(** The routes of [handler], in the order of its cases: a method and a test
    on the path segments. *)
Definition routes : list (string * (list string -> bool)) :=
  [ ("GET", fun s => segment_is s 0 "agents" && no_segment s 1);
    ("POST", fun s => segment_is s 0 "agents" && segment_is s 2 "command");
    ("GET", fun s => segment_is s 0 "leads" && segment_is s 1 "metrics");
    ("GET", fun s => segment_is s 0 "alerts" && segment_is s 1 "active");
    ("POST", fun s => segment_is s 0 "alerts" && segment_is s 2 "resolve");
    ("GET", fun s => segment_is s 0 "workflows");
    ("POST", fun s => segment_is s 0 "workflows");
    ("POST", fun s => segment_is s 0 "roi" && segment_is s 1 "calculate") ].

Definition route_matches (method : string) (segments : list string)
  (r : string * (list string -> bool)) : bool :=
  String.eqb method (fst r) && snd r segments.

(** No route matches the request. *)
Definition unrouted (method : string) (segments : list string) : bool :=
  forallb (fun r => negb (route_matches method segments r)) routes.

(** The segments the router matches on. *)
Definition segments_of (event : Event.t) : list string :=
  path_segments (replace_first "/.netlify/functions/api" "" (Event.path event)).

(** The text [{"error":"Endpoint not found"}]. *)
Definition not_found_text : string :=
  "{" ++ quoted "error" ++ ":" ++ quoted "Endpoint not found" ++ "}".

(** The text [JSON.parse] is given: [body || '{}']. *)
Definition body_text (body : option string) : string :=
  match body with
  | Some s => if String.eqb s "" then "{}" else s
  | None => "{}"
  end.

(** The heartbeat the listing takes for a document: its own, or [now]. *)
Definition heartbeat (now : Z) (data : Agent.doc) : Z :=
  match Agent.last_heartbeat data with Some t => t | None => now end.

(** Every alert that is resolved in [s] is still there and resolved in [s']. *)
Definition resolved_kept (s s' : Store) : Prop :=
  forall id a,
    lookup id (system_alerts s) = Some a ->
    Alert.resolved a = Some true ->
    exists a', lookup id (system_alerts s') = Some a' /\ Alert.resolved a' = Some true.

(** A computation all of whose runs keep resolved alerts resolved. *)
Definition keeps_resolved {A} (m : M A) : Prop :=
  forall w r w', m w = (r, w') -> resolved_kept (store w) (store w').

(** The response of a run (the handlers always return one). *)
Definition response_of (run : outcome Response * World) : Response :=
  match fst run with
  | Ok resp => resp
  | Throw message => {| statusCode := 0; headers := []; body := message |}
  end.

(** ** Sample invocations *)

(** An array that holds an array, anywhere in a value. *)
Fixpoint has_nested_array (v : value) : bool :=
  match v with
  | VArr items =>
      existsb (fun i => match i with
                        | VArr _ => true
                        | _ => has_nested_array i
                        end) items
  | VObj props => existsb (fun p => has_nested_array (snd p)) props
  | _ => false
  end.

(** The upper case of [e] with an acute accent (C3 A9) and of the sharp s
    (C3 9F), which is two letters. *)
Definition sample_upper (ch : string) : string :=
  if String.eqb ch (String (chr 195) (String (chr 169) EmptyString))
  then String (chr 195) (String (chr 137) EmptyString)
  else if String.eqb ch (String (chr 195) (String (chr 159) EmptyString))
  then "SS"
  else ch.

(** A store that refuses the documents with an array in an array. *)
Definition sample_refuses (doc : Workflow.doc) : option string :=
  if has_nested_array (Workflow.name doc) || has_nested_array (Workflow.description doc)
     || has_nested_array (Workflow.trigger doc) || has_nested_array (Workflow.steps doc)
  then Some "3 INVALID_ARGUMENT: Cannot convert an array value in an array value."
  else None.

(** A host on UTC whose clock reads 2025-11-02T04:00:00.123Z and advances a
    second per reading, with a store that answers every operation and
    refuses only the documents with an array in an array. *)
Definition sample_env : Env :=
  {| tzOffset := fun _ _ => 0;
     clock := fun n => 1762056000123 + 1000 * Z.of_nat n;
     upperCase := sample_upper;
     fault := fun _ => None;
     refuses := sample_refuses;
     autoId := fun n => "wf" ++ digits_of_Z (Z.of_nat n);
     engineMessage := fun e =>
       match e with
       | JsonSyntaxError _ => "Unexpected end of JSON input"
       | ReadOfNullish p => "Cannot read properties of null (reading '" ++ p ++ "')"
       | NotAFunction p => p ++ " is not a function"
       end;
     notFoundMessage := fun id => "5 NOT_FOUND: No document to update: " ++ id |}.

Definition sample_now : Z := 1762056000123.

Definition empty_store : Store :=
  {| prometheus_agents := []; leads := []; system_alerts := []; workflows := [] |}.

Definition fresh (s : Store) : World :=
  {| store := s; ticks := 0; trace := []; adds := 0; console := [] |}.

Definition request (method path : string) (body : option string) : Event.t :=
  {| Event.httpMethod := method; Event.path := path; Event.body := body |}.

Definition agent_seen (t : option Z) : Agent.doc :=
  {| Agent.last_heartbeat := t; Agent.version := None; Agent.description := None;
     Agent.capabilities := None; Agent.metrics := VUndefined |}.

(** Agents last seen exactly 60 s, exactly 300 s and 90 s before the clock
    reading, and one never seen. *)
Definition agents_store : Store :=
  {| prometheus_agents :=
       [ ("sixty", agent_seen (Some (sample_now - 60000)));
         ("threehundred", agent_seen (Some (sample_now - 300000)));
         ("agent_x", agent_seen (Some (sample_now - 90000)));
         ("unseen", agent_seen None) ];
     leads := []; system_alerts := []; workflows := [] |}.

Definition lead (status : string) (score : float) : Lead.doc :=
  {| Lead.created := Some (sample_now - 1000);
     Lead.status := Some status;
     Lead.score := Some score |}.

Definition numbered {A} (prefix : string) (docs : list A) : list (string * A) :=
  List.map (fun p => (prefix ++ digits_of_Z (Z.of_nat (fst p)), snd p))
           (List.combine (List.seq 0 (List.length docs)) docs).

(** Ten leads, three of them converted; two have a score above 0.8 and one
    has a score of exactly 0.8. *)
Definition ten_leads : Store :=
  {| prometheus_agents := [];
     leads := numbered "lead"
                ([ lead "CONVERTED" 0.8; lead "CONVERTED" 0.9; lead "CONVERTED" 0.5;
                   lead "PENDING_RESEARCH" 0.81 ]
                 ++ List.repeat (lead "CONTACTED" 0.3) 6);
     system_alerts := []; workflows := [] |}.

(** Two agents and a hundred leads, fifteen of them converted. *)
Definition hundred_leads : Store :=
  {| prometheus_agents := [("a", agent_seen None); ("b", agent_seen None)];
     leads := numbered "lead"
                (List.repeat (lead "CONVERTED" 0.9) 15
                 ++ List.repeat (lead "CONTACTED" 0.3) 85);
     system_alerts := []; workflows := [] |}.

Definition alert (resolved : bool) : Alert.doc :=
  {| Alert.severity := Some "critical"; Alert.message := Some "disk full";
     Alert.agent_id := None; Alert.timestamp := Timestamp (sample_now - 5000);
     Alert.resolved := Some resolved; Alert.resolved_at := None;
     Alert.resolved_by := None |}.

Definition alerts_store : Store :=
  {| prometheus_agents := []; leads := [];
     system_alerts := [("open", alert false); ("closed", alert true)];
     workflows := [] |}.

(** A body that supplies the fields the handler fixes:
    [{"status":"paused","completed_today":7,"created_by":"mallory","name":"N"}]. *)
Definition overriding_body : string :=
  "{" ++ quoted "status" ++ ":" ++ quoted "paused" ++ ","
  ++ quoted "completed_today" ++ ":7,"
  ++ quoted "created_by" ++ ":" ++ quoted "mallory" ++ ","
  ++ quoted "name" ++ ":" ++ quoted "N" ++ "}".

(** The agent listing on [agents_store], and the statuses it reports. *)
Definition agents_run : outcome Response * World :=
  handleGetAgents sample_env corsHeaders (fresh agents_store).

Definition listed_agents : list (string * value) :=
  match shape_agents sample_env sample_now (prometheus_agents agents_store) []
                     (fresh agents_store) with
  | (Ok agents, _) => agents
  | (Throw _, _) => []
  end.

Definition reported_status (agents : list (string * value)) (id : string)
  : option value :=
  match lookup id agents with
  | Some entry => get_prop entry "status"
  | None => None
  end.

(** ** Vocabulary of the further properties *)

(** A computation that returns on every world, with a result in [P]. *)
Definition returns {A} (P : A -> Prop) (m : M A) : Prop :=
  forall w, exists a w', m w = (Ok a, w') /\ P a.

(** A computation whose results, when it returns, are in [P]. *)
Definition yields {A} (P : A -> Prop) (m : M A) : Prop :=
  forall w a w', m w = (Ok a, w') -> P a.

(** A computation all of whose runs relate the store before to the store
    after by [R]. *)
Definition preserves (R : Store -> Store -> Prop) {A} (m : M A) : Prop :=
  forall w r w', m w = (r, w') -> R (store w) (store w').

(** What a handler answers: 200, or the 500 that carries a message. *)
Definition answered (h : list (string * string)) (resp : Response) : Prop :=
  headers resp = h
  /\ (statusCode resp = 200 \/ exists message, resp = failure h message).

(** An alert of the store after a request: it has the id, the severity,
    the message, the agent and the timestamp it had, and either it is the
    document it was or it is resolved. *)
Definition alert_kept (a a' : string * Alert.doc) : Prop :=
  fst a' = fst a
  /\ Alert.severity (snd a') = Alert.severity (snd a)
  /\ Alert.message (snd a') = Alert.message (snd a)
  /\ Alert.agent_id (snd a') = Alert.agent_id (snd a)
  /\ Alert.timestamp (snd a') = Alert.timestamp (snd a)
  /\ (snd a' = snd a \/ Alert.resolved (snd a') = Some true).

(** The documents of [l] are documents of [l'], as they were and in the
    same order: [l'] is [l] with documents put in. *)
Inductive kept_in {A : Type} : list A -> list A -> Prop :=
| kept_nil : kept_in [] []
| kept_same (x : A) (l l' : list A) : kept_in l l' -> kept_in (x :: l) (x :: l')
| kept_new (x : A) (l l' : list A) : kept_in l l' -> kept_in l (x :: l').

(** The store [s'] holds every document of [s]: the agents and the leads
    are the same, the alerts are the same but for their resolution, and the
    workflows of [s] are workflows of [s'], unchanged and in the same
    order. *)
Definition nothing_lost (s s' : Store) : Prop :=
  prometheus_agents s' = prometheus_agents s
  /\ leads s' = leads s
  /\ Forall2 alert_kept (system_alerts s) (system_alerts s')
  /\ kept_in (workflows s) (workflows s').

Definition unchanged (s s' : Store) : Prop := s' = s.

(** The routes that match a request. *)
Definition matching_routes (method : string) (segments : list string)
  : list (string * (list string -> bool)) :=
  List.filter (route_matches method segments) routes.

(** A string without [/]. *)
Fixpoint slash_free (s : string) : bool :=
  match s with
  | EmptyString => true
  | String c rest => negb (Ascii.eqb c "/") && slash_free rest
  end.

(** A path segment: not empty, and without [/]. *)
Definition is_segment (s : string) : bool :=
  negb (String.eqb s "") && slash_free s.

(** The world once [entry] has been written to the console. *)
Definition logged (entry : LogEntry) (w : World) : World :=
  {| store := store w; ticks := ticks w; trace := trace w;
     adds := adds w; console := (console w ++ [entry])%list |}.

(** [(data.metrics?.uptime_hours || 0)] is a Number, which has [toFixed]. *)
Definition uptime_is_number (d : string * Agent.doc) : bool :=
  match or_else (get_prop_opt (Agent.metrics (snd d)) "uptime_hours") (VNum 0) with
  | VNum _ => true
  | _ => false
  end.

(** A host like [sample_env] whose store fails its operation number [k]
    (from 0) and answers the others. *)
Definition unavailable : string := "14 UNAVAILABLE: No connection established".

Definition failing_at (k : nat) : Env :=
  {| tzOffset := tzOffset sample_env;
     clock := clock sample_env;
     upperCase := upperCase sample_env;
     fault := fun n => if Nat.eqb n k then Some unavailable else None;
     refuses := refuses sample_env;
     autoId := autoId sample_env;
     engineMessage := engineMessage sample_env;
     notFoundMessage := notFoundMessage sample_env |}.

(** An agent whose stored uptime is the text [12]. *)
Definition agent_with_text_uptime : Agent.doc :=
  {| Agent.last_heartbeat := None; Agent.version := None; Agent.description := None;
     Agent.capabilities := None;
     Agent.metrics := VObj [("uptime_hours", VStr "12")] |}.

Definition text_uptime_store : Store :=
  {| prometheus_agents :=
       [ ("first", agent_seen None); ("second", agent_with_text_uptime) ];
     leads := []; system_alerts := []; workflows := [] |}.

(** The entry of the alert listing for the document [d], listed with the
    time [t]. *)
Definition listed_alert (d : string * Alert.doc) (t : Z) : value :=
  VObj [ ("id", VStr (fst d));
         ("severity", VStr (str_or (Alert.severity (snd d)) "info"));
         ("message", opt_str (Alert.message (snd d)));
         ("agent", VStr (str_or (Alert.agent_id (snd d)) "system"));
         ("timestamp", VStr (Date.toISOString t)) ].

(** The entries of the alert listing for [docs], the clock having been read
    [n] times before: a document is listed with its Timestamp, and one whose
    timestamp is not a Timestamp with a reading of the clock made for it. *)
Fixpoint listed_alerts (env : Env) (n : nat) (docs : list (string * Alert.doc))
  : list value :=
  match docs with
  | [] => []
  | d :: rest =>
      match Alert.timestamp (snd d) with
      | Timestamp t => listed_alert d t :: listed_alerts env n rest
      | _ => listed_alert d (clock env n) :: listed_alerts env (S n) rest
      end
  end.

(** The documents that are listed with a reading of the clock. *)
Definition without_timestamp (d : string * Alert.doc) : bool :=
  match Alert.timestamp (snd d) with
  | Timestamp _ => false
  | _ => true
  end.

(** The world once the clock has been read [k] times. *)
Definition ticked_by (k : nat) (w : World) : World :=
  {| store := store w; ticks := (ticks w + k)%nat; trace := trace w;
     adds := adds w; console := console w |}.

(** The severity the listing reports for a document, and the number of
    documents reported with a given severity. *)
Definition reported_severity (d : string * Alert.doc) : string :=
  str_or (Alert.severity (snd d)) "info".

Definition with_severity (s : string) (docs : list (string * Alert.doc)) : nat :=
  List.length (List.filter (fun d => String.eqb (reported_severity d) s) docs).

(** The response of the alert listing for the documents [docs], the clock
    having been read [n] times before. *)
Definition alerts_response (env : Env) (h : list (string * string)) (n : nat)
  (docs : list (string * Alert.doc)) : Response :=
  {| statusCode := 200;
     headers := h;
     body := JSON.stringify
               (VObj [ ("success", VBool true);
                       ("alerts", VArr (listed_alerts env n docs));
                       ("summary",
                         VObj [ ("total", count (List.length docs));
                                ("critical", count (with_severity "critical" docs));
                                ("warning", count (with_severity "warning" docs));
                                ("info", count (with_severity "info" docs)) ]) ]) |}.

(** The query of the alert listing. *)
Definition active_alerts_query : StoreOp :=
  OpGet "system_alerts" [("resolved", "==", OBool false)]
        (Some ("timestamp", "desc")) (Some 50).

(** A collection without the document [id]. *)
Definition without {A} (id : string) (l : list (string * A)) : list (string * A) :=
  List.filter (fun d => negb (String.eqb (fst d) id)) l.

(** Three open alerts, one of them without a severity and one with a
    severity of the store's own, and a resolved one. *)
Definition alert_of (severity : option string) (seconds_ago : Z) (resolved : bool)
  : Alert.doc :=
  {| Alert.severity := severity; Alert.message := Some "disk full";
     Alert.agent_id := None;
     Alert.timestamp := Timestamp (sample_now - 1000 * seconds_ago);
     Alert.resolved := Some resolved; Alert.resolved_at := None;
     Alert.resolved_by := None |}.

Definition mixed_alerts : Store :=
  {| prometheus_agents := []; leads := [];
     system_alerts :=
       [ ("a", alert_of (Some "critical") 30 false);
         ("b", alert_of None 10 false);
         ("c", alert_of (Some "fatal") 20 false);
         ("d", alert_of (Some "warning") 5 true) ];
     workflows := [] |}.

(** The alerts of [mixed_alerts] and two more open ones: [n], whose
    timestamp is [null], and [m], which has no timestamp field. *)
Definition alert_stamped (stamp : TimeField) : Alert.doc :=
  {| Alert.severity := Some "warning"; Alert.message := None;
     Alert.agent_id := Some "scout"; Alert.timestamp := stamp;
     Alert.resolved := Some false; Alert.resolved_at := None;
     Alert.resolved_by := None |}.

Definition null_stamp_alerts : Store :=
  {| prometheus_agents := []; leads := [];
     system_alerts :=
       (system_alerts mixed_alerts
        ++ [ ("m", alert_stamped Absent); ("n", alert_stamped Null) ])%list;
     workflows := [] |}.

(** The document that the creation handler builds for the body [data] at
    the clock reading [created]. *)
Definition workflow_of (data : value) (created : Z) : Workflow.doc :=
  {| Workflow.name := or_else (get_prop_opt data "name") (VStr "New Workflow");
     Workflow.description := or_else (get_prop_opt data "description") (VStr "");
     Workflow.trigger := or_else (get_prop_opt data "trigger") (VStr "manual");
     Workflow.steps := or_else (get_prop_opt data "steps") (VArr []);
     Workflow.status := VStr "active";
     Workflow.created := Some created;
     Workflow.created_by := VStr "dashboard_user";
     Workflow.completed_today := VNum 0 |}.

(** The entry of the workflow listing for the workflow that the creation
    handler stores for the body [data], under the id [id], at [created]. *)
Definition created_entry (id : string) (data : value) (created : Z) : value :=
  VObj [ ("id", VStr id);
         ("name", or_else (get_prop_opt data "name") (VStr "New Workflow"));
         ("status", VStr "active");
         ("steps",
           or_else (length_opt (or_else (get_prop_opt data "steps") (VArr [])))
                   (VNum 0));
         ("completedToday", VNum 0);
         ("created", VStr (Date.toISOString created)) ].

(** The response of the workflow listing for the entries [entries]. *)
Definition workflows_response (h : list (string * string)) (entries : list value)
  : Response :=
  {| statusCode := 200;
     headers := h;
     body := JSON.stringify
               (VObj [ ("success", VBool true); ("workflows", VArr entries) ]) |}.

(** The body [{"name":"Nightly","steps":["a","b"]}]. *)
Definition nightly_body : string :=
  "{" ++ quoted "name" ++ ":" ++ quoted "Nightly" ++ ","
  ++ quoted "steps" ++ ":[" ++ quoted "a" ++ "," ++ quoted "b" ++ "]}".

(** The body [{"steps":[["a"]]}], whose steps hold an array in an array. *)
Definition nested_body : string :=
  "{" ++ quoted "steps" ++ ":[[" ++ quoted "a" ++ "]]}".

(** A store with the workflows [m] and [zzz]. *)
Definition stored_workflow : Workflow.doc :=
  {| Workflow.name := VStr "Old"; Workflow.description := VUndefined;
     Workflow.trigger := VUndefined; Workflow.steps := VUndefined;
     Workflow.status := VUndefined; Workflow.created := None;
     Workflow.created_by := VUndefined; Workflow.completed_today := VUndefined |}.

Definition two_workflows : Store :=
  {| prometheus_agents := []; leads := []; system_alerts := [];
     workflows := [("m", stored_workflow); ("zzz", stored_workflow)] |}.

(** *** The route table of the specification *)

(** A segment of a path pattern: a literal, or a parameter. *)
Inductive Pattern : Type :=
| Lit (s : string)
| Param.

(** The table of section 6 of the specification. *)
Definition route_table : list (string * list Pattern) :=
  [ ("GET", [Lit "agents"]);
    ("POST", [Lit "agents"; Param; Lit "command"]);
    ("GET", [Lit "leads"; Lit "metrics"]);
    ("GET", [Lit "alerts"; Lit "active"]);
    ("POST", [Lit "alerts"; Param; Lit "resolve"]);
    ("GET", [Lit "workflows"]);
    ("POST", [Lit "workflows"]);
    ("POST", [Lit "roi"; Lit "calculate"]) ].

(** The segments are those of the pattern, one for one. *)
Fixpoint is_path (pattern : list Pattern) (segments : list string) : bool :=
  match pattern, segments with
  | [], [] => true
  | Lit s :: pattern', x :: segments' => String.eqb x s && is_path pattern' segments'
  | Param :: pattern', _ :: segments' => is_path pattern' segments'
  | _, _ => false
  end.

(** The segments begin with those of the pattern. *)
Fixpoint begins_with (pattern : list Pattern) (segments : list string) : bool :=
  match pattern, segments with
  | [], _ => true
  | Lit s :: pattern', x :: segments' =>
      String.eqb x s && begins_with pattern' segments'
  | Param :: pattern', _ :: segments' => begins_with pattern' segments'
  | _ :: _, [] => false
  end.

(** The request matches an entry of the table, as the specification reads
    it: the method is the entry's and the path is the entry's. *)
Definition in_route_table (method : string) (segments : list string) : bool :=
  existsb (fun r => String.eqb method (fst r) && is_path (snd r) segments)
          route_table.

(** The entry [GET /agents]. *)
Definition is_agent_listing (r : string * list Pattern) : bool :=
  String.eqb (fst r) "GET" && is_path (snd r) ["agents"].

(** The request matches an entry of the table, as the code tests it: the
    path of [GET /agents] is the entry's, and the path of any other entry
    begins with the entry's. *)
Definition is_served (method : string) (segments : list string) : bool :=
  existsb (fun r =>
             String.eqb method (fst r)
             && (if is_agent_listing r
                 then is_path (snd r) segments
                 else begins_with (snd r) segments))
          route_table.

(** *** The conversion rate of the specification *)

(** How a number between two tenths is brought to a tenth. *)
Inductive Rounding : Type :=
| HalfUp
| HalfDown
| HalfEven
| Floor
| Ceiling.

(** 100 x [converted] / [total], as an exact fraction, in tenths. *)
Definition exact_tenths (rounding : Rounding) (converted total : nat) : Z :=
  let n := 1000 * Z.of_nat converted in
  let d := Z.of_nat total in
  let q := n / d in
  let r := n mod d in
  if r =? 0 then q
  else match rounding with
       | Floor => q
       | Ceiling => q + 1
       | HalfUp => if 2 * r <? d then q else q + 1
       | HalfDown => if 2 * r <=? d then q else q + 1
       | HalfEven =>
           if 2 * r <? d then q
           else if d <? 2 * r then q + 1
           else if Z.even q then q else q + 1
       end.

(** The rate of the specification: 0 without leads, and otherwise
    100 x [converted] / [total] with one decimal. *)
Definition exact_rate (rounding : Rounding) (converted total : nat) : string :=
  if Nat.eqb total 0 then "0"
  else let tenths := exact_tenths rounding converted total in
       digits_of_Z (tenths / 10) ++ "." ++ digits_of_Z (tenths mod 10).

(** A store with [total] leads, of which [converted] are converted. *)
Definition leads_store (converted total : nat) : Store :=
  {| prometheus_agents := [];
     leads := numbered "lead"
                (List.repeat (lead "CONVERTED" 0.9) converted
                 ++ List.repeat (lead "CONTACTED" 0.3) (total - converted));
     system_alerts := []; workflows := [] |}.

(** The [conversionRate] of the lead metrics of a store, on [sample_env]. *)
Definition reported_rate (s : Store) : option value :=
  match fst (handleGetLeadMetrics sample_env corsHeaders (fresh s)) with
  | Ok resp =>
      match JSON.parse (body resp) with
      | Some answer => get_prop (get_prop_opt answer "metrics") "conversionRate"
      | None => None
      end
  | Throw _ => None
  end.

(** *** A host in New York *)



(* ================================================================= *)
(** ** Running computations *)

Lemma bind_ok {A B} (m : M A) (k : A -> M B) w a w' :
  m w = (Ok a, w') -> bind m k w = k a w'.
Proof. intros H. unfold bind. rewrite H. reflexivity. Qed.

Lemma try_ok {A} (m : M A) h w a w' :
  m w = (Ok a, w') -> try_catch m h w = (Ok a, w').
Proof. intros H. unfold try_catch. rewrite H. reflexivity. Qed.

Section Facts.

Variable env : Env.

Lemma store_up_weaken w n m :
  (m <= n)%nat -> store_up env w n -> store_up env w m.
Proof. intros Hle Hup i Hi. apply Hup. lia. Qed.

Lemma store_up_traced w op n :
  store_up env w (S n) -> store_up env (traced [op] w) n.
Proof.
  intros Hup i Hi. unfold traced; simpl.
  rewrite length_app; simpl.
  replace (List.length (trace w) + 1 + i)%nat
    with (List.length (trace w) + S i)%nat by lia.
  apply Hup. lia.
Qed.

Lemma store_up_ticked w n : store_up env w n -> store_up env (ticked w) n.
Proof. intros Hup i Hi. apply Hup, Hi. Qed.

Lemma store_up_now w n :
  store_up env w (S n) -> fault env (List.length (trace w)) = None.
Proof.
  intros Hup. rewrite <- (Nat.add_0_r (List.length (trace w))).
  apply Hup. lia.
Qed.

Lemma new_Date_run w : new_Date env w = (Ok (clock env (ticks w)), ticked w).
Proof. reflexivity. Qed.

(** A query that the store answers returns what it reads and leaves the
    store as it is. *)
Lemma query_run {A} (op : StoreOp) (read : Store -> A) w :
  fault env (List.length (trace w)) = None ->
  query env op read w = (Ok (read (store w)), traced [op] w).
Proof.
  intros Hf. unfold query, store_op. rewrite Hf. reflexivity.
Qed.

Lemma parse_body_run body w :
  parse_body env body w
  = (match JSON.parse (body_text body) with
     | Some v => Ok v
     | None => Throw (engineMessage env (JsonSyntaxError (body_text body)))
     end, w).
Proof.
  unfold parse_body. fold (body_text body).
  destruct (JSON.parse (body_text body)); reflexivity.
Qed.

(** The lead metrics of a store that answers: the response, and the four
    queries the handler issued. *)
Lemma handleGetLeadMetrics_run h w :
  store_up env w 4 ->
  let now := Date.setHours0 (tzOffset env) (clock env (ticks w)) in
  let all := leads (store w) in
  exists w',
    handleGetLeadMetrics env h w
    = (Ok {| statusCode := 200;
             headers := h;
             body := JSON.stringify
               (VObj [ ("success", VBool true);
                       ("metrics",
                         lead_metrics
                           (List.length all)
                           (List.length (List.filter (lead_created_since now) all))
                           (List.length
                              (List.filter (lead_has_status "PENDING_RESEARCH") all))
                           (List.length (List.filter lead_is_hot all))
                           (List.length
                              (List.filter (lead_has_status "CONVERTED") all)));
                       ("timestamp", VStr (Date.toISOString now)) ]) |}, w')
    /\ store w' = store w
    /\ trace w'
       = (trace w ++
          [ OpGet "leads" [] None None;
            OpGet "leads" [("created", ">=", ODate now)] None None;
            OpGet "leads" [("status", "==", OStr "PENDING_RESEARCH")] None None;
            OpGet "leads" [("status", "==", OStr "CONVERTED")] None None ])%list.
Proof.
  intros Hup now all.
  eexists. split; [|split].
  - unfold handleGetLeadMetrics.
    eapply try_ok.
    eapply eq_trans; [eapply bind_ok; apply new_Date_run|].
    apply store_up_ticked in Hup.
    eapply eq_trans; [eapply bind_ok; apply query_run, (store_up_now _ _ Hup)|].
    apply store_up_traced with (op := OpGet "leads" [] None None) in Hup.
    eapply eq_trans; [eapply bind_ok; apply query_run, (store_up_now _ _ Hup)|].
    eapply store_up_traced in Hup.
    eapply eq_trans; [eapply bind_ok; apply query_run, (store_up_now _ _ Hup)|].
    eapply store_up_traced in Hup.
    eapply eq_trans; [eapply bind_ok; apply query_run, (store_up_now _ _ Hup)|].
    reflexivity.
  - reflexivity.
  - simpl. rewrite <- !app_assoc. reflexivity.
Qed.

Lemma handleCalculateROI_run h w :
  store_up env w 3 ->
  let converted := List.filter (lead_has_status "CONVERTED") (leads (store w)) in
  exists w',
    handleCalculateROI env h w
    = (Ok {| statusCode := 200;
             headers := h;
             body := JSON.stringify
               (VObj [ ("success", VBool true);
                       ("roi", roi (List.length (prometheus_agents (store w)))
                                   (List.length (leads (store w)))
                                   (List.length converted)) ]) |}, w')
    /\ store w' = store w.
Proof.
  intros Hup converted.
  eexists. split.
  - unfold handleCalculateROI.
    eapply try_ok.
    eapply eq_trans; [eapply bind_ok; apply query_run, (store_up_now _ _ Hup)|].
    eapply store_up_traced in Hup.
    eapply eq_trans; [eapply bind_ok; apply query_run, (store_up_now _ _ Hup)|].
    eapply store_up_traced in Hup.
    eapply eq_trans; [eapply bind_ok; apply query_run, (store_up_now _ _ Hup)|].
    reflexivity.
  - reflexivity.
Qed.

End Facts.

Lemma sample_store_up w n : store_up sample_env w n.
Proof. intros i _. reflexivity. Defined.

(* ================================================================= *)
(** ** JSON.parse has fuel enough *)

(** Every reader leaves a text shorter than the one it was given, so the
    fuel of [JSON.parse] (twice the length of the text and two) is never
    used up: what is rejected is rejected by the grammar. *)

Lemma skip_ws_length s : (String.length (JSON.skip_ws s) <= String.length s)%nat.
Proof.
  induction s as [|c s IH]; simpl; [lia|].
  destruct (JSON.is_ws c); simpl; lia.
Qed.

Lemma strip_prefix_length p : forall s r,
  JSON.strip_prefix p s = Some r -> (String.length r + String.length p = String.length s)%nat.
Proof.
  induction p as [|a p IH]; intros s r; simpl.
  - intros [= ->]. lia.
  - destruct s as [|b s]; [discriminate|].
    destruct (Ascii.eqb a b); [|discriminate].
    intros H. apply IH in H. simpl. lia.
Qed.

Lemma read_hex4_length s u r :
  JSON.read_hex4 s = Some (u, r) -> (String.length r + 4 = String.length s)%nat.
Proof.
  unfold JSON.read_hex4.
  destruct s as [|a [|b [|c [|d rest]]]]; try discriminate.
  destruct (JSON.hex_value a), (JSON.hex_value b), (JSON.hex_value c), (JSON.hex_value d);
    try discriminate.
  intros [= _ <-]. simpl. lia.
Qed.

Lemma read_unit_length u s : (String.length (snd (JSON.read_unit u s)) <= String.length s)%nat.
Proof.
  unfold JSON.read_unit.
  destruct (JSON.is_high_surrogate u); [|simpl; lia].
  destruct (JSON.strip_prefix _ s) as [s'|] eqn:Hp; [|simpl; lia].
  apply strip_prefix_length in Hp.
  destruct (JSON.read_hex4 s') as [[l s'']|] eqn:Hh; [|simpl; lia].
  apply read_hex4_length in Hh.
  destruct (JSON.is_low_surrogate l); simpl in *; lia.
Qed.

Lemma read_string_length f : forall s acc k r,
  JSON.read_string f s acc = Some (k, r) -> (String.length r < String.length s)%nat.
Proof.
  induction f as [|f IH]; intros s acc k r; simpl; [discriminate|].
  destruct s as [|c rest]; [discriminate|].
  destruct (code c =? 34); [intros [= _ <-]; simpl; lia|].
  destruct (code c <? 32); [discriminate|].
  destruct (code c =? 92).
  - destruct rest as [|e rest']; [discriminate|].
    repeat match goal with
           | |- (if ?b then _ else _) = _ -> _ =>
               destruct b; [intros H; apply IH in H; simpl in *; lia|]
           end.
    destruct (code e =? 117); [|discriminate].
    destruct (JSON.read_hex4 rest') as [[u after]|] eqn:Hh; [|discriminate].
    apply read_hex4_length in Hh.
    pose proof (read_unit_length u after) as Hu.
    destruct (JSON.read_unit u after) as [cp after'].
    intros H; apply IH in H; simpl in *; lia.
  - intros H; apply IH in H; simpl in *; lia.
Qed.

(** With more fuel than characters, [read_string] never runs out of it. *)
Lemma read_string_fuel f : forall f' s acc,
  (String.length s < f)%nat -> (f <= f')%nat ->
  JSON.read_string f' s acc = JSON.read_string f s acc.
Proof.
  induction f as [|f IH]; intros f' s acc Hlen Hle; [lia|].
  destruct f' as [|f']; [lia|]. simpl.
  destruct s as [|c rest]; [reflexivity|]. simpl in Hlen.
  destruct (code c =? 34); [reflexivity|].
  destruct (code c <? 32); [reflexivity|].
  destruct (code c =? 92).
  - destruct rest as [|e rest']; [reflexivity|]. simpl in Hlen.
    repeat match goal with
           | |- (if ?b then _ else _) = _ =>
               destruct b; [apply IH; simpl; lia|]
           end.
    destruct (code e =? 117); [|reflexivity].
    destruct (JSON.read_hex4 rest') as [[u after]|] eqn:Hh; [|reflexivity].
    apply read_hex4_length in Hh.
    pose proof (read_unit_length u after) as Hu.
    destruct (JSON.read_unit u after) as [cp after'].
    apply IH; simpl in *; lia.
  - apply IH; lia.
Qed.

Lemma read_digits_length : forall s acc cnt,
  (String.length (snd (JSON.read_digits s acc cnt)) <= String.length s)%nat.
Proof.
  induction s as [|c s IH]; intros acc cnt; [simpl; lia|].
  cbn [JSON.read_digits]. destruct (is_digit c); [|simpl; lia].
  eapply Nat.le_trans; [apply IH | simpl; lia].
Qed.

Lemma read_sign_length s : (String.length (snd (JSON.read_sign s)) <= String.length s)%nat.
Proof.
  destruct s as [|c s]; simpl; [lia|]. destruct (code c =? 45); simpl; lia.
Qed.

Lemma read_fraction_length ip s d fl r :
  JSON.read_fraction ip s = Some (d, fl, r) -> (String.length r <= String.length s)%nat.
Proof.
  unfold JSON.read_fraction. destruct s as [|c rest]; [intros [= _ _ <-]; lia|].
  destruct (code c =? 46); [|intros [= _ _ <-]; lia].
  pose proof (read_digits_length rest ip 0) as Hd.
  destruct (JSON.read_digits rest ip 0) as [[v count] rest'].
  destruct (count =? 0); [discriminate|]. intros [= _ _ <-]. simpl in *. lia.
Qed.

Lemma read_exponent_length s e r :
  JSON.read_exponent s = Some (e, r) -> (String.length r <= String.length s)%nat.
Proof.
  unfold JSON.read_exponent. destruct s as [|c rest]; [intros [= _ <-]; lia|].
  destruct (_ || _); [|intros [= _ <-]; lia].
  assert (Hs : forall neg rest1, (String.length rest1 <= String.length rest)%nat ->
            (let '(v, count, rest2) := JSON.read_digits rest1 0 0 in
             if count =? 0 then None
             else Some (if neg : bool then - v else v, rest2)) = Some (e, r) ->
            (String.length r <= String.length (String c rest))%nat).
  { intros neg rest1 Hle.
    pose proof (read_digits_length rest1 0 0) as Hd.
    destruct (JSON.read_digits rest1 0 0) as [[v count] rest2].
    destruct (count =? 0); [discriminate|]. intros [= _ <-]. simpl in *. lia. }
  destruct rest as [|d rest'].
  - apply (Hs false). lia.
  - destruct (code d =? 45); [apply (Hs true); simpl; lia|].
    destruct (code d =? 43); [apply (Hs false); simpl; lia|].
    apply (Hs false). lia.
Qed.

Lemma read_number_length s x r :
  JSON.read_number s = Some (x, r) -> (String.length r < String.length s)%nat.
Proof.
  unfold JSON.read_number.
  pose proof (read_sign_length s) as Hsign.
  destruct (JSON.read_sign s) as [neg s1]. simpl in Hsign.
  destruct s1 as [|c rest]; [discriminate|].
  destruct (is_digit c) eqn:Hdig; [|discriminate].
  assert (Hint : forall ip s2, (String.length s2 <= String.length rest)%nat ->
            match JSON.read_fraction ip s2 with
            | Some (digits, frac_len, s3) =>
                match JSON.read_exponent s3 with
                | Some (e10, s4) =>
                    Some (if neg
                          then PrimFloat.opp (Number.of_decimal digits (e10 - frac_len))
                          else Number.of_decimal digits (e10 - frac_len), s4)
                | None => None
                end
            | None => None
            end = Some (x, r) -> (String.length r < String.length s)%nat).
  { intros ip s2 Hle.
    destruct (JSON.read_fraction ip s2) as [[[digits fl] s3]|] eqn:Hf; [|discriminate].
    apply read_fraction_length in Hf.
    destruct (JSON.read_exponent s3) as [[e10 s4]|] eqn:He; [|discriminate].
    apply read_exponent_length in He.
    intros [= _ <-]. simpl in *. lia. }
  destruct (code c =? 48).
  - apply Hint. lia.
  - simpl JSON.read_digits. rewrite Hdig.
    pose proof (read_digits_length rest (10 * 0 + (code c - 48)) (0 + 1)) as Hd.
    destruct (JSON.read_digits rest _ _) as [[v cnt] r0].
    apply Hint. simpl in Hd. lia.
Qed.

Lemma read_literal_length s v r :
  JSON.read_literal s = Some (v, r) -> (String.length r < String.length s)%nat.
Proof.
  unfold JSON.read_literal.
  destruct (JSON.strip_prefix "true" s) as [r1|] eqn:H1.
  { apply strip_prefix_length in H1. intros [= _ <-]. simpl in *. lia. }
  destruct (JSON.strip_prefix "false" s) as [r2|] eqn:H2.
  { apply strip_prefix_length in H2. intros [= _ <-]. simpl in *. lia. }
  destruct (JSON.strip_prefix "null" s) as [r3|] eqn:H3; [|discriminate].
  apply strip_prefix_length in H3. intros [= _ <-]. simpl in *. lia.
Qed.

Lemma parse_length f :
  (forall s v r, JSON.parse_value f s = Some (v, r) -> (String.length r < String.length s)%nat)
  /\ (forall s acc v r, JSON.parse_elements f s acc = Some (v, r) -> (String.length r < String.length s)%nat)
  /\ (forall s acc v r, JSON.parse_members f s acc = Some (v, r) -> (String.length r < String.length s)%nat).
Proof.
  induction f as [|f (IHv & IHe & IHm)]; [repeat split; discriminate|].
  split; [|split].
  - intros s v r. cbn [JSON.parse_value].
    pose proof (skip_ws_length s) as Hs.
    destruct (JSON.skip_ws s) as [|c rest]; [discriminate|]. simpl in Hs.
    destruct (code c =? 123).
    { pose proof (skip_ws_length rest) as Hb.
      destruct (JSON.skip_ws rest) as [|d r0]; [discriminate|]. simpl in Hb.
      destruct (code d =? 125); [intros [= _ <-]; lia|].
      intros H. apply IHm in H. simpl in H. lia. }
    destruct (code c =? 91).
    { pose proof (skip_ws_length rest) as Hb.
      destruct (JSON.skip_ws rest) as [|d r0]; [discriminate|]. simpl in Hb.
      destruct (code d =? 93); [intros [= _ <-]; lia|].
      intros H. apply IHe in H. simpl in H. lia. }
    destruct (code c =? 34).
    { destruct (JSON.read_string _ rest _) as [[str r0]|] eqn:Hr; [|discriminate].
      apply read_string_length in Hr. intros [= _ <-]. lia. }
    destruct (_ || _).
    { destruct (JSON.read_number _) as [[x r0]|] eqn:Hn; [|discriminate].
      apply read_number_length in Hn. intros [= _ <-]. simpl in Hn. lia. }
    intros H. apply read_literal_length in H. simpl in H. lia.
  - intros s acc v r. cbn [JSON.parse_elements].
    destruct (JSON.parse_value f s) as [[v0 r0]|] eqn:Hv; [|discriminate].
    apply IHv in Hv.
    pose proof (skip_ws_length r0) as Hs.
    destruct (JSON.skip_ws r0) as [|d r1]; [discriminate|]. simpl in Hs.
    destruct (code d =? 44); [intros H; apply IHe in H; lia|].
    destruct (code d =? 93); [intros [= _ <-]; lia|discriminate].
  - intros s acc v r. cbn [JSON.parse_members].
    pose proof (skip_ws_length s) as Hs.
    destruct (JSON.skip_ws s) as [|c rest]; [discriminate|]. simpl in Hs.
    destruct (code c =? 34); [|discriminate].
    destruct (JSON.read_string _ rest _) as [[k r0]|] eqn:Hr; [|discriminate].
    apply read_string_length in Hr.
    pose proof (skip_ws_length r0) as Hs0.
    destruct (JSON.skip_ws r0) as [|d r1]; [discriminate|]. simpl in Hs0.
    destruct (code d =? 58); [|discriminate].
    destruct (JSON.parse_value f r1) as [[v0 r2]|] eqn:Hv; [|discriminate].
    apply IHv in Hv.
    pose proof (skip_ws_length r2) as Hs2.
    destruct (JSON.skip_ws r2) as [|e r3]; [discriminate|]. simpl in Hs2.
    destruct (code e =? 44); [intros H; apply IHm in H; lia|].
    destruct (code e =? 125); [intros [= _ <-]; lia|discriminate].
Qed.

(** Beyond twice the length of the text, more fuel changes nothing. *)
Lemma parse_fuel f :
  (forall s f', (2 * String.length s + 1 <= f)%nat -> (f <= f')%nat ->
                JSON.parse_value f' s = JSON.parse_value f s)
  /\ (forall s acc f', (2 * String.length s + 2 <= f)%nat -> (f <= f')%nat ->
                       JSON.parse_elements f' s acc = JSON.parse_elements f s acc)
  /\ (forall s acc f', (2 * String.length s + 2 <= f)%nat -> (f <= f')%nat ->
                       JSON.parse_members f' s acc = JSON.parse_members f s acc).
Proof.
  induction f as [|f (IHv & IHe & IHm)]; [repeat split; intros; lia|].
  split; [|split].
  - intros s [|f'] Hlen Hle; [lia|]. cbn [JSON.parse_value].
    pose proof (skip_ws_length s) as Hs.
    destruct (JSON.skip_ws s) as [|c rest]; [reflexivity|]. simpl in Hs.
    destruct (code c =? 123).
    { pose proof (skip_ws_length rest) as Hb.
      destruct (JSON.skip_ws rest) as [|d r0]; [reflexivity|].
      destruct (code d =? 125); [reflexivity|].
      apply IHm; lia. }
    destruct (code c =? 91).
    { pose proof (skip_ws_length rest) as Hb.
      destruct (JSON.skip_ws rest) as [|d r0]; [reflexivity|].
      destruct (code d =? 93); [reflexivity|].
      apply IHe; lia. }
    reflexivity.
  - intros s acc [|f'] Hlen Hle; [lia|]. cbn [JSON.parse_elements].
    rewrite (IHv s f') by lia.
    destruct (JSON.parse_value f s) as [[v0 r0]|] eqn:Hv; [|reflexivity].
    apply (proj1 (parse_length f)) in Hv.
    pose proof (skip_ws_length r0) as Hs.
    destruct (JSON.skip_ws r0) as [|d r1]; [reflexivity|]. simpl in Hs.
    destruct (code d =? 44); [apply IHe; lia | reflexivity].
  - intros s acc [|f'] Hlen Hle; [lia|]. cbn [JSON.parse_members].
    pose proof (skip_ws_length s) as Hs.
    destruct (JSON.skip_ws s) as [|c rest]; [reflexivity|]. simpl in Hs.
    destruct (code c =? 34); [|reflexivity].
    destruct (JSON.read_string _ rest _) as [[k r0]|] eqn:Hr; [|reflexivity].
    apply read_string_length in Hr.
    pose proof (skip_ws_length r0) as Hs0.
    destruct (JSON.skip_ws r0) as [|d r1]; [reflexivity|]. simpl in Hs0.
    destruct (code d =? 58); [|reflexivity].
    rewrite (IHv r1 f') by lia.
    destruct (JSON.parse_value f r1) as [[v0 r2]|] eqn:Hv; [|reflexivity].
    apply (proj1 (parse_length f)) in Hv.
    pose proof (skip_ws_length r2) as Hs2.
    destruct (JSON.skip_ws r2) as [|e r3]; [reflexivity|]. simpl in Hs2.
    destruct (code e =? 44); [apply IHm; lia | reflexivity].
Qed.

(** [JSON.parse] does not depend on its fuel: a text it rejects is rejected
    with any larger amount of fuel too. *)
Lemma parse_fuel_enough text f :
  (2 * String.length text + 2 <= f)%nat ->
  JSON.parse_value f text = JSON.parse_value (2 * String.length text + 2) text.
Proof.
  intros Hf. apply (proj1 (parse_fuel (2 * String.length text + 2))); lia.
Qed.

(* ================================================================= *)
(** ** Comparisons of binary64 numbers *)

Lemma compare_cont_flip p q :
  Pos.compare_cont Eq q p = CompOpp (Pos.compare_cont Eq p q).
Proof. symmetry. exact (Pos.compare_cont_antisym p q Eq). Qed.

(** [x <= y] excludes [y < x]. *)
Lemma SFleb_not_SFltb x y : SFleb x y = true -> SFltb y x = false.
Proof.
  unfold SFleb, SFltb.
  destruct x as [sx|sx| |sx mx ex], y as [sy|sy| |sy my ey]; simpl;
    try discriminate; try reflexivity;
    try (destruct sx; try destruct sy; simpl; intros; try discriminate; reflexivity);
    try (destruct sy; simpl; intros; try discriminate; reflexivity).
  destruct sx, sy; simpl; try discriminate; try reflexivity;
    rewrite (Z.compare_antisym ex ey);
    destruct (ex ?= ey); simpl; try discriminate; try reflexivity;
    rewrite (compare_cont_flip mx my);
    destruct (Pos.compare_cont Eq mx my); simpl; try discriminate; reflexivity.
Qed.

Lemma leb_not_ltb (x y : float) : (x <=? y)%float = true -> (y <? x)%float = false.
Proof. rewrite leb_spec, ltb_spec. apply SFleb_not_SFltb. Qed.

(** Not above a positive number, hence not above a larger one. *)
Lemma SFleb_below_not_above x m1 e1 m2 e2 :
  e1 < e2 ->
  SFleb x (S754_finite false m1 e1) = true ->
  SFltb (S754_finite false m2 e2) x = false.
Proof.
  intros He. unfold SFleb, SFltb.
  destruct x as [s|s| |s m e]; simpl; try reflexivity;
    try (destruct s; simpl; intros; try discriminate; reflexivity).
  destruct s; simpl; [reflexivity|].
  destruct (Z.compare_spec e e1) as [-> | Hlt | Hgt]; simpl.
  - intros _. destruct (Z.compare_spec e2 e1); try lia; reflexivity.
  - intros _. destruct (Z.compare_spec e2 e); try lia; reflexivity.
  - discriminate.
Qed.

(** [x <= 60] excludes [300 < x]. *)
Lemma leb_60_not_gt_300 (x : float) :
  (x <=? 60)%float = true -> (300 <? x)%float = false.
Proof.
  rewrite leb_spec, ltb_spec.
  change (Prim2SF 60) with (S754_finite false 8444249301319680 (-47)).
  change (Prim2SF 300) with (S754_finite false 5277655813324800 (-44)).
  apply SFleb_below_not_above. reflexivity.
Qed.

Lemma agent_status_values t :
  In (agent_status t) ["healthy"; "degraded"; "offline"].
Proof.
  unfold agent_status.
  destruct (Number.gt t 300); [simpl; auto|].
  destruct (Number.gt t 60); simpl; auto.
Qed.

Lemma agent_status_healthy t :
  (t <=? 60)%float = true -> agent_status t = "healthy".
Proof.
  intros H. unfold agent_status, Number.gt.
  rewrite (leb_60_not_gt_300 t H), (leb_not_ltb t 60 H). reflexivity.
Qed.

Lemma agent_status_degraded t :
  (60 <? t)%float = true -> (t <=? 300)%float = true -> agent_status t = "degraded".
Proof.
  intros H60 H300. unfold agent_status, Number.gt.
  rewrite (leb_not_ltb t 300 H300), H60. reflexivity.
Qed.

Lemma agent_status_offline t :
  (300 <? t)%float = true -> agent_status t = "offline".
Proof.
  intros H. unfold agent_status, Number.gt. rewrite H. reflexivity.
Qed.

(** [x - x] is zero, or NaN when [x] is not finite. *)
Lemma SFsub_self x :
  SFsub prec emax x x = S754_zero false \/ SFsub prec emax x x = S754_nan.
Proof.
  destruct x as [s|s| |s m e]; simpl.
  - left. destruct s; reflexivity.
  - right. destruct s; reflexivity.
  - right. reflexivity.
  - left. rewrite Z.sub_diag. reflexivity.
Qed.

(** A heartbeat that is the clock reading itself gives healthy. *)
Lemma agent_status_at_now (x : float) :
  agent_status ((x - x) / 1000)%float = "healthy".
Proof.
  unfold agent_status, Number.gt.
  rewrite !ltb_spec, div_spec, sub_spec.
  change (Prim2SF 1000) with (S754_finite false 8796093022208000 (-43)).
  change (Prim2SF 60) with (S754_finite false 8444249301319680 (-47)).
  change (Prim2SF 300) with (S754_finite false 5277655813324800 (-44)).
  unfold SF64sub, SF64div.
  destruct (SFsub_self (Prim2SF x)) as [-> | ->]; reflexivity.
Qed.

(** The elapsed seconds around the two thresholds, for time values a
    millisecond apart. *)
Example seconds_since_near_thresholds :
  List.map (fun d => agent_status (seconds_since sample_now (sample_now - d)))
           [0; 59999; 60000; 60001; 299999; 300000; 300001]
  = ["healthy"; "healthy"; "healthy"; "degraded"; "degraded"; "degraded"; "offline"].
Proof. vm_compute. reflexivity. Qed.

(* ================================================================= *)
(** ** Properties of an object under assignment *)

Lemma lookup_replace_prop k v ps k' :
  lookup k' (replace_prop k v ps)
  = if String.eqb k' k then option_map (fun _ => v) (lookup k ps) else lookup k' ps.
Proof.
  induction ps as [|[k0 v0] ps IH]; simpl.
  - destruct (String.eqb k' k); reflexivity.
  - destruct (String.eqb_spec k k0) as [<- | Hne]; simpl.
    + destruct (String.eqb k' k); reflexivity.
    + rewrite IH. destruct (String.eqb_spec k' k) as [E | Hne'].
      * subst k'. destruct (String.eqb_spec k k0); [contradiction|reflexivity].
      * reflexivity.
Qed.

Lemma lookup_insert_index i k v ps k' :
  lookup k ps = None ->
  lookup k' (insert_index i k v ps) = if String.eqb k' k then Some v else lookup k' ps.
Proof.
  induction ps as [|[k0 v0] ps IH]; simpl.
  - intros _. destruct (String.eqb k' k); reflexivity.
  - destruct (String.eqb_spec k k0) as [E | Hne]; intros Hk; [discriminate|].
    assert (Hhere : lookup k' ((k, v) :: (k0, v0) :: ps)
                    = if String.eqb k' k then Some v else lookup k' ((k0, v0) :: ps))
      by reflexivity.
    destruct (array_index k0) as [j|]; [|exact Hhere].
    destruct (j <? i); [|exact Hhere].
    simpl. rewrite (IH Hk).
    destruct (String.eqb_spec k' k0) as [E | Hne'].
    + subst k'. destruct (String.eqb_spec k0 k); [congruence|reflexivity].
    + reflexivity.
Qed.

Lemma lookup_app_one k v (ps : list (string * value)) k' :
  lookup k ps = None ->
  lookup k' (ps ++ [(k, v)]) = if String.eqb k' k then Some v else lookup k' ps.
Proof.
  induction ps as [|[k0 v0] ps IH]; simpl.
  - intros _. destruct (String.eqb k' k); reflexivity.
  - destruct (String.eqb_spec k k0) as [E | Hne]; intros Hk; [discriminate|].
    rewrite (IH Hk).
    destruct (String.eqb_spec k' k0) as [E | Hne'].
    + subst k'. destruct (String.eqb_spec k0 k); [congruence|reflexivity].
    + reflexivity.
Qed.

(** After [o[k] = v], [o[k]] is [v] and the other properties are as before. *)
Lemma lookup_obj_define ps k v k' :
  lookup k' (obj_define ps k v) = if String.eqb k' k then Some v else lookup k' ps.
Proof.
  unfold obj_define. destruct (lookup k ps) as [old|] eqn:Hk.
  - rewrite lookup_replace_prop, Hk. reflexivity.
  - destruct (array_index k).
    + apply lookup_insert_index, Hk.
    + apply lookup_app_one, Hk.
Qed.

Lemma lookup_obj_assign ps k v k' :
  k <> "__proto__" ->
  lookup k' (obj_assign ps k v) = if String.eqb k' k then Some v else lookup k' ps.
Proof.
  intros Hk. unfold obj_assign.
  destruct (String.eqb_spec k "__proto__"); [contradiction|].
  apply lookup_obj_define.
Qed.

Lemma lookup_obj_assign_other ps k v k' :
  k' <> k -> lookup k' (obj_assign ps k v) = lookup k' ps.
Proof.
  intros Hne. unfold obj_assign.
  destruct (String.eqb k "__proto__"); [reflexivity|].
  rewrite lookup_obj_define.
  destruct (String.eqb_spec k' k); [contradiction|reflexivity].
Qed.

(* ================================================================= *)
(** ** GET /agents *)

Lemma shape_agent_status env now id data w entry w' :
  shape_agent env now id data w = (Ok entry, w') ->
  w' = w
  /\ get_prop entry "status"
     = Some (VStr (agent_status (seconds_since now (heartbeat now data)))).
Proof.
  unfold shape_agent, bind, toFixed1.
  fold (heartbeat now data).
  destruct (or_else _ _); simpl; try discriminate.
  intros [= <- <-]. split; reflexivity.
Qed.

(** Documents before the one assigned last under an id do not show. *)
Lemma shape_agents_untouched env now docs :
  forall acc w agents w' id,
    shape_agents env now docs acc w = (Ok agents, w') ->
    ~ In id (List.map fst docs) ->
    lookup id agents = lookup id acc.
Proof.
  induction docs as [|[k d] docs IH]; simpl; intros acc w agents w' id Hrun Hnot.
  - injection Hrun as <- _. reflexivity.
  - unfold bind in Hrun.
    destruct (shape_agent env now k d w) as [[a|e] w1] eqn:Ha; [|discriminate].
    rewrite (IH _ _ _ _ id Hrun) by tauto.
    apply lookup_obj_assign_other. intros ->. tauto.
Qed.

Lemma shape_agents_entries env now docs :
  forall acc w agents w',
    shape_agents env now docs acc w = (Ok agents, w') ->
    NoDup (List.map fst docs) ->
    forall id data,
      In (id, data) docs -> id <> "__proto__" ->
      exists entry,
        lookup id agents = Some entry
        /\ get_prop entry "status"
           = Some (VStr (agent_status (seconds_since now (heartbeat now data)))).
Proof.
  induction docs as [|[k d] docs IH]; simpl; intros acc w agents w' Hrun Hnd id data Hin Hid;
    [contradiction|].
  unfold bind in Hrun.
  destruct (shape_agent env now k d w) as [[a|e] w1] eqn:Ha; [|discriminate].
  inversion Hnd as [|? ? Hnotin Hnd']; subst.
  destruct Hin as [[= -> ->] | Hin].
  - exists a. split.
    + rewrite (shape_agents_untouched _ _ _ _ _ _ _ id Hrun Hnotin).
      rewrite lookup_obj_assign by exact Hid.
      rewrite String.eqb_refl. reflexivity.
    + exact (proj2 (shape_agent_status _ _ _ _ _ _ _ Ha)).
  - exact (IH _ _ _ _ Hrun Hnd' id data Hin Hid).
Qed.

(** C1 (as amended).  In a successful agent listing, the status reported for
    an agent document is one of healthy, degraded and offline, and it is a
    function ([agent_status]) of the elapsed seconds between the handler's
    clock reading and the document's last heartbeat: at most 60 gives
    healthy, more than 60 and at most 300 gives degraded, more than 300
    gives offline.  A document without a heartbeat is taken to have been
    seen at the clock reading, and is healthy. *)
Theorem agent_status_by_elapsed_time :
  forall (env : Env) (w w' : World) (resp : Response) (id : string) (data : Agent.doc),
    handleGetAgents env corsHeaders w = (Ok resp, w') ->
    statusCode resp = 200 ->
    NoDup (List.map fst (prometheus_agents (store w))) ->
    In (id, data) (prometheus_agents (store w)) ->
    id <> "__proto__" ->
    let now := clock env (ticks w) in
    let elapsed := seconds_since now (heartbeat now data) in
    exists agents entry status,
      body resp = JSON.stringify (VObj [ ("success", VBool true);
                                         ("agents", VObj agents);
                                         ("timestamp", VStr (Date.toISOString now)) ])
      /\ lookup id agents = Some entry
      /\ get_prop entry "status" = Some (VStr status)
      /\ In status ["healthy"; "degraded"; "offline"]
      /\ ((elapsed <=? 60)%float = true -> status = "healthy")
      /\ ((60 <? elapsed)%float = true -> (elapsed <=? 300)%float = true ->
          status = "degraded")
      /\ ((300 <? elapsed)%float = true -> status = "offline")
      /\ status = agent_status elapsed
      /\ (Agent.last_heartbeat data = None -> status = "healthy").
Proof.
  intros env w w' resp id data Hrun Hcode Hnd Hin Hid now elapsed.
  unfold handleGetAgents, try_catch, bind in Hrun.
  unfold query, store_op in Hrun.
  destruct (fault env (List.length (trace w))) as [message|].
  { injection Hrun as <- _. discriminate. }
  cbn [new_Date trace ticks store adds console with_store] in Hrun.
  fold now in Hrun.
  match type of Hrun with
  | context [shape_agents env now ?docs ?acc ?w0] =>
      destruct (shape_agents env now docs acc w0) as [[agents|e] w1] eqn:Hshape
  end.
  2:{ injection Hrun as <- _. discriminate. }
  injection Hrun as <- _.
  destruct (shape_agents_entries _ _ _ _ _ _ _ Hshape Hnd id data Hin Hid)
    as (entry & Hlook & Hstatus).
  exists agents, entry, (agent_status elapsed).
  split; [reflexivity|]. split; [exact Hlook|]. split; [exact Hstatus|].
  split; [apply agent_status_values|].
  split; [apply agent_status_healthy|].
  split; [apply agent_status_degraded|].
  split; [apply agent_status_offline|].
  split; [reflexivity|].
  intros Hnone. unfold elapsed, heartbeat. rewrite Hnone.
  apply agent_status_at_now.
Qed.

Lemma agents_store_ids : NoDup (List.map fst (prometheus_agents agents_store)).
Proof.
  repeat constructor; simpl; intuition discriminate.
Defined.

(** C1 at the agent last seen 90 s before the clock reading: degraded. *)
Lemma agent_status_by_elapsed_time_witness :
  handleGetAgents sample_env corsHeaders (fresh agents_store)
  = (Ok (response_of agents_run), snd agents_run)
  /\ statusCode (response_of agents_run) = 200
  /\ NoDup (List.map fst (prometheus_agents agents_store))
  /\ In ("agent_x", agent_seen (Some (sample_now - 90000)))
        (prometheus_agents agents_store)
  /\ "agent_x" <> "__proto__"
  /\ (60 <? seconds_since sample_now (sample_now - 90000))%float = true
  /\ (seconds_since sample_now (sample_now - 90000) <=? 300)%float = true
  /\ exists agents entry,
      body (response_of agents_run)
      = JSON.stringify (VObj [ ("success", VBool true);
                               ("agents", VObj agents);
                               ("timestamp", VStr (Date.toISOString sample_now)) ])
      /\ lookup "agent_x" agents = Some entry
      /\ get_prop entry "status" = Some (VStr "degraded").
Proof.
  assert (Hrun : handleGetAgents sample_env corsHeaders (fresh agents_store)
                 = (Ok (response_of agents_run), snd agents_run))
    by (vm_compute; reflexivity).
  assert (Hcode : statusCode (response_of agents_run) = 200) by (vm_compute; reflexivity).
  assert (Hin : In ("agent_x", agent_seen (Some (sample_now - 90000)))
                   (prometheus_agents agents_store))
    by (simpl; auto).
  assert (Hid : "agent_x" <> "__proto__") by discriminate.
  assert (H60 : (60 <? seconds_since sample_now (sample_now - 90000))%float = true)
    by (vm_compute; reflexivity).
  assert (H300 : (seconds_since sample_now (sample_now - 90000) <=? 300)%float = true)
    by (vm_compute; reflexivity).
  repeat (split; [assumption || exact agents_store_ids|]).
  destruct (agent_status_by_elapsed_time sample_env (fresh agents_store)
              (snd agents_run) (response_of agents_run) "agent_x"
              (agent_seen (Some (sample_now - 90000)))
              Hrun Hcode agents_store_ids Hin Hid)
    as (agents & entry & status & Hbody & Hlook & Hstatus & _ & _ & Hdeg & _).
  exists agents, entry. split; [exact Hbody|]. split; [exact Hlook|].
  rewrite Hstatus, (Hdeg H60 H300). reflexivity.
Defined.

(** C1 as stated fails at its two boundaries: an agent last seen exactly
    60 s before the clock reading (at least 60 s, then) is reported healthy,
    not degraded, and one last seen exactly 300 s before it is reported
    degraded, not offline. *)
Lemma agent_status_boundaries_counterexample :
  handleGetAgents sample_env corsHeaders (fresh agents_store)
  = (Ok (response_of agents_run), snd agents_run)
  /\ statusCode (response_of agents_run) = 200
  /\ body (response_of agents_run)
     = JSON.stringify (VObj [ ("success", VBool true);
                              ("agents", VObj listed_agents);
                              ("timestamp", VStr (Date.toISOString sample_now)) ])
  /\ seconds_since sample_now (sample_now - 60000) = 60%float
  /\ (60 <=? 60)%float = true
  /\ reported_status listed_agents "sixty" = Some (VStr "healthy")
  /\ String.eqb "healthy" "degraded" = false
  /\ seconds_since sample_now (sample_now - 300000) = 300%float
  /\ (300 <=? 300)%float = true
  /\ reported_status listed_agents "threehundred" = Some (VStr "degraded")
  /\ String.eqb "degraded" "offline" = false.
Proof.
  repeat split; vm_compute; reflexivity.
Qed.

(** The example of the specification: [agent_x], last seen 90 s ago and
    without metrics, is degraded, up "0.0 hours", with no task completed. *)
Example agent_x_listing :
  exists entry,
    lookup "agent_x" listed_agents = Some entry
    /\ get_prop entry "status" = Some (VStr "degraded")
    /\ get_prop entry "uptime" = Some (VStr "0.0 hours")
    /\ get_prop entry "tasksCompleted" = Some (VNum 0).
Proof.
  eexists. split; [vm_compute; reflexivity|].
  repeat split; reflexivity.
Qed.

(** The [name] of an agent is its id with the first character in upper
    case: a letter of ASCII, a letter outside ASCII, a letter whose upper
    case is two letters, and a character outside the Basic Multilingual
    Plane (F0 9F 98 80), which is left as it is. *)
Example capitalized_names :
  List.map (capitalize sample_upper)
    [ "scout"; "Scout"; "7up"; "";
      String (chr 195) (String (chr 169) "clair");
      String (chr 195) (String (chr 159) "eta");
      String (chr 240) (String (chr 159) (String (chr 152) (String (chr 128) "bot"))) ]
  = [ "Scout"; "Scout"; "7up"; "";
      String (chr 195) (String (chr 137) "clair");
      "SSeta";
      String (chr 240) (String (chr 159) (String (chr 152) (String (chr 128) "bot"))) ].
Proof. vm_compute. reflexivity. Qed.

(* ================================================================= *)
(** ** The router *)

Lemma unrouted_no_segments method : unrouted method [] = true.
Proof.
  unfold unrouted, routes, route_matches; simpl.
  rewrite !andb_false_r. reflexivity.
Qed.

Lemma not_found_body :
  JSON.stringify (VObj [("error", VStr "Endpoint not found")]) = not_found_text.
Proof. reflexivity. Qed.

(** A route matches on a prefix of the segments: a longer path under
    [/workflows] is still the workflow listing. *)
Example longer_path_is_routed :
  unrouted "GET" (segments_of (request "GET" "/.netlify/functions/api/workflows/extra" None))
  = false
  /\ statusCode (response_of
       (handler sample_env (request "GET" "/.netlify/functions/api/workflows/extra" None)
                (fresh empty_store))) = 200.
Proof. split; vm_compute; reflexivity. Qed.

(* ================================================================= *)
(** ** GET /leads/metrics *)

(** C3 (as amended).  When the store answers, the lead metrics are returned
    with status 200 and their [conversionRate] is [toFixed(1)] of the rate:
    of 0, that is ["0.0"], when there is no lead at all, and otherwise of
    the binary64 number that the code computes, which is the number of
    leads whose status is CONVERTED divided by the number of leads, rounded
    to binary64, then multiplied by 100 and rounded again. *)
Theorem conversion_rate_of_lead_metrics :
  forall (env : Env) (w : World),
    store_up env w 4 ->
    let total := List.length (leads (store w)) in
    let converted :=
      List.length (List.filter (lead_has_status "CONVERTED") (leads (store w))) in
    exists resp w' metrics timestamp,
      handleGetLeadMetrics env corsHeaders w = (Ok resp, w')
      /\ statusCode resp = 200
      /\ body resp = JSON.stringify (VObj [ ("success", VBool true);
                                            ("metrics", metrics);
                                            ("timestamp", timestamp) ])
      /\ get_prop metrics "conversionRate"
         = Some (VStr (if Nat.eqb total 0 then Number.toFixed 0 1
                       else Number.toFixed
                              (Number.of_nat converted / Number.of_nat total * 100) 1))
      /\ Number.toFixed 0 1 = "0.0".
Proof.
  intros env w Hup total converted.
  destruct (handleGetLeadMetrics_run env corsHeaders w Hup) as (w' & Hrun & _ & _).
  eexists _, w', _, _. split; [exact Hrun|].
  split; [reflexivity|]. split; [reflexivity|]. split; [|reflexivity].
  unfold lead_metrics. cbn [get_prop lookup String.eqb Ascii.eqb Bool.eqb].
  fold total. fold converted.
  destruct total; reflexivity.
Qed.

(** C3 on ten leads of which three are converted: ["30.0"]. *)
Lemma conversion_rate_of_lead_metrics_witness :
  store_up sample_env (fresh ten_leads) 4
  /\ exists resp w' metrics timestamp,
      handleGetLeadMetrics sample_env corsHeaders (fresh ten_leads) = (Ok resp, w')
      /\ statusCode resp = 200
      /\ body resp = JSON.stringify (VObj [ ("success", VBool true);
                                            ("metrics", metrics);
                                            ("timestamp", timestamp) ])
      /\ get_prop metrics "conversionRate" = Some (VStr "30.0").
Proof.
  split; [apply sample_store_up|].
  destruct (conversion_rate_of_lead_metrics sample_env (fresh ten_leads)
              (sample_store_up _ 4))
    as (resp & w' & metrics & timestamp & Hrun & Hcode & Hbody & Hrate & _).
  exists resp, w', metrics, timestamp.
  split; [exact Hrun|]. split; [exact Hcode|]. split; [exact Hbody|].
  rewrite Hrate. vm_compute. reflexivity.
Defined.

(** C3 as stated fails: the rate is not 100 x converted / total written
    with one decimal, however the last decimal is settled.  Of 80 leads with
    23 converted, 100 x 23 / 80 is 28.75 and the handler reports ["28.7"],
    where rounding the half up, to even or upwards gives 28.8; of 400 leads
    with one converted, 100 x 1 / 400 is 0.25 and the handler reports
    ["0.3"], where rounding the half down or downwards gives 0.2. *)
Lemma conversion_rate_is_not_the_exact_rate_counterexample :
  reported_rate (leads_store 23 80) = Some (VStr "28.7")
  /\ (100 * 23 # 80 == 2875 # 100)%Q
  /\ exact_rate HalfUp 23 80 = "28.8"
  /\ exact_rate HalfEven 23 80 = "28.8"
  /\ exact_rate Ceiling 23 80 = "28.8"
  /\ reported_rate (leads_store 1 400) = Some (VStr "0.3")
  /\ (100 * 1 # 400 == 25 # 100)%Q
  /\ exact_rate HalfDown 1 400 = "0.2"
  /\ exact_rate Floor 1 400 = "0.2".
Proof.
  repeat split; vm_compute; reflexivity.
Qed.

Lemma lead_is_hot_iff d :
  lead_is_hot d = true
  <-> exists x, Lead.score (snd d) = Some x /\ (0.8 <? x)%float = true.
Proof.
  unfold lead_is_hot, Number.gt. destruct (Lead.score (snd d)) as [x|].
  - split.
    + intros H. exists x. split; [reflexivity | exact H].
    + intros (y & Hy & H). injection Hy as <-. exact H.
  - split; [discriminate|]. intros (y & Hy & _). discriminate.
Qed.

(** C4.  When the store answers, [hot] is the number of documents, among
    those the unfiltered fetch of the lead collection returned (the fetch
    that also gives [total]), whose score is strictly greater than 0.8.  The
    handler issued four queries and none of them filters on the score; a
    lead whose score is exactly 0.8 is not hot. *)
Theorem hot_leads_counted_in_memory :
  forall (env : Env) (w : World),
    store_up env w 4 ->
    let fetched := leads (store w) in
    let todayStart := Date.setHours0 (tzOffset env) (clock env (ticks w)) in
    exists resp w' metrics timestamp,
      handleGetLeadMetrics env corsHeaders w = (Ok resp, w')
      /\ statusCode resp = 200
      /\ body resp = JSON.stringify (VObj [ ("success", VBool true);
                                            ("metrics", metrics);
                                            ("timestamp", timestamp) ])
      /\ get_prop metrics "hot"
         = Some (count (List.length (List.filter lead_is_hot fetched)))
      /\ get_prop metrics "total" = Some (count (List.length fetched))
      /\ trace w'
         = (trace w ++
            [ OpGet "leads" [] None None;
              OpGet "leads" [("created", ">=", ODate todayStart)] None None;
              OpGet "leads" [("status", "==", OStr "PENDING_RESEARCH")] None None;
              OpGet "leads" [("status", "==", OStr "CONVERTED")] None None ])%list
      /\ (forall d, lead_is_hot d = true
                    <-> exists x, Lead.score (snd d) = Some x
                                  /\ (0.8 <? x)%float = true)
      /\ (forall id c st,
             lead_is_hot (id, {| Lead.created := c; Lead.status := st;
                                 Lead.score := Some 0.8%float |}) = false).
Proof.
  intros env w Hup fetched todayStart.
  destruct (handleGetLeadMetrics_run env corsHeaders w Hup) as (w' & Hrun & _ & Htr).
  eexists _, w', _, _. split; [exact Hrun|].
  repeat split; try reflexivity; try exact Htr; apply lead_is_hot_iff.
Qed.

(** C4 on [ten_leads], whose scores are 0.8, 0.9, 0.5, 0.81 and six times
    0.3: two hot leads. *)
Lemma hot_leads_counted_in_memory_witness :
  store_up sample_env (fresh ten_leads) 4
  /\ exists resp w' metrics timestamp,
      handleGetLeadMetrics sample_env corsHeaders (fresh ten_leads) = (Ok resp, w')
      /\ body resp = JSON.stringify (VObj [ ("success", VBool true);
                                            ("metrics", metrics);
                                            ("timestamp", timestamp) ])
      /\ get_prop metrics "hot" = Some (VNum 2)
      /\ get_prop metrics "total" = Some (VNum 10).
Proof.
  split; [apply sample_store_up|].
  destruct (hot_leads_counted_in_memory sample_env (fresh ten_leads)
              (sample_store_up _ 4))
    as (resp & w' & metrics & timestamp & Hrun & _ & Hbody & Hhot & Htotal & _).
  exists resp, w', metrics, timestamp.
  split; [exact Hrun|]. split; [exact Hbody|].
  rewrite Hhot, Htotal. split; vm_compute; reflexivity.
Defined.





(* ================================================================= *)
(** ** POST /roi/calculate *)

(** C7.  When the store answers, the ROI figures are the fixed formulas, in
    binary64 arithmetic, over the number of converted leads:
    [cost_savings_annual = Math.round(50000 * 0.083 * 75 * 12)],
    [revenue_from_leads_annual = Math.round(converted * 5000 * 12)],
    [time_saved_hours_annual = Math.round(50000 * 0.083 * 12)],
    [total_roi_annual] is [Math.round] of the sum of the unrounded savings
    and revenue, and [roi_multiple] is that sum divided by 50000,
    [toFixed(1)].  The task figure 50000 is a constant: the savings are
    3735000 and the hours 49800 whatever the store holds. *)
Theorem roi_formulas :
  forall (env : Env) (w : World),
    store_up env w 3 ->
    let convertedLeads :=
      Number.of_nat (List.length (List.filter (lead_has_status "CONVERTED")
                                              (leads (store w)))) in
    exists resp w' r,
      handleCalculateROI env corsHeaders w = (Ok resp, w')
      /\ statusCode resp = 200
      /\ body resp = JSON.stringify (VObj [("success", VBool true); ("roi", r)])
      /\ get_prop r "cost_savings_annual"
         = Some (VNum (Number.Math_round (50000 * 0.083 * 75 * 12)))
      /\ get_prop r "revenue_from_leads_annual"
         = Some (VNum (Number.Math_round (convertedLeads * 5000 * 12)))
      /\ get_prop r "time_saved_hours_annual"
         = Some (VNum (Number.Math_round (50000 * 0.083 * 12)))
      /\ get_prop r "total_roi_annual"
         = Some (VNum (Number.Math_round
                         (50000 * 0.083 * 75 * 12 + convertedLeads * 5000 * 12)))
      /\ get_prop r "roi_multiple"
         = Some (VStr (Number.toFixed
                         ((50000 * 0.083 * 75 * 12 + convertedLeads * 5000 * 12)
                          / 50000) 1))
      /\ Number.Math_round (50000 * 0.083 * 75 * 12) = 3735000%float
      /\ Number.Math_round (50000 * 0.083 * 12) = 49800%float.
Proof.
  intros env w Hup convertedLeads.
  destruct (handleCalculateROI_run env corsHeaders w Hup) as (w' & Hrun & _).
  eexists _, w', _. split; [exact Hrun|].
  repeat split; reflexivity.
Qed.

(** C7 on the example of the specification: two agents, a hundred leads,
    fifteen of them converted. *)
Lemma roi_formulas_witness :
  store_up sample_env (fresh hundred_leads) 3
  /\ exists resp w' r,
      handleCalculateROI sample_env corsHeaders (fresh hundred_leads) = (Ok resp, w')
      /\ body resp = JSON.stringify (VObj [("success", VBool true); ("roi", r)])
      /\ get_prop r "cost_savings_annual" = Some (VNum 3735000)
      /\ get_prop r "revenue_from_leads_annual" = Some (VNum 900000)
      /\ get_prop r "time_saved_hours_annual" = Some (VNum 49800)
      /\ get_prop r "total_roi_annual" = Some (VNum 4635000)
      /\ get_prop r "roi_multiple" = Some (VStr "92.7").
Proof.
  split; [apply sample_store_up|].
  destruct (roi_formulas sample_env (fresh hundred_leads) (sample_store_up _ 3))
    as (resp & w' & r & Hrun & _ & Hbody & Hcost & Hrev & Htime & Htotal & Hmult & _).
  exists resp, w', r.
  split; [exact Hrun|]. split; [exact Hbody|].
  rewrite Hcost, Hrev, Htime, Htotal, Hmult.
  repeat split; vm_compute; reflexivity.
Defined.

(** C10.  When the store answers and holds no lead, the ROI handler reports
    the [conversion_rate] ["15.0"] (the fallback 0.15 as a percentage),
    whereas the lead metrics of the same store report ["0.0"]. *)
Theorem roi_conversion_rate_without_leads :
  forall (env : Env) (w : World),
    store_up env w 4 ->
    leads (store w) = [] ->
    (exists resp w' r,
        handleCalculateROI env corsHeaders w = (Ok resp, w')
        /\ statusCode resp = 200
        /\ body resp = JSON.stringify (VObj [("success", VBool true); ("roi", r)])
        /\ get_prop r "conversion_rate" = Some (VStr "15.0"))
    /\ (exists resp w' metrics timestamp,
           handleGetLeadMetrics env corsHeaders w = (Ok resp, w')
           /\ statusCode resp = 200
           /\ body resp = JSON.stringify (VObj [ ("success", VBool true);
                                                 ("metrics", metrics);
                                                 ("timestamp", timestamp) ])
           /\ get_prop metrics "conversionRate" = Some (VStr "0.0")).
Proof.
  intros env w Hup Hnone. split.
  - destruct (handleCalculateROI_run env corsHeaders w
                (store_up_weaken env w 4 3 ltac:(lia) Hup)) as (w' & Hrun & _).
    eexists _, w', _. split; [exact Hrun|].
    rewrite Hnone. repeat split; reflexivity.
  - destruct (handleGetLeadMetrics_run env corsHeaders w Hup) as (w' & Hrun & _ & _).
    eexists _, w', _, _. split; [exact Hrun|].
    rewrite Hnone. repeat split; reflexivity.
Qed.

(** C10 on the empty store. *)
Lemma roi_conversion_rate_without_leads_witness :
  store_up sample_env (fresh empty_store) 4
  /\ leads (store (fresh empty_store)) = []
  /\ exists resp w' r,
      handleCalculateROI sample_env corsHeaders (fresh empty_store) = (Ok resp, w')
      /\ statusCode resp = 200
      /\ body resp = JSON.stringify (VObj [("success", VBool true); ("roi", r)])
      /\ get_prop r "conversion_rate" = Some (VStr "15.0").
Proof.
  split; [apply sample_store_up|]. split; [reflexivity|].
  exact (proj1 (roi_conversion_rate_without_leads sample_env (fresh empty_store)
                  (sample_store_up _ 4) eq_refl)).
Defined.

(* ================================================================= *)
(** ** POST /workflows and POST /agents/:id/command *)

(** C2.  Whatever the request body, workflow creation either answers 500 and
    leaves the store as it was, or answers 200 and has added exactly one
    workflow document, under the id the store generated, whose [status] is
    ["active"], whose [completed_today] is 0, whose [created] is the
    handler's clock reading and whose [created_by] is ["dashboard_user"].
    It answers 200 whenever the body parses to a value other than [null]
    and the store accepts the insert. *)
Theorem created_workflow_has_fixed_fields :
  forall (env : Env) (body : option string) (w : World),
    exists resp w',
      handleCreateWorkflow env body corsHeaders w = (Ok resp, w')
      /\ ((statusCode resp = 500 /\ store w' = store w)
          \/ (statusCode resp = 200
              /\ exists doc,
                  store w'
                  = set_workflows
                      (insert_doc (autoId env (adds w)) doc (workflows (store w)))
                      (store w)
                  /\ Workflow.status doc = VStr "active"
                  /\ Workflow.completed_today doc = VNum 0
                  /\ Workflow.created doc = Some (clock env (ticks w))
                  /\ Workflow.created_by doc = VStr "dashboard_user"))
      /\ (forall data,
             JSON.parse (body_text body) = Some data ->
             data <> VNull -> data <> VUndefined ->
             fault env (List.length (trace w)) = None ->
             refuses env (workflow_of data (clock env (ticks w))) = None ->
             statusCode resp = 200).
Proof.
  intros env body w.
  unfold handleCreateWorkflow, try_catch, bind.
  rewrite parse_body_run.
  destruct (JSON.parse (body_text body)) as [data|].
  2:{ eexists _, _. split; [reflexivity|]. split.
      - left. split; reflexivity.
      - intros data Hdata. discriminate. }
  unfold new_workflow, bind, member.
  destruct (get_prop data "name") as [name|] eqn:Hname.
  2:{ eexists _, _. split; [reflexivity|]. split.
      - left. split; reflexivity.
      - intros data' Hdata Hnull Hundef. injection Hdata as <-.
        destruct data; try discriminate; congruence. }
  assert (Hany : forall k, exists x, get_prop data k = Some x).
  { intros k. destruct data; try discriminate; eexists; reflexivity. }
  destruct (Hany "description") as (description & Hdescription).
  destruct (Hany "trigger") as (trigger & Htrigger).
  destruct (Hany "steps") as (steps & Hsteps).
  rewrite Hdescription, Htrigger, Hsteps.
  cbn [ret new_Date throw_engine throw].
  unfold add_workflow, store_op. cbn [trace ticks adds store console].
  assert (Hdoc : workflow_of data (clock env (ticks w))
                 = {| Workflow.name := or_else name (VStr "New Workflow");
                      Workflow.description := or_else description (VStr "");
                      Workflow.trigger := or_else trigger (VStr "manual");
                      Workflow.steps := or_else steps (VArr []);
                      Workflow.status := VStr "active";
                      Workflow.created := Some (clock env (ticks w));
                      Workflow.created_by := VStr "dashboard_user";
                      Workflow.completed_today := VNum 0 |}).
  { unfold workflow_of, get_prop_opt.
    rewrite Hname, Hdescription, Htrigger, Hsteps. reflexivity. }
  rewrite <- Hdoc.
  destruct (fault env (List.length (trace w))) as [message|].
  - eexists _, _. split; [reflexivity|]. split.
    + left. split; reflexivity.
    + intros; discriminate.
  - destruct (refuses env (workflow_of data (clock env (ticks w)))) as [message|]
      eqn:Hrefused.
    + eexists _, _. split; [reflexivity|]. split.
      * left. split; reflexivity.
      * intros data' Hdata _ _ _ Haccepted. injection Hdata as <-. congruence.
    + eexists _, _. split; [reflexivity|]. split.
      * right. split; [reflexivity|].
        eexists. split; [reflexivity|]. rewrite Hdoc. repeat split; reflexivity.
      * reflexivity.
Qed.

(** A body that supplies [status], [completed_today] and [created_by] does
    not get them stored. *)
Example overriding_body_is_ignored :
  exists resp w',
    handleCreateWorkflow sample_env (Some overriding_body) corsHeaders (fresh empty_store)
    = (Ok resp, w')
    /\ statusCode resp = 200
    /\ workflows (store w')
       = [ ("wf0",
            {| Workflow.name := VStr "N";
               Workflow.description := VStr "";
               Workflow.trigger := VStr "manual";
               Workflow.steps := VArr [];
               Workflow.status := VStr "active";
               Workflow.created := Some sample_now;
               Workflow.created_by := VStr "dashboard_user";
               Workflow.completed_today := VNum 0 |}) ].
Proof.
  eexists _, _. split; [vm_compute; reflexivity|]. split; reflexivity.
Qed.

(** C8 (as amended).  A body that is present, not empty and does not parse
    makes workflow creation answer 500 with the message of the parse error,
    adding no workflow and leaving the world as it was; the command handler
    answers the same body in the same way.  Only an absent or empty body is
    replaced by [{}], and then a workflow with the default fields is
    created (when the store accepts the insert). *)
Theorem malformed_body_is_an_error_in_both_handlers :
  forall (env : Env) (text agentId : string) (w : World),
    text <> "" ->
    JSON.parse text = None ->
    let error := engineMessage env (JsonSyntaxError text) in
    handleCreateWorkflow env (Some text) corsHeaders w
    = (Ok (failure corsHeaders error), w)
    /\ handleAgentCommand env agentId (Some text) corsHeaders w
       = (Ok (failure corsHeaders error), w)
    /\ statusCode (failure corsHeaders error) = 500
    /\ (forall body,
           body = None \/ body = Some "" ->
           fault env (List.length (trace w)) = None ->
           let created :=
             {| Workflow.name := VStr "New Workflow";
                Workflow.description := VStr "";
                Workflow.trigger := VStr "manual";
                Workflow.steps := VArr [];
                Workflow.status := VStr "active";
                Workflow.created := Some (clock env (ticks w));
                Workflow.created_by := VStr "dashboard_user";
                Workflow.completed_today := VNum 0 |} in
           refuses env created = None ->
           exists resp w',
             handleCreateWorkflow env body corsHeaders w = (Ok resp, w')
             /\ statusCode resp = 200
             /\ workflows (store w')
                = insert_doc (autoId env (adds w)) created (workflows (store w))).
Proof.
  intros env text agentId w Hne Hparse error.
  assert (Htext : body_text (Some text) = text).
  { unfold body_text. destruct (String.eqb_spec text ""); [contradiction | reflexivity]. }
  repeat split.
  - unfold handleCreateWorkflow, try_catch, bind.
    rewrite parse_body_run, Htext, Hparse. reflexivity.
  - unfold handleAgentCommand, try_catch, bind.
    rewrite parse_body_run, Htext, Hparse. reflexivity.
  - intros body Hbody Hup created Haccepted.
    assert (Hb : body_text body = "{}") by (destruct Hbody as [-> | ->]; reflexivity).
    unfold handleCreateWorkflow, try_catch, bind.
    rewrite parse_body_run, Hb.
    change (JSON.parse "{}") with (Some (VObj [])).
    cbn -[JSON.stringify]. unfold add_workflow, store_op.
    cbn [trace ticks adds store console]. fold created. rewrite Hup, Haccepted.
    eexists _, _. split; [reflexivity|]. split; reflexivity.
Qed.

(** C8 at the body [{]. *)
Lemma malformed_body_is_an_error_in_both_handlers_witness :
  "{" <> ""
  /\ JSON.parse "{" = None
  /\ handleCreateWorkflow sample_env (Some "{") corsHeaders (fresh empty_store)
     = (Ok (failure corsHeaders "Unexpected end of JSON input"), fresh empty_store)
  /\ handleAgentCommand sample_env "a7" (Some "{") corsHeaders (fresh empty_store)
     = (Ok (failure corsHeaders "Unexpected end of JSON input"), fresh empty_store).
Proof.
  assert (Hne : "{" <> "") by discriminate.
  split; [exact Hne|]. split; [reflexivity|].
  destruct (malformed_body_is_an_error_in_both_handlers sample_env "{" "a7"
              (fresh empty_store) Hne eq_refl) as (Hcreate & Hcommand & _).
  split; [exact Hcreate | exact Hcommand].
Defined.

(** C8 as stated fails at the body [{]: it is present and does not parse,
    and workflow creation answers 500 without issuing any store operation
    or adding any workflow. *)
Lemma malformed_workflow_body_counterexample :
  JSON.parse "{" = None
  /\ exists resp w',
      handleCreateWorkflow sample_env (Some "{") corsHeaders (fresh empty_store)
      = (Ok resp, w')
      /\ statusCode resp = 500
      /\ workflows (store w') = []
      /\ trace w' = [].
Proof.
  split; [reflexivity|].
  eexists _, _. split; [vm_compute; reflexivity|]. repeat split; reflexivity.
Qed.

(* ================================================================= *)
(** ** POST /alerts/:id/resolve *)

Lemma update_doc_found {A} (id : string) (f : A -> A) (l : list (string * A)) d :
  lookup id l = Some d ->
  exists l',
    update_doc id f l = Some l'
    /\ lookup id l' = Some (f d)
    /\ (forall k, k <> id -> lookup k l' = lookup k l).
Proof.
  induction l as [|[k x] l IH]; simpl; [discriminate|].
  rewrite (String.eqb_sym k id).
  destruct (String.eqb_spec id k) as [<- | Hne].
  - intros [= ->]. eexists. split; [reflexivity|]. split.
    + simpl. rewrite String.eqb_refl. reflexivity.
    + intros k Hk. simpl. destruct (String.eqb_spec k id); [contradiction|reflexivity].
  - intros Hl. destruct (IH Hl) as (l' & Hu & Hsame & Hother).
    rewrite Hu. eexists. split; [reflexivity|]. split.
    + simpl. destruct (String.eqb_spec id k); [contradiction|exact Hsame].
    + intros k' Hk'. simpl. destruct (String.eqb k' k); [reflexivity|].
      apply Hother, Hk'.
Qed.

Lemma update_doc_missing {A} (id : string) (f : A -> A) (l : list (string * A)) :
  lookup id l = None -> update_doc id f l = None.
Proof.
  induction l as [|[k x] l IH]; simpl; [reflexivity|].
  rewrite (String.eqb_sym k id).
  destruct (String.eqb id k); [discriminate|].
  intros Hl. rewrite (IH Hl). reflexivity.
Qed.

Lemma resolved_kept_refl s : resolved_kept s s.
Proof. intros id a Hl Hr. exists a. split; assumption. Qed.

Lemma resolved_kept_trans s1 s2 s3 :
  resolved_kept s1 s2 -> resolved_kept s2 s3 -> resolved_kept s1 s3.
Proof.
  intros H12 H23 id a Hl Hr.
  destruct (H12 id a Hl Hr) as (a' & Hl' & Hr').
  exact (H23 id a' Hl' Hr').
Qed.

(** *** No computation of the program un-resolves an alert *)

Create HintDb keeps.

Lemma keeps_ret {A} (a : A) : keeps_resolved (ret a).
Proof. intros w r w' [= _ <-]. apply resolved_kept_refl. Qed.

Lemma keeps_throw {A} e : keeps_resolved (@throw A e).
Proof. intros w r w' [= _ <-]. apply resolved_kept_refl. Qed.

Lemma keeps_bind {A B} (m : M A) (k : A -> M B) :
  keeps_resolved m -> (forall a, keeps_resolved (k a)) -> keeps_resolved (bind m k).
Proof.
  intros Hm Hk w r w' Hrun. unfold bind in Hrun.
  destruct (m w) as [[a|e] w1] eqn:Hmw.
  - eapply resolved_kept_trans; [exact (Hm _ _ _ Hmw) | exact (Hk a _ _ _ Hrun)].
  - injection Hrun as _ <-. exact (Hm _ _ _ Hmw).
Qed.

Lemma keeps_try {A} (m : M A) h :
  keeps_resolved m -> (forall e, keeps_resolved (h e)) -> keeps_resolved (try_catch m h).
Proof.
  intros Hm Hh w r w' Hrun. unfold try_catch in Hrun.
  destruct (m w) as [[a|e] w1] eqn:Hmw.
  - injection Hrun as _ <-. exact (Hm _ _ _ Hmw).
  - eapply resolved_kept_trans; [exact (Hm _ _ _ Hmw) | exact (Hh e _ _ _ Hrun)].
Qed.

Lemma keeps_log entry : keeps_resolved (log entry).
Proof. intros w r w' [= _ <-]. apply resolved_kept_refl. Qed.

Lemma keeps_new_Date env : keeps_resolved (new_Date env).
Proof. intros w r w' [= _ <-]. apply resolved_kept_refl. Qed.

Lemma keeps_throw_engine env {A} e : keeps_resolved (@throw_engine env A e).
Proof. apply keeps_throw. Qed.

Lemma keeps_store_op env {A} op (run : Store -> outcome (A * Store)) :
  (forall s a s', run s = Ok (a, s') -> resolved_kept s s') ->
  keeps_resolved (store_op env op run).
Proof.
  intros Hrun w r w' H. unfold store_op in H.
  destruct (fault env (List.length (trace w))).
  - injection H as _ <-. apply resolved_kept_refl.
  - destruct (run (store w)) as [[a s]|e] eqn:Hr.
    + injection H as _ <-. simpl. exact (Hrun _ _ _ Hr).
    + injection H as _ <-. apply resolved_kept_refl.
Qed.

Lemma keeps_query env {A} op (read : Store -> A) : keeps_resolved (query env op read).
Proof.
  apply keeps_store_op. intros s a s' [= _ <-]. apply resolved_kept_refl.
Qed.

(** The one update the program makes sets [resolved] to true. *)
Lemma keeps_update_alert env alertId t user :
  keeps_resolved (update_alert env alertId t user).
Proof.
  apply keeps_store_op. intros s a s' Hrun.
  destruct (update_doc alertId (resolve_doc t user) (system_alerts s)) as [l|] eqn:Hu;
    [|discriminate].
  injection Hrun as _ <-.
  intros id x Hl Hr. simpl.
  destruct (lookup alertId (system_alerts s)) as [d|] eqn:Hd.
  - destruct (update_doc_found alertId (resolve_doc t user) _ _ Hd)
      as (l' & Hu' & Hsame & Hother).
    rewrite Hu in Hu'. injection Hu' as <-.
    destruct (String.eqb_spec id alertId) as [-> | Hne].
    + eexists. split; [exact Hsame | reflexivity].
    + exists x. rewrite (Hother id Hne). split; assumption.
  - rewrite (update_doc_missing _ _ _ Hd) in Hu. discriminate.
Qed.

Lemma keeps_add_workflow env doc : keeps_resolved (add_workflow env doc).
Proof.
  intros w r w' H. unfold add_workflow in H.
  refine (keeps_store_op env (OpAdd "workflows") _ _ _ _ _ H).
  intros s a s' Hrun.
  destruct (refuses env doc); [discriminate|].
  injection Hrun as _ <-. intros id x Hl Hr. exists x. split; assumption.
Qed.

#[local] Hint Resolve keeps_ret keeps_throw keeps_log keeps_new_Date
  keeps_throw_engine keeps_query keeps_update_alert keeps_add_workflow : keeps.

Ltac keeps_step :=
  match goal with
  | |- keeps_resolved (bind _ _) => apply keeps_bind; [|intros ?]
  | |- keeps_resolved (try_catch _ _) => apply keeps_try; [|intros ?]
  | |- keeps_resolved (match ?x with _ => _ end) => destruct x
  | |- keeps_resolved _ => solve [auto with keeps]
  end.

Lemma keeps_shape_agents env now docs :
  forall acc, keeps_resolved (shape_agents env now docs acc).
Proof.
  induction docs as [|[id data] docs IH]; intros acc; simpl.
  - auto with keeps.
  - apply keeps_bind; [|intros a; apply IH].
    unfold shape_agent, toFixed1. repeat keeps_step.
Qed.

Lemma keeps_shape_alerts env docs : keeps_resolved (shape_alerts env docs).
Proof.
  induction docs as [|d docs IH]; simpl.
  - auto with keeps.
  - apply keeps_bind; [|intros a; apply keeps_bind; [exact IH | intros; auto with keeps]].
    unfold shape_alert. repeat keeps_step.
Qed.

#[local] Hint Resolve keeps_shape_agents keeps_shape_alerts : keeps.

(** Whatever the request, an alert that was resolved stays resolved. *)
Lemma keeps_handler env event : keeps_resolved (handler env event).
Proof.
  unfold handler.
  destruct (String.eqb (Event.httpMethod event) "OPTIONS"); [auto with keeps|].
  apply keeps_try; [|intros e; repeat keeps_step].
  repeat match goal with
         | |- keeps_resolved (if ?b then _ else _) => destruct b
         end;
    [ unfold handleGetAgents
    | unfold handleAgentCommand, parse_body, member
    | unfold handleGetLeadMetrics
    | unfold handleGetAlerts
    | unfold handleResolveAlert
    | unfold handleGetWorkflows
    | unfold handleCreateWorkflow, new_workflow, parse_body, member
    | unfold handleCalculateROI
    | ];
    repeat keeps_step.
Qed.

Lemma handleResolveAlert_run env alertId alert w :
  lookup alertId (system_alerts (store w)) = Some alert ->
  fault env (List.length (trace w)) = None ->
  exists w',
    handleResolveAlert env alertId corsHeaders w
    = (Ok {| statusCode := 200;
             headers := corsHeaders;
             body := JSON.stringify
                       (VObj [ ("success", VBool true);
                               ("message", VStr ("Alert " ++ alertId ++ " resolved")) ]) |},
       w')
    /\ lookup alertId (system_alerts (store w'))
       = Some (resolve_doc (clock env (ticks w)) "dashboard_user" alert)
    /\ (forall id, id <> alertId ->
                   lookup id (system_alerts (store w'))
                   = lookup id (system_alerts (store w)))
    /\ trace w' = (trace w ++ [OpUpdate "system_alerts" alertId])%list.
Proof.
  intros Hfound Hup.
  destruct (update_doc_found alertId
              (resolve_doc (clock env (ticks w)) "dashboard_user") _ _ Hfound)
    as (l' & Hu & Hsame & Hother).
  unfold handleResolveAlert, try_catch, bind, update_alert, store_op.
  cbn [new_Date trace ticks store adds console].
  rewrite Hup, Hu.
  eexists. split; [reflexivity|]. cbn [with_store store system_alerts set_alerts trace].
  split; [exact Hsame|]. split; [exact Hother | reflexivity].
Qed.

(** C6.  For an alert that exists, whether or not it is already resolved,
    and a store that answers, the resolution handler answers 200 with the
    success message and leaves the alert with [resolved = true], the
    handler's clock reading as [resolved_at] and ["dashboard_user"] as
    [resolved_by], the other alerts being as before.  Resolving it again
    answers the same and leaves it resolved.  No request of any kind turns a
    resolved alert into an unresolved one. *)
Theorem resolving_an_alert_is_idempotent :
  forall (env : Env) (alertId : string) (alert : Alert.doc) (w : World),
    lookup alertId (system_alerts (store w)) = Some alert ->
    store_up env w 2 ->
    let success :=
      {| statusCode := 200;
         headers := corsHeaders;
         body := JSON.stringify
                   (VObj [ ("success", VBool true);
                           ("message", VStr ("Alert " ++ alertId ++ " resolved")) ]) |} in
    exists w1 w2 once twice,
      handleResolveAlert env alertId corsHeaders w = (Ok success, w1)
      /\ lookup alertId (system_alerts (store w1)) = Some once
      /\ Alert.resolved once = Some true
      /\ Alert.resolved_at once = Some (clock env (ticks w))
      /\ Alert.resolved_by once = Some "dashboard_user"
      /\ (forall id, id <> alertId ->
                     lookup id (system_alerts (store w1))
                     = lookup id (system_alerts (store w)))
      /\ handleResolveAlert env alertId corsHeaders w1 = (Ok success, w2)
      /\ lookup alertId (system_alerts (store w2)) = Some twice
      /\ Alert.resolved twice = Some true
      /\ (forall event w0 r w0',
             handler env event w0 = (r, w0') ->
             resolved_kept (store w0) (store w0')).
Proof.
  intros env alertId alert w Hfound Hup success.
  destruct (handleResolveAlert_run env alertId alert w Hfound (store_up_now _ _ _ Hup))
    as (w1 & Hrun1 & Hone & Hothers & Htrace).
  assert (Hup1 : fault env (List.length (trace w1)) = None).
  { rewrite Htrace, length_app. simpl. apply Hup. lia. }
  destruct (handleResolveAlert_run env alertId _ w1 Hone Hup1)
    as (w2 & Hrun2 & Htwo & _ & _).
  exists w1, w2. eexists _, _.
  split; [exact Hrun1|]. split; [exact Hone|].
  split; [reflexivity|]. split; [reflexivity|]. split; [reflexivity|].
  split; [exact Hothers|]. split; [exact Hrun2|]. split; [exact Htwo|].
  split; [reflexivity|].
  intros event w0 r w0'. apply keeps_handler.
Qed.

(** C6 at the alert [closed], which is already resolved. *)
Lemma resolving_an_alert_is_idempotent_witness :
  lookup "closed" (system_alerts alerts_store) = Some (alert true)
  /\ store_up sample_env (fresh alerts_store) 2
  /\ exists w1 once,
      statusCode (response_of
                    (handleResolveAlert sample_env "closed" corsHeaders
                                        (fresh alerts_store))) = 200
      /\ handleResolveAlert sample_env "closed" corsHeaders (fresh alerts_store)
         = (Ok (response_of (handleResolveAlert sample_env "closed" corsHeaders
                                                (fresh alerts_store))), w1)
      /\ lookup "closed" (system_alerts (store w1)) = Some once
      /\ Alert.resolved once = Some true
      /\ Alert.resolved_at once = Some sample_now
      /\ Alert.resolved_by once = Some "dashboard_user".
Proof.
  split; [reflexivity|]. split; [apply sample_store_up|].
  destruct (resolving_an_alert_is_idempotent sample_env "closed" (alert true)
              (fresh alerts_store) eq_refl (sample_store_up _ 2))
    as (w1 & w2 & once & twice & Hrun & Hone & Hres & Hat & Hby & _).
  exists w1, once.
  split; [vm_compute; reflexivity|].
  split; [rewrite Hrun; reflexivity|].
  split; [exact Hone|]. split; [exact Hres|]. split; [exact Hat | exact Hby].
Defined.

(* ================================================================= *)
(** * Further properties of the handlers *)

(** ** Every request is answered *)

Lemma yields_ret {A} (P : A -> Prop) a : P a -> yields P (ret a).
Proof. intros Ha w a' w' [= <- _]. exact Ha. Qed.

Lemma yields_bind {A B} (P : B -> Prop) (m : M A) (k : A -> M B) :
  (forall a, yields P (k a)) -> yields P (bind m k).
Proof.
  intros Hk w b w' Hrun. unfold bind in Hrun.
  destruct (m w) as [[a|e] w1]; [exact (Hk a _ _ _ Hrun) | discriminate].
Qed.

Lemma returns_ret {A} (P : A -> Prop) a : P a -> returns P (ret a).
Proof. intros Ha w. exists a, w. split; [reflexivity | exact Ha]. Qed.

Lemma returns_logged {A} (P : A -> Prop) entry a :
  P a -> returns P (log entry ;;; ret a).
Proof. intros Ha w. eexists _, _. split; [reflexivity | exact Ha]. Qed.

(** A [try] whose handler returns, returns. *)
Lemma returns_try {A} (P : A -> Prop) (m : M A) h :
  yields P m -> (forall e, returns P (h e)) -> returns P (try_catch m h).
Proof.
  intros Hm Hh w. unfold try_catch.
  destruct (m w) as [[a|e] w1] eqn:Hrun.
  - exists a, w1. split; [reflexivity | exact (Hm _ _ _ Hrun)].
  - apply Hh.
Qed.

(** The handler of a [try] whose body returns is not run. *)
Lemma try_returns {A} (P : A -> Prop) (m : M A) h w :
  returns P m -> try_catch m h w = m w.
Proof.
  intros Hm. destruct (Hm w) as (a & w' & Hrun & _).
  unfold try_catch. rewrite Hrun. reflexivity.
Qed.

Lemma answered_200 h b :
  answered h {| statusCode := 200; headers := h; body := b |}.
Proof. split; [reflexivity | left; reflexivity]. Qed.

Lemma answered_failure h e : answered h (failure h e).
Proof. split; [reflexivity | right; exists e; reflexivity]. Qed.

Create HintDb answers.

#[local] Hint Resolve answered_200 answered_failure : answers.

Ltac answers_step :=
  match goal with
  | |- returns _ (try_catch _ _) => apply returns_try; [|intros ?]
  | |- returns _ (bind (log _) _) => apply returns_logged
  | |- returns _ (ret _) => apply returns_ret
  | |- yields _ (bind _ _) => apply yields_bind; intros ?
  | |- yields _ (ret _) => apply yields_ret
  | |- answered _ _ => solve [auto with answers]
  end.

Section Answers.

Variable env : Env.
Variable h : list (string * string).

Lemma handleGetAgents_returns : returns (answered h) (handleGetAgents env h).
Proof. unfold handleGetAgents. repeat answers_step. Qed.

Lemma handleAgentCommand_returns agentId body :
  returns (answered h) (handleAgentCommand env agentId body h).
Proof. unfold handleAgentCommand. repeat answers_step. Qed.

Lemma handleGetLeadMetrics_returns : returns (answered h) (handleGetLeadMetrics env h).
Proof. unfold handleGetLeadMetrics. repeat answers_step. Qed.

Lemma handleGetAlerts_returns : returns (answered h) (handleGetAlerts env h).
Proof. unfold handleGetAlerts. repeat answers_step. Qed.

Lemma handleResolveAlert_returns alertId :
  returns (answered h) (handleResolveAlert env alertId h).
Proof. unfold handleResolveAlert. repeat answers_step. Qed.

Lemma handleGetWorkflows_returns : returns (answered h) (handleGetWorkflows env h).
Proof. unfold handleGetWorkflows. repeat answers_step. Qed.

Lemma handleCreateWorkflow_returns body :
  returns (answered h) (handleCreateWorkflow env body h).
Proof. unfold handleCreateWorkflow. repeat answers_step. Qed.

Lemma handleCalculateROI_returns : returns (answered h) (handleCalculateROI env h).
Proof. unfold handleCalculateROI. repeat answers_step. Qed.

End Answers.

#[local] Hint Resolve handleGetAgents_returns handleAgentCommand_returns
  handleGetLeadMetrics_returns handleGetAlerts_returns handleResolveAlert_returns
  handleGetWorkflows_returns handleCreateWorkflow_returns
  handleCalculateROI_returns : answers.

(** The cases of the router, as a function of the eight tests. *)
Lemma unrouted_cases method segments :
  unrouted method segments
  = negb (String.eqb method "GET" && segment_is segments 0 "agents"
          && no_segment segments 1)
    && negb (String.eqb method "POST" && segment_is segments 0 "agents"
             && segment_is segments 2 "command")
    && negb (String.eqb method "GET" && segment_is segments 0 "leads"
             && segment_is segments 1 "metrics")
    && negb (String.eqb method "GET" && segment_is segments 0 "alerts"
             && segment_is segments 1 "active")
    && negb (String.eqb method "POST" && segment_is segments 0 "alerts"
             && segment_is segments 2 "resolve")
    && negb (String.eqb method "GET" && segment_is segments 0 "workflows")
    && negb (String.eqb method "POST" && segment_is segments 0 "workflows")
    && negb (String.eqb method "POST" && segment_is segments 0 "roi"
             && segment_is segments 1 "calculate").
Proof.
  unfold unrouted, routes, route_matches. cbn [forallb fst snd].
  rewrite andb_true_r, <- !andb_assoc. reflexivity.
Qed.

(** X1.  Whatever the request and whatever the store does, [handler]
    returns a response, and the response carries the CORS headers.  An
    OPTIONS request is answered 200 with an empty body and nothing else
    happens; a request that no route matches is answered 404 and nothing
    else happens; any other request is answered 200, or 500 with a body of
    the form [{"success":false,"error":message}]. *)
Theorem every_request_is_answered :
  forall (env : Env) (event : Event.t) (w : World),
    exists resp w',
      handler env event w = (Ok resp, w')
      /\ headers resp = corsHeaders
      /\ (if String.eqb (Event.httpMethod event) "OPTIONS"
          then resp = {| statusCode := 200; headers := corsHeaders; body := "" |}
               /\ w' = w
          else if unrouted (Event.httpMethod event) (segments_of event)
          then resp = not_found corsHeaders /\ w' = w
          else statusCode resp = 200
               \/ exists message, resp = failure corsHeaders message).
Proof.
  intros env event w. unfold handler.
  destruct (String.eqb (Event.httpMethod event) "OPTIONS").
  { eexists _, _. split; [reflexivity|]. split; [reflexivity|]. split; reflexivity. }
  fold (segments_of event). rewrite unrouted_cases.
  set (method := Event.httpMethod event). set (segments := segments_of event).
  repeat match goal with
         | |- context [try_catch (if ?b then _ else _)] => destruct b
         end; cbn [negb andb];
    try (match goal with
         | |- context [try_catch ?m ?c w] =>
             rewrite (try_returns (answered corsHeaders) m c w) by auto with answers;
             let Hr := fresh in
             assert (Hr : returns (answered corsHeaders) m) by auto with answers;
             destruct (Hr w) as (resp & w' & Hrun & Hh & Hs);
             exists resp, w'; split; [exact Hrun|]; split; [exact Hh | exact Hs]
         end).
  eexists _, _. split; [reflexivity|]. split; [reflexivity|]. split; reflexivity.
Qed.

(* ================================================================= *)
(** ** What a request does to the store *)

Section Preservation.

Variable R : Store -> Store -> Prop.
Hypothesis R_refl : forall s, R s s.
Hypothesis R_trans : forall s1 s2 s3, R s1 s2 -> R s2 s3 -> R s1 s3.

Lemma preserves_ret {A} (a : A) : preserves R (ret a).
Proof. intros w r w' [= _ <-]. apply R_refl. Qed.

Lemma preserves_throw {A} e : preserves R (@throw A e).
Proof. intros w r w' [= _ <-]. apply R_refl. Qed.

Lemma preserves_log entry : preserves R (log entry).
Proof. intros w r w' [= _ <-]. apply R_refl. Qed.

Lemma preserves_bind {A B} (m : M A) (k : A -> M B) :
  preserves R m -> (forall a, preserves R (k a)) -> preserves R (bind m k).
Proof.
  intros Hm Hk w r w' Hrun. unfold bind in Hrun.
  destruct (m w) as [[a|e] w1] eqn:Hmw.
  - eapply R_trans; [exact (Hm _ _ _ Hmw) | exact (Hk a _ _ _ Hrun)].
  - injection Hrun as _ <-. exact (Hm _ _ _ Hmw).
Qed.

Lemma preserves_try {A} (m : M A) h :
  preserves R m -> (forall e, preserves R (h e)) -> preserves R (try_catch m h).
Proof.
  intros Hm Hh w r w' Hrun. unfold try_catch in Hrun.
  destruct (m w) as [[a|e] w1] eqn:Hmw.
  - injection Hrun as _ <-. exact (Hm _ _ _ Hmw).
  - eapply R_trans; [exact (Hm _ _ _ Hmw) | exact (Hh e _ _ _ Hrun)].
Qed.

Variable env : Env.

Lemma preserves_new_Date : preserves R (new_Date env).
Proof. intros w r w' [= _ <-]. apply R_refl. Qed.

Lemma preserves_throw_engine {A} e : preserves R (@throw_engine env A e).
Proof. apply preserves_throw. Qed.

Lemma preserves_store_op {A} op (run : Store -> outcome (A * Store)) :
  (forall s a s', run s = Ok (a, s') -> R s s') ->
  preserves R (store_op env op run).
Proof.
  intros Hrun w r w' H. unfold store_op in H.
  destruct (fault env (List.length (trace w))).
  - injection H as _ <-. apply R_refl.
  - destruct (run (store w)) as [[a s]|e] eqn:Hr.
    + injection H as _ <-. simpl. exact (Hrun _ _ _ Hr).
    + injection H as _ <-. apply R_refl.
Qed.

Lemma preserves_query {A} op (read : Store -> A) : preserves R (query env op read).
Proof. apply preserves_store_op. intros s a s' [= _ <-]. apply R_refl. Qed.

Lemma preserves_shape_agents now docs :
  forall acc, preserves R (shape_agents env now docs acc).
Proof.
  induction docs as [|[id data] docs IH]; intros acc; simpl.
  - apply preserves_ret.
  - apply preserves_bind; [|intros a; apply IH].
    unfold shape_agent, toFixed1.
    apply preserves_bind; [|intros a; apply preserves_ret].
    destruct (or_else _ _); apply preserves_ret || apply preserves_throw_engine.
Qed.

Lemma preserves_shape_alerts docs : preserves R (shape_alerts env docs).
Proof.
  induction docs as [|d docs IH]; simpl.
  - apply preserves_ret.
  - apply preserves_bind;
      [|intros a; apply preserves_bind; [exact IH | intros; apply preserves_ret]].
    unfold shape_alert.
    apply preserves_bind; [|intros a; apply preserves_ret].
    destruct (Alert.timestamp (snd d));
      first [ apply preserves_ret
            | apply preserves_bind;
              [apply preserves_new_Date | intros; apply preserves_ret] ].
Qed.

Lemma preserves_parse_body body : preserves R (parse_body env body).
Proof.
  unfold parse_body. destruct (JSON.parse _);
    [apply preserves_ret | apply preserves_throw_engine].
Qed.

Lemma preserves_member v k : preserves R (member env v k).
Proof.
  unfold member. destruct (get_prop v k);
    [apply preserves_ret | apply preserves_throw_engine].
Qed.

#[local] Hint Resolve preserves_ret preserves_throw preserves_log preserves_new_Date
  preserves_throw_engine preserves_query preserves_shape_agents
  preserves_shape_alerts preserves_parse_body preserves_member : core.

Ltac preserves_step :=
  match goal with
  | |- preserves R (bind _ _) => apply preserves_bind; [|intros ?]
  | |- preserves R (try_catch _ _) => apply preserves_try; [|intros ?]
  | |- preserves R _ => solve [auto]
  end.

(** The handlers that only read the store. *)
Lemma preserves_handleGetAgents h : preserves R (handleGetAgents env h).
Proof. unfold handleGetAgents. repeat preserves_step. Qed.

Lemma preserves_handleAgentCommand agentId body h :
  preserves R (handleAgentCommand env agentId body h).
Proof. unfold handleAgentCommand. repeat preserves_step. Qed.

Lemma preserves_handleGetLeadMetrics h : preserves R (handleGetLeadMetrics env h).
Proof. unfold handleGetLeadMetrics. repeat preserves_step. Qed.

Lemma preserves_handleGetAlerts h : preserves R (handleGetAlerts env h).
Proof. unfold handleGetAlerts. repeat preserves_step. Qed.

Lemma preserves_handleGetWorkflows h : preserves R (handleGetWorkflows env h).
Proof. unfold handleGetWorkflows. repeat preserves_step. Qed.

Lemma preserves_handleCalculateROI h : preserves R (handleCalculateROI env h).
Proof. unfold handleCalculateROI. repeat preserves_step. Qed.

(** The two handlers that write, for a relation that their write respects. *)
Lemma preserves_handleResolveAlert alertId h :
  (forall t user, preserves R (update_alert env alertId t user)) ->
  preserves R (handleResolveAlert env alertId h).
Proof. intros Hu. unfold handleResolveAlert. repeat preserves_step. Qed.

Lemma preserves_handleCreateWorkflow body h :
  (forall doc, preserves R (add_workflow env doc)) ->
  preserves R (handleCreateWorkflow env body h).
Proof.
  intros Ha. unfold handleCreateWorkflow, new_workflow. repeat preserves_step.
Qed.

End Preservation.

Lemma alert_kept_refl a : alert_kept a a.
Proof. repeat split; try reflexivity. left. reflexivity. Qed.

Lemma alert_kept_trans a b c : alert_kept a b -> alert_kept b c -> alert_kept a c.
Proof.
  intros (Hid & Hs & Hm & Ha & Ht & Hr) (Hid' & Hs' & Hm' & Ha' & Ht' & Hr').
  repeat split; try congruence.
  destruct Hr' as [Hsame | Hresolved]; [|right; exact Hresolved].
  destruct Hr as [Hsame0 | Hresolved]; [left; congruence|].
  right. rewrite Hsame. exact Hresolved.
Qed.

Lemma alerts_kept_refl l : Forall2 alert_kept l l.
Proof. induction l; constructor; [apply alert_kept_refl | assumption]. Qed.

Lemma alerts_kept_trans l1 : forall l2 l3,
  Forall2 alert_kept l1 l2 -> Forall2 alert_kept l2 l3 -> Forall2 alert_kept l1 l3.
Proof.
  induction l1 as [|a l1 IH]; intros l2 l3 H12 H23.
  - inversion H12; subst. inversion H23; subst. constructor.
  - inversion H12 as [|? b ? l2' Hab H12']; subst.
    inversion H23 as [|? c ? l3' Hbc H23']; subst.
    constructor; [exact (alert_kept_trans _ _ _ Hab Hbc) | exact (IH _ _ H12' H23')].
Qed.

Lemma kept_in_refl {A} (l : list A) : kept_in l l.
Proof. induction l; constructor; assumption. Qed.

Lemma kept_in_trans {A} (l2 l3 : list A) :
  kept_in l2 l3 -> forall l1, kept_in l1 l2 -> kept_in l1 l3.
Proof.
  intros H23. induction H23 as [|x l2 l3 H23 IH|x l2 l3 H23 IH]; intros l1 H12.
  - exact H12.
  - inversion H12 as [|? l1' ? H12'|? ? ? H12']; subst.
    + apply kept_same, IH, H12'.
    + apply kept_new, IH, H12'.
  - apply kept_new, IH, H12.
Qed.

(** A document that is added leaves the others as they were, and in their
    order. *)
Lemma insert_doc_keeps {A} id (d : A) l : kept_in l (insert_doc id d l).
Proof.
  induction l as [|[k x] l IH]; simpl.
  - apply kept_new, kept_nil.
  - destruct (String.ltb id k).
    + apply kept_new, kept_in_refl.
    + apply kept_same, IH.
Qed.

Lemma nothing_lost_refl s : nothing_lost s s.
Proof.
  repeat split; [apply alerts_kept_refl | apply kept_in_refl].
Qed.

Lemma nothing_lost_trans s1 s2 s3 :
  nothing_lost s1 s2 -> nothing_lost s2 s3 -> nothing_lost s1 s3.
Proof.
  intros (Ha & Hl & Hk & Hw) (Ha' & Hl' & Hk' & Hw').
  split; [congruence|]. split; [congruence|].
  split; [exact (alerts_kept_trans _ _ _ Hk Hk')|].
  exact (kept_in_trans _ _ Hw' _ Hw).
Qed.

(** An update changes the one document it is given, in place, and of that
    document the resolution only. *)
Lemma update_doc_kept t user id l : forall l',
  update_doc id (resolve_doc t user) l = Some l' -> Forall2 alert_kept l l'.
Proof.
  induction l as [|[k d] l IH]; simpl; intros l' Hu; [discriminate|].
  destruct (String.eqb k id).
  - injection Hu as <-. constructor; [|apply alerts_kept_refl].
    repeat split. right. reflexivity.
  - destruct (update_doc id (resolve_doc t user) l) as [l0|]; [|discriminate].
    injection Hu as <-. constructor; [apply alert_kept_refl | exact (IH _ eq_refl)].
Qed.

Lemma update_alert_loses_nothing env alertId t user :
  preserves nothing_lost (update_alert env alertId t user).
Proof.
  apply preserves_store_op; [exact nothing_lost_refl|].
  intros s a s' Hrun.
  destruct (update_doc alertId (resolve_doc t user) (system_alerts s)) as [l|] eqn:Hu;
    [|discriminate].
  injection Hrun as _ <-.
  split; [reflexivity|]. split; [reflexivity|].
  split; [exact (update_doc_kept _ _ _ _ _ Hu) | apply kept_in_refl].
Qed.

Lemma add_workflow_loses_nothing env doc : preserves nothing_lost (add_workflow env doc).
Proof.
  intros w r w' H. unfold add_workflow in H.
  refine (preserves_store_op nothing_lost nothing_lost_refl env (OpAdd "workflows")
            _ _ _ _ _ H).
  intros s a s' Hrun.
  destruct (refuses env doc); [discriminate|].
  injection Hrun as _ <-.
  split; [reflexivity|]. split; [reflexivity|].
  split; [apply alerts_kept_refl | apply insert_doc_keeps].
Qed.

(** X2.  No request deletes a document or rewrites what it holds: after any
    run of [handler], the agents and the leads are those of before; the
    alerts are those of before under the same ids and in the same order,
    each with the severity, message, agent and timestamp it had, and either
    untouched or resolved; and the workflows of before are all there, as
    they were and in the same order, among those added. *)
Theorem no_request_loses_a_document :
  forall (env : Env) (event : Event.t) (w : World) r (w' : World),
    handler env event w = (r, w') ->
    nothing_lost (store w) (store w').
Proof.
  intros env event.
  change (preserves nothing_lost (handler env event)).
  pose proof nothing_lost_refl as Hrefl. pose proof nothing_lost_trans as Htrans.
  unfold handler.
  destruct (String.eqb (Event.httpMethod event) "OPTIONS");
    [apply preserves_ret; assumption|].
  apply preserves_try; try assumption.
  - repeat match goal with
           | |- preserves _ (if ?b then _ else _) => destruct b
           end.
    + apply preserves_handleGetAgents; assumption.
    + apply preserves_handleAgentCommand; assumption.
    + apply preserves_handleGetLeadMetrics; assumption.
    + apply preserves_handleGetAlerts; assumption.
    + apply preserves_handleResolveAlert; try assumption.
      intros t user. apply update_alert_loses_nothing.
    + apply preserves_handleGetWorkflows; assumption.
    + apply preserves_handleCreateWorkflow; try assumption.
      apply add_workflow_loses_nothing.
    + apply preserves_handleCalculateROI; assumption.
    + apply preserves_ret; assumption.
  - intros e. apply preserves_bind; try assumption.
    + apply preserves_log; assumption.
    + intros _. apply preserves_ret; assumption.
Qed.

(** X2 on a run that resolves the alert [open] of [alerts_store]. *)
Lemma no_request_loses_a_document_witness :
  nothing_lost alerts_store
    (store (snd (handler sample_env (request "POST" "/alerts/open/resolve" None)
                         (fresh alerts_store)))).
Proof.
  exact (no_request_loses_a_document sample_env
           (request "POST" "/alerts/open/resolve" None) (fresh alerts_store)
           _ _ (surjective_pairing _)).
Defined.

Lemma unchanged_refl s : unchanged s s.
Proof. reflexivity. Qed.

Lemma unchanged_trans s1 s2 s3 : unchanged s1 s2 -> unchanged s2 s3 -> unchanged s1 s3.
Proof. unfold unchanged. congruence. Qed.

(** X3.  The store changes only on a POST whose first path segment is
    [alerts] or [workflows]: every other request, whatever it is answered,
    leaves every collection as it was, and so do the agent command and the
    ROI calculation. *)
Theorem only_resolve_and_create_write :
  forall (env : Env) (event : Event.t) (w : World) r (w' : World),
    handler env event w = (r, w') ->
    store w' = store w
    \/ (Event.httpMethod event = "POST"
        /\ (segment_is (segments_of event) 0 "alerts" = true
            \/ segment_is (segments_of event) 0 "workflows" = true)).
Proof.
  intros env event w r w'.
  pose proof unchanged_refl as Hrefl. pose proof unchanged_trans as Htrans.
  assert (Hcatch : forall e : string,
    preserves unchanged
      (log (ConsoleError "API Error:" e) ;;;
       ret {| statusCode := 500; headers := corsHeaders;
              body := JSON.stringify (VObj [ ("error", VStr "Internal server error");
                                             ("message", VStr e) ]) |})).
  { intros e. apply preserves_bind; try assumption.
    - apply preserves_log; assumption.
    - intros _. apply preserves_ret; assumption. }
  unfold handler.
  destruct (String.eqb (Event.httpMethod event) "OPTIONS").
  { intros [= _ <-]. left. reflexivity. }
  fold (segments_of event).
  set (segments := segments_of event). set (method := Event.httpMethod event).
  destruct (String.eqb_spec method "POST") as [Hpost | Hpost].
  - destruct (segment_is segments 0 "alerts") eqn:Halerts;
      [intros _; right; split; [exact Hpost | left; reflexivity]|].
    destruct (segment_is segments 0 "workflows") eqn:Hworkflows;
      [intros _; right; split; [exact Hpost | right; reflexivity]|].
    intros Hrun. left. revert Hrun.
    apply (preserves_try unchanged Htrans); [|exact Hcatch].
    rewrite !andb_false_r. cbn [andb].
    repeat match goal with
           | |- preserves _ (if ?b then _ else _) => destruct b
           end;
      first [ apply preserves_handleGetAgents | apply preserves_handleAgentCommand
            | apply preserves_handleGetLeadMetrics | apply preserves_handleGetAlerts
            | apply preserves_handleGetWorkflows | apply preserves_handleCalculateROI
            | apply preserves_ret ]; assumption.
  - intros Hrun. left. revert Hrun.
    apply (preserves_try unchanged Htrans); [|exact Hcatch].
    cbn [andb].
    repeat match goal with
           | |- preserves _ (if ?b then _ else _) => destruct b
           end;
      first [ apply preserves_handleGetAgents | apply preserves_handleAgentCommand
            | apply preserves_handleGetLeadMetrics | apply preserves_handleGetAlerts
            | apply preserves_handleGetWorkflows | apply preserves_handleCalculateROI
            | apply preserves_ret ]; assumption.
Qed.

(** X3 on the ROI calculation, a POST that writes nothing. *)
Lemma only_resolve_and_create_write_witness :
  store (snd (handler sample_env (request "POST" "/roi/calculate" None)
                      (fresh hundred_leads))) = hundred_leads
  \/ ("POST" = "POST"
      /\ (segment_is (segments_of (request "POST" "/roi/calculate" None)) 0 "alerts"
          = true
          \/ segment_is (segments_of (request "POST" "/roi/calculate" None)) 0
                        "workflows" = true)).
Proof.
  exact (only_resolve_and_create_write sample_env
           (request "POST" "/roi/calculate" None) (fresh hundred_leads)
           _ _ (surjective_pairing _)).
Defined.

(* ================================================================= *)
(** ** Paths and routes *)

Lemma append_empty_r s : s ++ "" = s.
Proof. induction s as [|c s IH]; simpl; [reflexivity | rewrite IH; reflexivity]. Qed.

Lemma append_assoc a b c : (a ++ b) ++ c = a ++ (b ++ c).
Proof. induction a as [|x a IH]; simpl; [reflexivity | rewrite IH; reflexivity]. Qed.

Lemma length_append a b :
  String.length (a ++ b) = (String.length a + String.length b)%nat.
Proof. induction a as [|x a IH]; simpl; [reflexivity | rewrite IH; reflexivity]. Qed.

Lemma split_slash_app a : forall current b,
  split_slash (a ++ String "/" b) current
  = (split_slash a current ++ split_slash b EmptyString)%list.
Proof.
  induction a as [|c a IH]; intros current b; simpl.
  - reflexivity.
  - destruct (Ascii.eqb c "/"); simpl; rewrite IH; reflexivity.
Qed.

Lemma slash_free_app a b : slash_free (a ++ b) = slash_free a && slash_free b.
Proof.
  induction a as [|c a IH]; simpl; [reflexivity|].
  rewrite IH, andb_assoc. reflexivity.
Qed.

Lemma split_slash_free s : forall current,
  slash_free current = true ->
  Forall (fun x => slash_free x = true) (split_slash s current).
Proof.
  induction s as [|c s IH]; intros current Hc; simpl.
  - constructor; [exact Hc | constructor].
  - destruct (Ascii.eqb c "/") eqn:Hslash.
    + constructor; [exact Hc | apply IH; reflexivity].
    + apply IH. rewrite slash_free_app, Hc. simpl. rewrite Hslash. reflexivity.
Qed.

Lemma split_slash_whole s : forall current,
  slash_free s = true -> split_slash s current = [current ++ s].
Proof.
  induction s as [|c s IH]; intros current; simpl.
  - intros _. rewrite append_empty_r. reflexivity. 
  - destruct (Ascii.eqb c "/"); simpl; [discriminate|].
    intros Hs. rewrite (IH _ Hs), append_assoc. reflexivity.
Qed.

(** The segments of a path are not empty and hold no slash. *)
Lemma path_segments_are_segments path :
  Forall (fun s => is_segment s = true) (path_segments path).
Proof.
  unfold path_segments.
  pose proof (split_slash_free path EmptyString eq_refl) as Hfree.
  induction Hfree as [|x l Hx Hl IH]; simpl; [constructor|].
  destruct (String.eqb x "") eqn:He; simpl; [exact IH|].
  constructor; [|exact IH].
  unfold is_segment. rewrite He, Hx. reflexivity.
Qed.

(** X4.  [path.split('/').filter(Boolean)] cuts a path at its slashes: the
    segments of [a/b] are those of [a] followed by those of [b], a text
    without slash is its own only segment (and the empty text has none), and
    every segment is a text that is not empty and holds no slash.  Leading,
    trailing and repeated slashes therefore make no difference. *)
Theorem path_segments_cut_at_slashes :
  forall a b : string,
    path_segments (a ++ "/" ++ b) = (path_segments a ++ path_segments b)%list
    /\ (slash_free a = true ->
        path_segments a = if String.eqb a "" then [] else [a])
    /\ Forall (fun s => is_segment s = true) (path_segments a).
Proof.
  intros a b. split; [|split].
  - unfold path_segments. cbn [String.append].
    rewrite split_slash_app, filter_app. reflexivity.
  - intros Ha. unfold path_segments.
    rewrite (split_slash_whole _ _ Ha). simpl.
    destruct (String.eqb a ""); reflexivity.
  - apply path_segments_are_segments.
Qed.

(** X4 on [/agents//scout/command/]. *)
Lemma path_segments_cut_at_slashes_witness :
  path_segments ("/agents//scout" ++ "/" ++ "command/")
  = (path_segments "/agents//scout" ++ path_segments "command/")%list
  /\ slash_free "scout" = true
  /\ path_segments "scout" = ["scout"]
  /\ path_segments "/agents//scout/command/" = ["agents"; "scout"; "command"].
Proof.
  destruct (path_segments_cut_at_slashes "/agents//scout" "command/") as (Hcut & _ & _).
  destruct (path_segments_cut_at_slashes "scout" "") as (_ & Hone & _).
  split; [exact Hcut|]. split; [reflexivity|].
  split; [exact (Hone eq_refl) | reflexivity].
Defined.

Lemma prefix_append p s : String.prefix p (p ++ s) = true.
Proof.
  induction p as [|c p IH]; simpl; [destruct s; reflexivity|].
  destruct (ascii_dec c c); [exact IH | contradiction].
Qed.

Lemma index_prefix p s : p <> "" -> String.index 0 p (p ++ s) = Some 0%nat.
Proof.
  intros Hp. destruct p as [|c p]; [contradiction|].
  change (String c p ++ s) with (String c (p ++ s)).
  cbn [String.index].
  change (String c (p ++ s)) with (String c p ++ s).
  rewrite prefix_append. reflexivity.
Qed.

Lemma substring_all s : String.substring 0 (String.length s) s = s.
Proof. induction s as [|c s IH]; simpl; [reflexivity | rewrite IH; reflexivity]. Qed.

Lemma substring_skip p s n :
  String.substring (String.length p) n (p ++ s) = String.substring 0 n s.
Proof. induction p as [|c p IH]; simpl; [reflexivity | exact IH]. Qed.

Lemma replace_first_prefix p s : p <> "" -> replace_first p "" (p ++ s) = s.
Proof.
  intros Hp. unfold replace_first. rewrite (index_prefix p s Hp).
  unfold str_take, str_drop. cbn [Nat.add].
  replace (String.substring 0 0 (p ++ s)) with "" by (destruct (p ++ s); reflexivity).
  cbn [String.append].
  rewrite length_append.
  replace (String.length p + String.length s - String.length p)%nat
    with (String.length s) by lia.
  rewrite substring_skip. apply substring_all.
Qed.

(** X5.  The function's own mount point is removed from the front of the
    path before the path is cut into segments: a request for
    [/.netlify/functions/api] followed by [rest] is routed on the segments of
    [rest], whatever [rest] is. *)
Theorem mount_point_is_stripped :
  forall (method rest : string) (body : option string),
    segments_of (request method ("/.netlify/functions/api" ++ rest) body)
    = path_segments rest.
Proof.
  intros method rest body. unfold segments_of, request. cbn [Event.path].
  rewrite replace_first_prefix; [reflexivity | discriminate].
Qed.

(** X6.  The routes exclude one another: whatever the method and the
    segments, at most one of the eight routes matches, so that the order of
    the cases of the [switch] decides nothing. *)
Theorem at_most_one_route_matches :
  forall (method : string) (segments : list string),
    (List.length (matching_routes method segments) <= 1)%nat.
Proof.
  intros method segments.
  unfold matching_routes, routes, route_matches, segment_is, no_segment.
  cbn [List.filter fst snd].
  destruct (String.eqb_spec method "GET") as [-> | Hget];
    [|destruct (String.eqb_spec method "POST") as [-> | Hpost]];
    cbn [andb String.eqb Ascii.eqb Bool.eqb];
    (destruct (nth_error segments 0) as [s0|]; [|simpl; lia]);
    (destruct (String.eqb_spec s0 "agents") as [-> | Hagents];
     [|destruct (String.eqb_spec s0 "leads") as [-> | Hleads];
       [|destruct (String.eqb_spec s0 "alerts") as [-> | Halerts];
         [|destruct (String.eqb_spec s0 "workflows") as [-> | Hworkflows];
           [|destruct (String.eqb_spec s0 "roi") as [-> | Hroi]]]]]);
    cbn [andb String.eqb Ascii.eqb Bool.eqb];
    repeat match goal with
           | |- context [if ?b then _ else _] => destruct b
           end;
    simpl; lia.
Qed.

(* ================================================================= *)
(** ** Failures *)

Lemma bind_throw {A B} (m : M A) (k : A -> M B) w e w' :
  m w = (Throw e, w') -> bind m k w = (Throw e, w').
Proof. intros H. unfold bind. rewrite H. reflexivity. Qed.

Lemma try_throw {A} (m : M A) h w e w' :
  m w = (Throw e, w') -> try_catch m h w = h e w'.
Proof. intros H. unfold try_catch. rewrite H. reflexivity. Qed.

Section Failures.

Variable env : Env.

Lemma query_fault {A} (op : StoreOp) (read : Store -> A) w message :
  fault env (List.length (trace w)) = Some message ->
  query env op read w = (Throw message, traced [op] w).
Proof. intros Hf. unfold query, store_op. rewrite Hf. reflexivity. Qed.

Lemma fault_traced w op k x :
  fault env (List.length (trace w) + S k) = x ->
  fault env (List.length (trace (traced [op] w)) + k) = x.
Proof.
  intros H. unfold traced; simpl. rewrite length_app. simpl.
  replace (List.length (trace w) + 1 + k)%nat
    with (List.length (trace w) + S k)%nat by lia.
  exact H.
Qed.

Lemma fault_now w x :
  fault env (List.length (trace w) + 0) = x -> fault env (List.length (trace w)) = x.
Proof. rewrite Nat.add_0_r. trivial. Qed.

(** X7.  When the store fails the one query of the agent listing, of the
    alert listing or of the workflow listing, the handler answers 500 with
    the store's message in [{"success":false,"error":message}], writes the
    error to the console, and has issued that query and nothing else. *)
Theorem failed_listing_is_a_500 :
  forall (h : list (string * string)) (w : World) (message : string),
    fault env (List.length (trace w)) = Some message ->
    let failed op text :=
      (Ok (failure h message), logged (ConsoleError text message) (traced [op] w)) in
    handleGetAgents env h w
    = failed (OpGet "prometheus_agents" [] None None) "Error getting agents:"
    /\ handleGetAlerts env h w
       = failed (OpGet "system_alerts" [("resolved", "==", OBool false)]
                       (Some ("timestamp", "desc")) (Some 50))
                "Error getting alerts:"
    /\ handleGetWorkflows env h w
       = failed (OpGet "workflows" [] None None) "Error getting workflows:".
Proof.
  intros h w message Hf failed. unfold failed.
  split; [|split].
  - unfold handleGetAgents.
    erewrite try_throw by (eapply bind_throw; apply query_fault, Hf). reflexivity.
  - unfold handleGetAlerts.
    erewrite try_throw by (eapply bind_throw; apply query_fault, Hf). reflexivity.
  - unfold handleGetWorkflows.
    erewrite try_throw by (eapply bind_throw; apply query_fault, Hf). reflexivity.
Qed.

Ltac answered_query Hup Hf :=
  cbv beta zeta;
  match goal with
  | |- bind (query _ ?op _) _ ?w0 = _ =>
      eapply eq_trans;
        [ eapply bind_ok; apply query_run, (store_up_now _ _ _ Hup) |];
      apply (store_up_traced env w0 op) in Hup;
      apply (fault_traced w0 op) in Hf
  end.

Ltac failed_query Hf :=
  cbv beta zeta; eapply bind_throw; apply query_fault, fault_now, Hf.

(** X8.  The lead metrics and the ROI are all or nothing: when the store
    answers the first [k] queries of the handler and fails the next one,
    the handler answers 500 with the message of that failure, stops
    querying, writes the error to the console and leaves the store as it
    was; nothing of the answered queries reaches the response. *)
Theorem failed_query_is_a_500 :
  forall (h : list (string * string)) (w : World) (message : string) (k : nat),
    store_up env w k ->
    fault env (List.length (trace w) + k) = Some message ->
    ((k < 4)%nat ->
     exists w',
       handleGetLeadMetrics env h w = (Ok (failure h message), w')
       /\ store w' = store w
       /\ List.length (trace w') = (List.length (trace w) + k + 1)%nat
       /\ console w'
          = (console w ++ [ConsoleError "Error getting lead metrics:" message])%list)
    /\ ((k < 3)%nat ->
        exists w',
          handleCalculateROI env h w = (Ok (failure h message), w')
          /\ store w' = store w
          /\ List.length (trace w') = (List.length (trace w) + k + 1)%nat
          /\ console w'
             = (console w ++ [ConsoleError "Error calculating ROI:" message])%list).
Proof.
  intros h w message k Hup Hf. split; intros Hk.
  - assert (Hrun : exists w1,
               (invoked <- new_Date env ;;
                let now := Date.setHours0 (tzOffset env) invoked in
                allLeadsSnapshot <- query env (OpGet "leads" [] None None) leads ;;
                todayLeadsSnapshot <-
                  query env (OpGet "leads" [("created", ">=", ODate now)] None None)
                        (fun s => List.filter (lead_created_since now) (leads s)) ;;
                pendingSnapshot <-
                  query env
                        (OpGet "leads" [("status", "==", OStr "PENDING_RESEARCH")]
                               None None)
                        (fun s => List.filter (lead_has_status "PENDING_RESEARCH")
                                              (leads s)) ;;
                convertedSnapshot <-
                  query env (OpGet "leads" [("status", "==", OStr "CONVERTED")] None None)
                        (fun s => List.filter (lead_has_status "CONVERTED") (leads s)) ;;
                ret {| statusCode := 200;
                       headers := h;
                       body := JSON.stringify
                         (VObj [ ("success", VBool true);
                                 ("metrics",
                                   lead_metrics (size allLeadsSnapshot)
                                     (size todayLeadsSnapshot) (size pendingSnapshot)
                                     (size (List.filter lead_is_hot allLeadsSnapshot))
                                     (size convertedSnapshot));
                                 ("timestamp", VStr (Date.toISOString now)) ]) |}) w
               = (Throw message, w1)
               /\ store w1 = store w
               /\ List.length (trace w1) = (List.length (trace w) + k + 1)%nat
               /\ console w1 = console w).
    { apply (store_up_ticked env) in Hup.
      change (trace w) with (trace (ticked w)) in Hf.
      destruct k as [|[|[|[|k]]]]; [| | | |lia];
        (eexists; split;
         [ eapply eq_trans; [eapply bind_ok; apply new_Date_run|];
           repeat answered_query Hup Hf; failed_query Hf
         | split; [reflexivity|]; split; [|reflexivity];
           cbn [traced ticked trace]; rewrite ?length_app; simpl; lia ]). }
    destruct Hrun as (w1 & Hrun & Hstore & Htrace & Hconsole).
    exists (logged (ConsoleError "Error getting lead metrics:" message) w1).
    split; [|split; [exact Hstore | split; [exact Htrace|]]].
    + unfold handleGetLeadMetrics.
      erewrite try_throw by exact Hrun. reflexivity.
    + cbn [logged console]. rewrite Hconsole. reflexivity.
  - assert (Hrun : exists w1,
               (agentsSnapshot <-
                  query env (OpGet "prometheus_agents" [] None None) prometheus_agents ;;
                totalLeadsSnapshot <- query env (OpGet "leads" [] None None) leads ;;
                convertedSnapshot <-
                  query env (OpGet "leads" [("status", "==", OStr "CONVERTED")] None None)
                        (fun s => List.filter (lead_has_status "CONVERTED") (leads s)) ;;
                ret {| statusCode := 200;
                       headers := h;
                       body := JSON.stringify
                         (VObj [ ("success", VBool true);
                                 ("roi", roi (size agentsSnapshot)
                                             (size totalLeadsSnapshot)
                                             (size convertedSnapshot)) ]) |}) w
               = (Throw message, w1)
               /\ store w1 = store w
               /\ List.length (trace w1) = (List.length (trace w) + k + 1)%nat
               /\ console w1 = console w).
    { destruct k as [|[|[|k]]]; [| | |lia];
        (eexists; split;
         [ repeat answered_query Hup Hf; failed_query Hf
         | split; [reflexivity|]; split; [|reflexivity];
           cbn [traced ticked trace]; rewrite ?length_app; simpl; lia ]). }
    destruct Hrun as (w1 & Hrun & Hstore & Htrace & Hconsole).
    exists (logged (ConsoleError "Error calculating ROI:" message) w1).
    split; [|split; [exact Hstore | split; [exact Htrace|]]].
    + unfold handleCalculateROI.
      erewrite try_throw by exact Hrun. reflexivity.
    + cbn [logged console]. rewrite Hconsole. reflexivity.
Qed.

End Failures.

(** X7 on a store that fails the first operation. *)
Lemma failed_listing_is_a_500_witness :
  fault (failing_at 0) (List.length (trace (fresh empty_store))) = Some unavailable
  /\ handleGetAgents (failing_at 0) corsHeaders (fresh empty_store)
     = (Ok (failure corsHeaders unavailable),
        logged (ConsoleError "Error getting agents:" unavailable)
               (traced [OpGet "prometheus_agents" [] None None] (fresh empty_store)))
  /\ statusCode (failure corsHeaders unavailable) = 500.
Proof.
  split; [reflexivity|].
  split; [|reflexivity].
  exact (proj1 (failed_listing_is_a_500 (failing_at 0) corsHeaders (fresh empty_store)
                  unavailable eq_refl)).
Defined.

Lemma failing_at_up k w : trace w = [] -> store_up (failing_at k) w k.
Proof.
  intros Ht i Hi. rewrite Ht. simpl.
  destruct (Nat.eqb_spec i k); [lia | reflexivity].
Qed.

(** X8 on ten leads and a store that fails the third query. *)
Lemma failed_query_is_a_500_witness :
  store_up (failing_at 2) (fresh ten_leads) 2
  /\ fault (failing_at 2) (List.length (trace (fresh ten_leads)) + 2) = Some unavailable
  /\ (2 < 4)%nat
  /\ exists w',
       handleGetLeadMetrics (failing_at 2) corsHeaders (fresh ten_leads)
       = (Ok (failure corsHeaders unavailable), w')
       /\ store w' = ten_leads
       /\ List.length (trace w') = 3%nat.
Proof.
  split; [apply failing_at_up; reflexivity|].
  split; [reflexivity|]. split; [lia|].
  destruct (proj1 (failed_query_is_a_500 (failing_at 2) corsHeaders (fresh ten_leads)
                     unavailable 2 (failing_at_up 2 (fresh ten_leads) eq_refl) eq_refl))
    as (w' & Hrun & Hstore & Htrace & _); [lia|].
  exists w'. split; [exact Hrun|]. split; [exact Hstore | exact Htrace].
Defined.

(* ================================================================= *)
(** ** Resolving an alert that is not there *)

(** X9.  The resolution handler does not look the alert up: for an id that
    names no alert it still issues the update, and answers 500 with what the
    store says (the store's refusal to update a missing document, when the
    store is up), leaving every alert as it was and writing nothing to the
    console. *)
Theorem resolving_a_missing_alert_is_a_500 :
  forall (env : Env) (alertId : string) (h : list (string * string)) (w : World),
    lookup alertId (system_alerts (store w)) = None ->
    handleResolveAlert env alertId h w
    = (Ok (failure h (match fault env (List.length (trace w)) with
                      | Some message => message
                      | None => notFoundMessage env alertId
                      end)),
       traced [OpUpdate "system_alerts" alertId] (ticked w)).
Proof.
  intros env alertId h w Hmissing.
  unfold handleResolveAlert, try_catch, bind, update_alert, store_op.
  cbn [new_Date trace ticks store adds console].
  destruct (fault env (List.length (trace w))); [reflexivity|].
  rewrite (update_doc_missing _ _ _ Hmissing). reflexivity.
Qed.

(** X9 at an id that [alerts_store] does not hold. *)
Lemma resolving_a_missing_alert_is_a_500_witness :
  lookup "gone" (system_alerts alerts_store) = None
  /\ handleResolveAlert sample_env "gone" corsHeaders (fresh alerts_store)
     = (Ok (failure corsHeaders "5 NOT_FOUND: No document to update: gone"),
        traced [OpUpdate "system_alerts" "gone"] (ticked (fresh alerts_store))).
Proof.
  split; [reflexivity|].
  exact (resolving_a_missing_alert_is_a_500 sample_env "gone" corsHeaders
           (fresh alerts_store) eq_refl).
Defined.

(* ================================================================= *)
(** ** The agent listing is all or nothing *)

Section Listing.

Variable env : Env.

Lemma shape_agent_ok now d w :
  uptime_is_number d = true ->
  exists a, shape_agent env now (fst d) (snd d) w = (Ok a, w).
Proof.
  unfold uptime_is_number, shape_agent, bind, toFixed1.
  destruct (or_else _ _); try discriminate.
  intros _. eexists. reflexivity.
Qed.

Lemma shape_agent_throws now d w :
  uptime_is_number d = false ->
  shape_agent env now (fst d) (snd d) w
  = (Throw (engineMessage env (NotAFunction "toFixed")), w).
Proof.
  unfold uptime_is_number, shape_agent, bind, toFixed1.
  destruct (or_else _ _); try discriminate; reflexivity.
Qed.

Lemma shape_agents_ok now docs : forall acc w,
  forallb uptime_is_number docs = true ->
  exists agents, shape_agents env now docs acc w = (Ok agents, w).
Proof.
  induction docs as [|[id data] docs IH]; intros acc w; simpl.
  - intros _. eexists. reflexivity.
  - rewrite andb_true_iff. intros [Hd Hrest].
    destruct (shape_agent_ok now (id, data) w Hd) as (a & Ha). simpl in Ha.
    unfold bind. rewrite Ha. apply IH, Hrest.
Qed.

Lemma shape_agents_throws now docs : forall acc w,
  forallb uptime_is_number docs = false ->
  shape_agents env now docs acc w
  = (Throw (engineMessage env (NotAFunction "toFixed")), w).
Proof.
  induction docs as [|[id data] docs IH]; intros acc w; simpl; [discriminate|].
  destruct (uptime_is_number (id, data)) eqn:Hd; simpl; intros Hrest.
  - destruct (shape_agent_ok now (id, data) w Hd) as (a & Ha). simpl in Ha.
    unfold bind. rewrite Ha. apply IH, Hrest.
  - pose proof (shape_agent_throws now (id, data) w Hd) as Ht. simpl in Ht.
    unfold bind. rewrite Ht. reflexivity.
Qed.

(** An id that has an entry keeps one, and a document gets one. *)
Lemma shape_agents_listed now docs : forall acc w agents w' id,
  shape_agents env now docs acc w = (Ok agents, w') ->
  id <> "__proto__" ->
  lookup id acc <> None \/ In id (List.map fst docs) ->
  lookup id agents <> None.
Proof.
  induction docs as [|[k d] docs IH]; simpl; intros acc w agents w' id Hrun Hid Hin.
  - injection Hrun as <- _. destruct Hin as [H | []]. exact H.
  - unfold bind in Hrun.
    destruct (shape_agent env now k d w) as [[a|e] w1]; [|discriminate].
    apply (IH _ _ _ _ id Hrun Hid).
    destruct (String.eqb_spec id k) as [E | Hne].
    + left. subst k. rewrite lookup_obj_assign by exact Hid.
      rewrite String.eqb_refl. discriminate.
    + destruct Hin as [H | [H | H]].
      * left. rewrite lookup_obj_assign_other by exact Hne. exact H.
      * congruence.
      * right. exact H.
Qed.

(** X10.  When the store answers, the agent listing is all or nothing.  If
    the uptime of every agent is a Number (or is missing, or is falsy), the
    answer is 200 and the [agents] object has an entry under the id of every
    agent and under no other key.  If one agent has anything else for an
    uptime (a text, say), [toFixed] is not a function of it and the answer
    to the whole listing is 500 with that TypeError's message: no agent is
    listed, not even the well-formed ones. *)
Theorem agent_listing_is_all_or_nothing :
  forall (h : list (string * string)) (w : World),
    fault env (List.length (trace w)) = None ->
    let docs := prometheus_agents (store w) in
    let now := clock env (ticks w) in
    let w' := ticked (traced [OpGet "prometheus_agents" [] None None] w) in
    if forallb uptime_is_number docs then
      exists agents,
        handleGetAgents env h w
        = (Ok {| statusCode := 200;
                 headers := h;
                 body := JSON.stringify
                           (VObj [ ("success", VBool true);
                                   ("agents", VObj agents);
                                   ("timestamp", VStr (Date.toISOString now)) ]) |},
           w')
        /\ forall id, id <> "__proto__" ->
                      (lookup id agents <> None <-> In id (List.map fst docs))
    else
      handleGetAgents env h w
      = (Ok (failure h (engineMessage env (NotAFunction "toFixed"))),
         logged (ConsoleError "Error getting agents:"
                              (engineMessage env (NotAFunction "toFixed"))) w').
Proof.
  intros h w Hf docs now w'.
  assert (Hq : query env (OpGet "prometheus_agents" [] None None) prometheus_agents w
               = (Ok docs, traced [OpGet "prometheus_agents" [] None None] w))
    by (apply query_run, Hf).
  destruct (forallb uptime_is_number docs) eqn:Hall.
  - destruct (shape_agents_ok now docs [] w' Hall) as (agents & Hshape).
    exists agents. split.
    + unfold handleGetAgents. apply try_ok.
      eapply eq_trans; [eapply bind_ok; exact Hq|].
      eapply eq_trans; [eapply bind_ok; apply new_Date_run|].
      eapply eq_trans; [eapply bind_ok; exact Hshape|].
      reflexivity.
    + intros id Hid. split.
      * intros Hlisted.
        destruct (in_dec string_dec id (List.map fst docs)) as [Hin | Hout];
          [exact Hin|].
        rewrite (shape_agents_untouched _ _ _ _ _ _ _ id Hshape Hout) in Hlisted.
        contradiction Hlisted. reflexivity.
      * intros Hin. apply (shape_agents_listed _ _ _ _ _ _ id Hshape Hid).
        right. exact Hin.
  - unfold handleGetAgents.
    erewrite try_throw.
    2:{ eapply eq_trans; [eapply bind_ok; exact Hq|].
        eapply eq_trans; [eapply bind_ok; apply new_Date_run|].
        eapply bind_throw. apply shape_agents_throws, Hall. }
    reflexivity.
Qed.

End Listing.

(** X10 on a store whose second agent has the text [12] for an uptime. *)
Lemma agent_listing_is_all_or_nothing_witness :
  fault sample_env (List.length (trace (fresh text_uptime_store))) = None
  /\ forallb uptime_is_number (prometheus_agents text_uptime_store) = false
  /\ handleGetAgents sample_env corsHeaders (fresh text_uptime_store)
     = (Ok (failure corsHeaders "toFixed is not a function"),
        logged (ConsoleError "Error getting agents:" "toFixed is not a function")
               (ticked (traced [OpGet "prometheus_agents" [] None None]
                               (fresh text_uptime_store)))).
Proof.
  split; [reflexivity|]. split; [reflexivity|].
  exact (agent_listing_is_all_or_nothing sample_env corsHeaders
           (fresh text_uptime_store) eq_refl).
Defined.

(* ================================================================= *)
(** ** GET /alerts/active *)

Lemma insert_alert_Forall (P : string * Alert.doc -> Prop) a l :
  P a -> Forall P l -> Forall P (insert_alert a l).
Proof.
  intros Ha Hl. induction Hl as [|b l Hb Hl IH]; simpl.
  - constructor; [exact Ha | constructor].
  - destruct (alert_before a b).
    + constructor; [exact Ha|]. constructor; assumption.
    + constructor; assumption.
Qed.

Lemma sorted_alerts_Forall (P : string * Alert.doc -> Prop) l :
  Forall P l -> Forall P (fold_right insert_alert [] l).
Proof.
  intros Hl. induction Hl as [|a l Ha Hl IH]; simpl; [constructor|].
  apply insert_alert_Forall; assumption.
Qed.

Lemma Forall_firstn {A} (P : A -> Prop) n : forall l,
  Forall P l -> Forall P (firstn n l).
Proof.
  induction n as [|n IH]; intros l Hl; simpl; [constructor|].
  destruct Hl; constructor; [assumption | apply IH; assumption].
Qed.

(** What the store returns for the query of the listing: documents of the
    collection that are unresolved and have a timestamp field. *)
Lemma active_alerts_are_active n l :
  Forall (fun d => In d l
                   /\ Alert.resolved (snd d) = Some false
                   /\ Alert.timestamp (snd d) <> Absent)
         (active_alerts n l).
Proof.
  unfold active_alerts. apply Forall_firstn, sorted_alerts_Forall.
  apply Forall_forall. intros d Hd. apply filter_In in Hd. destruct Hd as [Hin Hd].
  split; [exact Hin|]. unfold is_active in Hd.
  destruct (Alert.resolved (snd d)) as [[|]|]; try discriminate.
  destruct (Alert.timestamp (snd d)); try discriminate;
    (split; [reflexivity | discriminate]).
Qed.

Lemma stamp_not_before_trans a b c :
  stamp_ltb a b = false -> stamp_ltb b c = false -> stamp_ltb a c = false.
Proof.
  destruct a as [| |x], b as [| |y], c as [| |z]; simpl;
    try reflexivity; try discriminate.
  rewrite !Z.ltb_ge. lia.
Qed.

Lemma alert_not_before a b :
  alert_before a b = false ->
  stamp_ltb (Alert.timestamp (snd b)) (Alert.timestamp (snd a)) = false.
Proof.
  unfold alert_before. rewrite orb_false_iff. intros [Hlt _]. exact Hlt.
Qed.

Lemma alert_is_before a b :
  alert_before a b = true ->
  stamp_ltb (Alert.timestamp (snd a)) (Alert.timestamp (snd b)) = false.
Proof.
  unfold alert_before. rewrite orb_true_iff, andb_true_iff.
  destruct (Alert.timestamp (snd a)) as [| |x], (Alert.timestamp (snd b)) as [| |y];
    simpl; try reflexivity; intros [H | [H _]]; try discriminate.
  - apply Z.ltb_lt in H. apply Z.ltb_ge. lia.
  - apply Z.eqb_eq in H. apply Z.ltb_ge. lia.
Qed.

Lemma insert_alert_sorted a l :
  StronglySorted
    (fun x y => stamp_ltb (Alert.timestamp (snd x)) (Alert.timestamp (snd y)) = false)
    l ->
  StronglySorted
    (fun x y => stamp_ltb (Alert.timestamp (snd x)) (Alert.timestamp (snd y)) = false)
    (insert_alert a l).
Proof.
  intros Hl. induction Hl as [|b l Hl IH Hb]; simpl.
  - constructor; constructor.
  - destruct (alert_before a b) eqn:Hab.
    + constructor; [constructor; assumption|].
      apply alert_is_before in Hab.
      constructor; [exact Hab|].
      eapply Forall_impl; [|exact Hb]. simpl. intros c Hc.
      exact (stamp_not_before_trans _ _ _ Hab Hc).
    + constructor; [exact IH|].
      apply insert_alert_Forall; [exact (alert_not_before _ _ Hab) | exact Hb].
Qed.

Lemma firstn_sorted {A} (R : A -> A -> Prop) n : forall l,
  StronglySorted R l -> StronglySorted R (firstn n l).
Proof.
  induction n as [|n IH]; intros l Hl; simpl; [constructor|].
  destruct Hl as [|a l Hl Ha]; constructor;
    [apply IH, Hl | apply Forall_firstn, Ha].
Qed.

Lemma active_alerts_latest_first n l :
  StronglySorted
    (fun x y => stamp_ltb (Alert.timestamp (snd x)) (Alert.timestamp (snd y)) = false)
    (active_alerts n l).
Proof.
  unfold active_alerts. apply firstn_sorted.
  induction (List.filter _ l) as [|a l' IH]; simpl; [constructor|].
  apply insert_alert_sorted, IH.
Qed.

Lemma ticked_by_0 w : ticked_by 0 w = w.
Proof. destruct w. unfold ticked_by. simpl. rewrite Nat.add_0_r. reflexivity. Qed.

Lemma ticked_by_ticked k w : ticked_by k (ticked w) = ticked_by (S k) w.
Proof. unfold ticked_by, ticked. simpl. rewrite Nat.add_succ_r. reflexivity. Qed.

(** The entries are shaped in order, and the clock is read once for each
    document that has no Timestamp. *)
Lemma shape_alerts_run env docs : forall w,
  shape_alerts env docs w
  = (Ok (listed_alerts env (ticks w) docs),
     ticked_by (List.length (List.filter without_timestamp docs)) w).
Proof.
  induction docs as [|d docs IH]; intros w; simpl.
  - rewrite ticked_by_0. reflexivity.
  - unfold bind at 1. unfold shape_alert, without_timestamp.
    destruct (Alert.timestamp (snd d)) as [| |t];
      unfold bind at 1 2; cbn [ret new_Date]; unfold bind; rewrite IH;
      cbn [ticks List.length]; rewrite <- ?ticked_by_ticked; reflexivity.
Qed.

Lemma filter_listed env s docs : forall n,
  List.length (List.filter (has_severity s) (listed_alerts env n docs))
  = with_severity s docs.
Proof.
  unfold with_severity.
  induction docs as [|d docs IH]; intros n; simpl; [reflexivity|].
  destruct (Alert.timestamp (snd d)); simpl;
    change (has_severity s (listed_alert d _))
      with (String.eqb (reported_severity d) s);
    destruct (String.eqb (reported_severity d) s); simpl; rewrite IH; reflexivity.
Qed.

Lemma length_listed_alerts env docs : forall n,
  List.length (listed_alerts env n docs) = List.length docs.
Proof.
  induction docs as [|d docs IH]; intros n; simpl; [reflexivity|].
  destruct (Alert.timestamp (snd d)); simpl; rewrite IH; reflexivity.
Qed.

Lemma handleGetAlerts_run env h w :
  fault env (List.length (trace w)) = None ->
  let docs := active_alerts 50 (system_alerts (store w)) in
  handleGetAlerts env h w
  = (Ok (alerts_response env h (ticks w) docs),
     ticked_by (List.length (List.filter without_timestamp docs))
               (traced [active_alerts_query] w)).
Proof.
  intros Hf docs. unfold handleGetAlerts. apply try_ok.
  eapply eq_trans; [eapply bind_ok; apply query_run, Hf|].
  eapply eq_trans; [eapply bind_ok; apply shape_alerts_run|].
  unfold alerts_response, size.
  rewrite !filter_listed, length_listed_alerts. reflexivity.
Qed.

Lemma severities_counted docs :
  (with_severity "critical" docs + with_severity "warning" docs
   + with_severity "info" docs <= List.length docs)%nat
  /\ (Forall (fun d => In (reported_severity d) ["critical"; "warning"; "info"]) docs ->
      (with_severity "critical" docs + with_severity "warning" docs
       + with_severity "info" docs = List.length docs)%nat).
Proof.
  unfold with_severity.
  induction docs as [|d docs [IHle IHeq]]; simpl; [split; [lia | reflexivity]|].
  assert (Hcases :
    (String.eqb (reported_severity d) "critical" = true
     /\ String.eqb (reported_severity d) "warning" = false
     /\ String.eqb (reported_severity d) "info" = false)
    \/ (String.eqb (reported_severity d) "critical" = false
        /\ String.eqb (reported_severity d) "warning" = true
        /\ String.eqb (reported_severity d) "info" = false)
    \/ (String.eqb (reported_severity d) "critical" = false
        /\ String.eqb (reported_severity d) "warning" = false
        /\ String.eqb (reported_severity d) "info" = true)
    \/ (String.eqb (reported_severity d) "critical" = false
        /\ String.eqb (reported_severity d) "warning" = false
        /\ String.eqb (reported_severity d) "info" = false
        /\ ~ In (reported_severity d) ["critical"; "warning"; "info"])).
  { destruct (String.eqb_spec (reported_severity d) "critical") as [E | Hc];
      [rewrite E; left; repeat split; reflexivity|].
    destruct (String.eqb_spec (reported_severity d) "warning") as [E | Hw];
      [rewrite E; right; left; repeat split; reflexivity|].
    destruct (String.eqb_spec (reported_severity d) "info") as [E | Hi];
      [rewrite E; right; right; left; repeat split; reflexivity|].
    right; right; right. repeat split. simpl. intuition congruence. }
  destruct Hcases as [(-> & -> & ->) | [(-> & -> & ->) | [(-> & -> & ->)
                     | (-> & -> & -> & Hout)]]]; simpl;
    (split; [lia|]); intros Hall; inversion Hall as [|? ? Hd Hrest]; subst;
    try contradiction; specialize (IHeq Hrest); lia.
Qed.

(** X11.  When the store answers, the alert listing answers 200 with one
    entry for each document the query returned, in the order returned, and
    a summary of them.  Those documents are at most 50 unresolved alerts of
    the collection that have a timestamp field, latest first and those
    whose timestamp is [null] last.  An alert is listed with its Timestamp,
    and one whose timestamp is [null] with a reading of the clock that the
    handler makes for it: the clock is read once for each such alert, and
    not at all when there is none.  An alert without a severity (or with an
    empty one) is reported as [info] and counted as such; [total] is the
    number of entries; the three counts of the summary add up to at most
    [total], and to [total] exactly when every reported severity is one of
    critical, warning and info. *)
Theorem alert_listing_and_summary :
  forall (env : Env) (h : list (string * string)) (w : World),
    fault env (List.length (trace w)) = None ->
    let docs := active_alerts 50 (system_alerts (store w)) in
    let counted :=
      (with_severity "critical" docs + with_severity "warning" docs
       + with_severity "info" docs)%nat in
    handleGetAlerts env h w
    = (Ok (alerts_response env h (ticks w) docs),
       ticked_by (List.length (List.filter without_timestamp docs))
                 (traced [active_alerts_query] w))
    /\ (List.length docs <= 50)%nat
    /\ Forall (fun d => In d (system_alerts (store w))
                        /\ Alert.resolved (snd d) = Some false
                        /\ Alert.timestamp (snd d) <> Absent) docs
    /\ StronglySorted
         (fun x y =>
            stamp_ltb (Alert.timestamp (snd x)) (Alert.timestamp (snd y)) = false)
         docs
    /\ (counted <= List.length docs)%nat
    /\ (Forall (fun d => In (reported_severity d) ["critical"; "warning"; "info"]) docs ->
        counted = List.length docs)
    /\ (forall d, Alert.severity (snd d) = None \/ Alert.severity (snd d) = Some "" ->
                  reported_severity d = "info").
Proof.
  intros env h w Hf docs counted.
  split; [apply handleGetAlerts_run, Hf|].
  split; [apply firstn_le_length|].
  split; [apply active_alerts_are_active|].
  split; [apply active_alerts_latest_first|].
  split; [apply severities_counted|].
  split; [apply severities_counted|].
  intros d [Hs | Hs]; unfold reported_severity; rewrite Hs; reflexivity.
Qed.

(** X11 on [null_stamp_alerts]: four entries, [b] (without severity, the
    latest) first and [n] (whose timestamp is [null]) last, listed with the
    one reading of the clock; [m], which has no timestamp field, is not
    listed; one critical, one warning, one info, the severity [fatal] in the
    total only. *)
Lemma alert_listing_and_summary_witness :
  fault sample_env (List.length (trace (fresh null_stamp_alerts))) = None
  /\ handleGetAlerts sample_env corsHeaders (fresh null_stamp_alerts)
     = (Ok (alerts_response sample_env corsHeaders 0
              (active_alerts 50 (system_alerts null_stamp_alerts))),
        ticked_by 1 (traced [active_alerts_query] (fresh null_stamp_alerts)))
  /\ List.map fst (active_alerts 50 (system_alerts null_stamp_alerts))
     = ["b"; "c"; "a"; "n"]
  /\ nth 3 (listed_alerts sample_env 0
              (active_alerts 50 (system_alerts null_stamp_alerts))) VNull
     = listed_alert ("n", alert_stamped Null) (clock sample_env 0)
  /\ List.map (fun s => with_severity s
                          (active_alerts 50 (system_alerts null_stamp_alerts)))
              ["critical"; "warning"; "info"] = [1; 1; 1]%nat.
Proof.
  split; [reflexivity|].
  split; [|repeat split; reflexivity].
  exact (proj1 (alert_listing_and_summary sample_env corsHeaders
                  (fresh null_stamp_alerts) eq_refl)).
Defined.

(* ================================================================= *)
(** ** A resolved alert leaves the listing *)

Lemma without_absent {A} id (l : list (string * A)) :
  ~ In id (List.map fst l) -> without id l = l.
Proof.
  induction l as [|[k d] l IH]; simpl; intros Hout; [reflexivity|].
  destruct (String.eqb_spec k id) as [E | Hne]; [tauto|].
  simpl. rewrite IH by tauto. reflexivity.
Qed.

(** Among documents with distinct ids, the documents of the query after a
    resolution are those of before without the one resolved. *)
Lemma resolved_is_filtered_out t user id l : forall l',
  NoDup (List.map fst l) ->
  update_doc id (resolve_doc t user) l = Some l' ->
  active_alerts 50 l' = active_alerts 50 (without id l).
Proof.
  intros l' Hnd Hu. unfold active_alerts. do 2 f_equal.
  revert l' Hnd Hu.
  induction l as [|[k d] l IH]; simpl; intros l' Hnd Hu; [discriminate|].
  inversion Hnd as [|? ? Hk Hnd']; subst.
  destruct (String.eqb_spec k id) as [E | Hne].
  - injection Hu as <-. subst k. simpl.
    rewrite (without_absent id l Hk). reflexivity.
  - destruct (update_doc id (resolve_doc t user) l) as [l0|] eqn:Hl0; [|discriminate].
    injection Hu as <-. simpl.
    rewrite (IH l0 Hnd' eq_refl). reflexivity.
Qed.

(** X12.  Resolving and listing compose: once an alert has been resolved
    through the handler, the alert listing no longer shows it, and shows
    what it would show if the alert had been removed from the collection. *)
Theorem resolved_alert_leaves_the_listing :
  forall (env : Env) (alertId : string) (alert : Alert.doc) (w : World),
    NoDup (List.map fst (system_alerts (store w))) ->
    lookup alertId (system_alerts (store w)) = Some alert ->
    store_up env w 2 ->
    let docs := active_alerts 50 (without alertId (system_alerts (store w))) in
    exists w1 w2,
      fst (handleResolveAlert env alertId corsHeaders w)
      = Ok {| statusCode := 200;
              headers := corsHeaders;
              body := JSON.stringify
                        (VObj [ ("success", VBool true);
                                ("message",
                                  VStr ("Alert " ++ alertId ++ " resolved")) ]) |}
      /\ snd (handleResolveAlert env alertId corsHeaders w) = w1
      /\ handleGetAlerts env corsHeaders w1
         = (Ok (alerts_response env corsHeaders (ticks w1) docs), w2)
      /\ Forall (fun d => fst d <> alertId) docs.
Proof.
  intros env alertId alert w Hnd Hfound Hup docs.
  destruct (update_doc_found alertId
              (resolve_doc (clock env (ticks w)) "dashboard_user") _ _ Hfound)
    as (l' & Hu & _ & _).
  assert (Hrun : handleResolveAlert env alertId corsHeaders w
                 = (Ok {| statusCode := 200;
                          headers := corsHeaders;
                          body := JSON.stringify
                            (VObj [ ("success", VBool true);
                                    ("message",
                                      VStr ("Alert " ++ alertId ++ " resolved")) ]) |},
                    with_store (set_alerts l' (store w))
                      (traced [OpUpdate "system_alerts" alertId] (ticked w)))).
  { unfold handleResolveAlert, try_catch, bind, update_alert, store_op.
    cbn [new_Date trace ticks store adds console].
    rewrite (store_up_now _ _ _ Hup), Hu. reflexivity. }
  eexists _, _. rewrite Hrun. cbn [fst snd].
  split; [reflexivity|]. split; [reflexivity|]. split.
  - rewrite handleGetAlerts_run.
    + cbn [with_store store set_alerts system_alerts].
      rewrite (resolved_is_filtered_out _ _ _ _ _ Hnd Hu). reflexivity.
    + cbn [with_store traced ticked trace]. rewrite length_app. simpl.
      apply Hup. lia.
  - eapply Forall_impl; [|apply active_alerts_are_active].
    simpl. intros d (Hin & _). unfold without in Hin.
    apply filter_In in Hin. destruct Hin as [_ Hne].
    destruct (String.eqb_spec (fst d) alertId); [discriminate | assumption].
Qed.

(** X12 at the alert [a] of [mixed_alerts]. *)
Lemma resolved_alert_leaves_the_listing_witness :
  NoDup (List.map fst (system_alerts mixed_alerts))
  /\ lookup "a" (system_alerts mixed_alerts) = Some (alert_of (Some "critical") 30 false)
  /\ store_up sample_env (fresh mixed_alerts) 2
  /\ List.map fst (active_alerts 50 (system_alerts mixed_alerts)) = ["b"; "c"; "a"]
  /\ exists w1 w2,
       snd (handleResolveAlert sample_env "a" corsHeaders (fresh mixed_alerts)) = w1
       /\ handleGetAlerts sample_env corsHeaders w1
          = (Ok (alerts_response sample_env corsHeaders (ticks w1)
                   (active_alerts 50 (without "a" (system_alerts mixed_alerts)))), w2)
       /\ List.map fst (active_alerts 50 (without "a" (system_alerts mixed_alerts)))
          = ["b"; "c"].
Proof.
  assert (Hnd : NoDup (List.map fst (system_alerts mixed_alerts)))
    by (repeat constructor; simpl; intuition discriminate).
  split; [exact Hnd|]. split; [reflexivity|]. split; [apply sample_store_up|].
  split; [reflexivity|].
  destruct (resolved_alert_leaves_the_listing sample_env "a" _ (fresh mixed_alerts)
              Hnd eq_refl (sample_store_up _ 2))
    as (w1 & w2 & _ & Hw1 & Hlist & _).
  exists w1, w2. split; [exact Hw1|]. split; [exact Hlist | reflexivity].
Defined.

(* ================================================================= *)
(** ** Request bodies *)

(** [JSON.parse] returns a value of JSON: never [undefined]. *)
Lemma parse_value_defined f :
  (forall s v r, JSON.parse_value f s = Some (v, r) -> v <> VUndefined)
  /\ (forall s acc v r, JSON.parse_elements f s acc = Some (v, r) -> v <> VUndefined)
  /\ (forall s acc v r, JSON.parse_members f s acc = Some (v, r) -> v <> VUndefined).
Proof.
  induction f as [|f (IHv & IHe & IHm)]; [repeat split; discriminate|].
  split; [|split].
  - intros s v r. cbn [JSON.parse_value].
    destruct (JSON.skip_ws s) as [|c rest]; [discriminate|].
    destruct (code c =? 123).
    { destruct (JSON.skip_ws rest) as [|d r0]; [discriminate|].
      destruct (code d =? 125); [intros [= <- _]; discriminate|].
      apply IHm. }
    destruct (code c =? 91).
    { destruct (JSON.skip_ws rest) as [|d r0]; [discriminate|].
      destruct (code d =? 93); [intros [= <- _]; discriminate|].
      apply IHe. }
    destruct (code c =? 34).
    { destruct (JSON.read_string _ rest _) as [[str r0]|]; [|discriminate].
      intros [= <- _]. discriminate. }
    destruct (_ || _).
    { destruct (JSON.read_number _) as [[x r0]|]; [|discriminate].
      intros [= <- _]. discriminate. }
    unfold JSON.read_literal.
    destruct (JSON.strip_prefix "true" _); [intros [= <- _]; discriminate|].
    destruct (JSON.strip_prefix "false" _); [intros [= <- _]; discriminate|].
    destruct (JSON.strip_prefix "null" _); [intros [= <- _]; discriminate|discriminate].
  - intros s acc v r. cbn [JSON.parse_elements].
    destruct (JSON.parse_value f s) as [[v0 r0]|]; [|discriminate].
    destruct (JSON.skip_ws r0) as [|d r1]; [discriminate|].
    destruct (code d =? 44); [apply IHe|].
    destruct (code d =? 93); [intros [= <- _]; discriminate|discriminate].
  - intros s acc v r. cbn [JSON.parse_members].
    destruct (JSON.skip_ws s) as [|c rest]; [discriminate|].
    destruct (code c =? 34); [|discriminate].
    destruct (JSON.read_string _ rest _) as [[k r0]|]; [|discriminate].
    destruct (JSON.skip_ws r0) as [|d r1]; [discriminate|].
    destruct (code d =? 58); [|discriminate].
    destruct (JSON.parse_value f r1) as [[v0 r2]|]; [|discriminate].
    destruct (JSON.skip_ws r2) as [|e r3]; [discriminate|].
    destruct (code e =? 44); [apply IHm|].
    destruct (code e =? 125); [intros [= <- _]; discriminate|discriminate].
Qed.

Lemma parse_defined text v : JSON.parse text = Some v -> v <> VUndefined.
Proof.
  unfold JSON.parse.
  destruct (JSON.parse_value _ text) as [[v0 r]|] eqn:Hv; [|discriminate].
  destruct (JSON.skip_ws r); [|discriminate].
  intros [= <-]. exact (proj1 (parse_value_defined _) _ _ _ Hv).
Qed.

(** A member of a value that is neither [null] nor [undefined] is read
    without error. *)
Lemma member_run env v k w :
  v <> VNull -> v <> VUndefined ->
  member env v k w = (Ok (get_prop_opt v k), w).
Proof.
  intros Hnull Hundef. unfold member, get_prop_opt.
  destruct v; try contradiction; reflexivity.
Qed.

(** X13.  The command handler acknowledges and delivers nothing.  Whatever
    the agent id (it is not looked up) and for every body that is JSON, the
    handler writes the parsed body to the console and touches nothing else:
    no store operation, no clock.  A body that is [null] is then answered
    500, with the TypeError of reading [command] of [null]; any other JSON
    value, object or not, is answered 200 with its [command] member, and
    when it has none the response has no [command] key at all. *)
Theorem command_is_acknowledged_only :
  forall (env : Env) (agentId : string) (body : option string)
         (h : list (string * string)) (w : World) (data : value),
    JSON.parse (body_text body) = Some data ->
    let w' := logged (ConsoleLog ("Command for " ++ agentId ++ ":") data) w in
    let sent := ("message", VStr ("Command sent to " ++ agentId)) in
    handleAgentCommand env agentId body h w
    = (Ok (match data with
           | VNull => failure h (engineMessage env (ReadOfNullish "command"))
           | _ => {| statusCode := 200;
                     headers := h;
                     body := JSON.stringify
                               (VObj [ ("success", VBool true); sent;
                                       ("command", get_prop_opt data "command") ]) |}
           end), w')
    /\ (get_prop_opt data "command" = VUndefined ->
        JSON.stringify (VObj [ ("success", VBool true); sent;
                               ("command", get_prop_opt data "command") ])
        = JSON.stringify (VObj [ ("success", VBool true); sent ])).
Proof.
  intros env agentId body h w data Hparse w' sent. split.
  - pose proof (parse_defined _ _ Hparse) as Hdef.
    unfold handleAgentCommand, try_catch, bind.
    rewrite parse_body_run, Hparse. cbn [log].
    fold (logged (ConsoleLog ("Command for " ++ agentId ++ ":") data) w). fold w'.
    destruct data; try contradiction; reflexivity.
  - intros ->. reflexivity.
Qed.

(** X13 on the body [[1]], an array. *)
Lemma command_is_acknowledged_only_witness :
  JSON.parse (body_text (Some "[1]")) = Some (VArr [VNum 1])
  /\ handleAgentCommand sample_env "scout" (Some "[1]") corsHeaders (fresh empty_store)
     = (Ok {| statusCode := 200;
              headers := corsHeaders;
              body := JSON.stringify
                        (VObj [ ("success", VBool true);
                                ("message", VStr "Command sent to scout") ]) |},
        logged (ConsoleLog "Command for scout:" (VArr [VNum 1])) (fresh empty_store)).
Proof.
  assert (Hparse : JSON.parse (body_text (Some "[1]")) = Some (VArr [VNum 1]))
    by (vm_compute; reflexivity).
  split; [exact Hparse|].
  exact (proj1 (command_is_acknowledged_only sample_env "scout" (Some "[1]")
                  corsHeaders (fresh empty_store) (VArr [VNum 1]) Hparse)).
Defined.

(* ================================================================= *)
(** ** GET /workflows after POST /workflows *)

Lemma handleGetWorkflows_run env h w :
  fault env (List.length (trace w)) = None ->
  handleGetWorkflows env h w
  = (Ok (workflows_response h (List.map shape_workflow (workflows (store w)))),
     traced [OpGet "workflows" [] None None] w).
Proof.
  intros Hf. unfold handleGetWorkflows. apply try_ok.
  eapply eq_trans; [eapply bind_ok; apply query_run, Hf|]. reflexivity.
Qed.

Lemma or_else_truthy a b : truthy b = true -> truthy (or_else a b) = true.
Proof. intros Hb. unfold or_else. destruct (truthy a) eqn:Ha; assumption. Qed.

Lemma or_else_idem a b c : truthy b = true -> or_else (or_else a b) c = or_else a b.
Proof. intros Hb. unfold or_else at 1. rewrite (or_else_truthy a b Hb). reflexivity. Qed.

(** The document that the creation handler builds. *)
Lemma new_workflow_run env data w :
  data <> VNull -> data <> VUndefined ->
  new_workflow env data w = (Ok (workflow_of data (clock env (ticks w))), ticked w).
Proof.
  intros Hnull Hdef. unfold new_workflow.
  eapply eq_trans; [eapply bind_ok; apply member_run; assumption|].
  eapply eq_trans; [eapply bind_ok; apply member_run; assumption|].
  eapply eq_trans; [eapply bind_ok; apply member_run; assumption|].
  eapply eq_trans; [eapply bind_ok; apply member_run; assumption|].
  eapply eq_trans; [eapply bind_ok; apply new_Date_run|].
  reflexivity.
Qed.

(** A document that is added takes its place among the others: after those
    whose id is not greater than its own, before the first whose id is. *)
Lemma insert_doc_place {A} id (d : A) l :
  exists before after,
    l = (before ++ after)%list
    /\ insert_doc id d l = (before ++ (id, d) :: after)%list
    /\ Forall (fun x => String.ltb id (fst x) = false) before
    /\ match after with
       | [] => True
       | x :: _ => String.ltb id (fst x) = true
       end.
Proof.
  induction l as [|[k x] l (before & after & Hl & Hi & Hb & Ha)]; simpl.
  - exists [], []. repeat split. constructor.
  - destruct (String.ltb id k) eqn:Hlt.
    + exists [], ((k, x) :: l). repeat split; [constructor | exact Hlt].
    + exists ((k, x) :: before), after. simpl. rewrite Hi, <- Hl.
      repeat split; [constructor; [exact Hlt | exact Hb] | exact Ha].
Qed.

(** X14.  Creating and listing compose.  For a body that is JSON and not
    [null] and a store that answers, the creation handler builds a document
    from the body.  If the store refuses that document, the answer is 500
    with the store's message and the store is as it was.  If not, the
    answer is 200 with the id the store generated, and the workflow listing
    that follows shows the workflows of before, as before and in their
    order, with the new one among them at the place of its id (the listing
    is in the order of the ids): under that id, with the name of the body
    (or [New Workflow] when the body has none, or a falsy one), status
    [active], the length of the [steps] of the body (0 without steps),
    [completedToday] 0, and the creation handler's clock reading as
    [created]. *)
Theorem created_workflow_is_listed :
  forall (env : Env) (body : option string) (h : list (string * string))
         (w : World) (data : value),
    JSON.parse (body_text body) = Some data ->
    data <> VNull ->
    store_up env w 2 ->
    let id := autoId env (adds w) in
    let created := clock env (ticks w) in
    (forall message,
        refuses env (workflow_of data created) = Some message ->
        exists w1,
          handleCreateWorkflow env body h w = (Ok (failure h message), w1)
          /\ store w1 = store w)
    /\ (refuses env (workflow_of data created) = None ->
        exists w1 w2 before after,
          handleCreateWorkflow env body h w
          = (Ok {| statusCode := 200;
                   headers := h;
                   body := JSON.stringify
                             (VObj [ ("success", VBool true);
                                     ("workflow_id", VStr id);
                                     ("message",
                                       VStr "Workflow created successfully") ]) |},
             w1)
          /\ workflows (store w) = (before ++ after)%list
          /\ Forall (fun d => String.ltb id (fst d) = false) before
          /\ match after with
             | [] => True
             | d :: _ => String.ltb id (fst d) = true
             end
          /\ handleGetWorkflows env h w1
             = (Ok (workflows_response h
                      (List.map shape_workflow before
                       ++ created_entry id data created
                          :: List.map shape_workflow after)%list), w2)).
Proof.
  intros env body h w data Hparse Hnull Hup id created.
  pose proof (parse_defined _ _ Hparse) as Hdef.
  pose proof (store_up_now _ _ _ Hup) as Hf.
  assert (Hbuilt : forall k : Workflow.doc -> M Response,
             (workflowData <- parse_body env body ;;
              workflow <- new_workflow env workflowData ;;
              k workflow) w
             = k (workflow_of data created) (ticked w)).
  { intros k.
    eapply eq_trans; [eapply bind_ok; rewrite parse_body_run, Hparse; reflexivity|].
    eapply eq_trans; [eapply bind_ok; apply new_workflow_run; assumption|].
    reflexivity. }
  split.
  - intros message Hrefused. eexists. split.
    + unfold handleCreateWorkflow, try_catch. rewrite Hbuilt.
      unfold bind, add_workflow, store_op.
      cbn [ticked trace adds store ticks console]. rewrite Hf, Hrefused.
      reflexivity.
    + reflexivity.
  - intros Haccepted.
    destruct (insert_doc_place id (workflow_of data created) (workflows (store w)))
      as (before & after & Hl & Hi & Hb & Ha).
    eexists _, _, before, after. split; [|split; [exact Hl|split; [exact Hb|split]]].
    + unfold handleCreateWorkflow, try_catch. rewrite Hbuilt.
      unfold bind, add_workflow, store_op.
      cbn [ticked trace adds store ticks console]. rewrite Hf, Haccepted.
      reflexivity.
    + exact Ha.
    + rewrite handleGetWorkflows_run.
      * cbn [with_store store set_workflows workflows ticked].
        fold id. rewrite Hi, map_app. cbn [List.map].
        unfold shape_workflow at 2. unfold created_entry, workflow_of.
        cbn [fst snd Workflow.name Workflow.status Workflow.steps
             Workflow.completed_today Workflow.created].
        rewrite or_else_idem by reflexivity. reflexivity.
      * cbn [with_store trace ticked]. rewrite length_app. simpl.
        apply Hup. lia.
Qed.

(** X14 on the body [{"name":"Nightly","steps":["a","b"]}] and a store with
    the workflows [m] and [zzz]: the new workflow, whose id is [wf0], is
    listed between the two, with two steps.  The body [{"steps":[["a"]]}],
    which the store of [sample_env] refuses, is answered 500. *)
Lemma created_workflow_is_listed_witness :
  JSON.parse (body_text (Some nightly_body))
  = Some (VObj [("name", VStr "Nightly"); ("steps", VArr [VStr "a"; VStr "b"])])
  /\ JSON.parse (body_text (Some nested_body))
     = Some (VObj [("steps", VArr [VArr [VStr "a"]])])
  /\ store_up sample_env (fresh two_workflows) 2
  /\ (exists w1 w2,
        statusCode (response_of (handleCreateWorkflow sample_env (Some nightly_body)
                                   corsHeaders (fresh two_workflows))) = 200
        /\ snd (handleCreateWorkflow sample_env (Some nightly_body) corsHeaders
                  (fresh two_workflows)) = w1
        /\ handleGetWorkflows sample_env corsHeaders w1
           = (Ok (workflows_response corsHeaders
                    [ shape_workflow ("m", stored_workflow);
                      VObj [ ("id", VStr "wf0"); ("name", VStr "Nightly");
                             ("status", VStr "active"); ("steps", VNum 2);
                             ("completedToday", VNum 0);
                             ("created", VStr "2025-11-02T04:00:00.123Z") ];
                      shape_workflow ("zzz", stored_workflow) ]), w2))
  /\ (exists w1,
        handleCreateWorkflow sample_env (Some nested_body) corsHeaders
                             (fresh two_workflows)
        = (Ok (failure corsHeaders
                 "3 INVALID_ARGUMENT: Cannot convert an array value in an array value."),
           w1)
        /\ store w1 = two_workflows).
Proof.
  assert (Hparse : JSON.parse (body_text (Some nightly_body))
                   = Some (VObj [("name", VStr "Nightly");
                                 ("steps", VArr [VStr "a"; VStr "b"])]))
    by (vm_compute; reflexivity).
  assert (Hnested : JSON.parse (body_text (Some nested_body))
                    = Some (VObj [("steps", VArr [VArr [VStr "a"]])]))
    by (vm_compute; reflexivity).
  split; [exact Hparse|]. split; [exact Hnested|]. split; [apply sample_store_up|].
  split.
  - destruct (created_workflow_is_listed sample_env (Some nightly_body) corsHeaders
                (fresh two_workflows) _ Hparse ltac:(discriminate)
                (sample_store_up _ 2)) as (_ & Hlisted).
    destruct (Hlisted eq_refl) as (w1 & w2 & before & after & Hcreate & Hl & Hb & Ha
                                   & Hlist).
    exists w1, w2.
    split; [rewrite Hcreate; reflexivity|].
    split; [rewrite Hcreate; reflexivity|].
    rewrite Hlist. do 3 f_equal.
    clear Hlist Hcreate. cbn [fresh store two_workflows workflows] in Hl.
    destruct before as [|[k1 d1] before].
    + simpl in Hl. subst after. vm_compute in Ha. discriminate.
    + simpl in Hl. injection Hl as Hk1 Hd1 Hl. subst k1 d1.
      destruct before as [|[k2 d2] before].
      * simpl in Hl. subst after. vm_compute. reflexivity.
      * simpl in Hl. injection Hl as Hk2 Hd2 Hl. subst k2 d2.
        inversion Hb as [|? ? _ Hb']; subst.
        inversion Hb' as [|? ? Hz _]; subst.
        vm_compute in Hz. discriminate.
  - destruct (created_workflow_is_listed sample_env (Some nested_body) corsHeaders
                (fresh two_workflows) _ Hnested ltac:(discriminate)
                (sample_store_up _ 2)) as (Hrefused & _).
    exact (Hrefused _ eq_refl).
Defined.

(* ================================================================= *)
(** ** The routes, by the shape of the path *)

Lemma segments_of_are_segments event :
  Forall (fun s => is_segment s = true) (segments_of event).
Proof. apply path_segments_are_segments. Qed.

Lemma is_segment_not_empty s : is_segment s = true -> String.eqb s "" = false.
Proof.
  unfold is_segment. rewrite andb_true_iff, negb_true_iff. intros [H _]. exact H.
Qed.

Ltac routed event Hmethod Hsegments :=
  unfold handler; fold (segments_of event);
  rewrite Hmethod, Hsegments;
  cbn [String.eqb Ascii.eqb Bool.eqb andb segment_is no_segment nth_error
       segment1 nth];
  apply (try_returns (answered corsHeaders)); auto with answers.

(** X15.  The routes by the shape of the path, once the mount point is
    removed and the path is cut into segments.  [GET /agents] is the agent
    listing only when nothing follows: [GET /agents/x] is 404, there is no
    route to a single agent.  Every other route looks at the segments it
    names and ignores what follows them, and the two routes with an id take
    whatever the second segment is.  The handler that is run is run on the
    CORS headers, and its answer is the answer to the request. *)
Theorem requests_are_routed_by_path_shape :
  forall (env : Env) (event : Event.t) (w : World),
    let method := Event.httpMethod event in
    let segments := segments_of event in
    let answer := handler env event w in
    (method = "GET" -> segments = ["agents"] ->
     answer = handleGetAgents env corsHeaders w)
    /\ (method = "GET" -> forall id rest, segments = "agents" :: id :: rest ->
        answer = (Ok (not_found corsHeaders), w))
    /\ (method = "POST" -> forall id rest,
        segments = "agents" :: id :: "command" :: rest ->
        answer = handleAgentCommand env id (Event.body event) corsHeaders w)
    /\ (method = "GET" -> forall rest, segments = "leads" :: "metrics" :: rest ->
        answer = handleGetLeadMetrics env corsHeaders w)
    /\ (method = "GET" -> forall rest, segments = "alerts" :: "active" :: rest ->
        answer = handleGetAlerts env corsHeaders w)
    /\ (method = "POST" -> forall id rest,
        segments = "alerts" :: id :: "resolve" :: rest ->
        answer = handleResolveAlert env id corsHeaders w)
    /\ (method = "GET" -> forall rest, segments = "workflows" :: rest ->
        answer = handleGetWorkflows env corsHeaders w)
    /\ (method = "POST" -> forall rest, segments = "workflows" :: rest ->
        answer = handleCreateWorkflow env (Event.body event) corsHeaders w)
    /\ (method = "POST" -> forall rest, segments = "roi" :: "calculate" :: rest ->
        answer = handleCalculateROI env corsHeaders w).
Proof.
  intros env event w method segments answer. unfold answer, method, segments.
  repeat split.
  - intros Hm Hs. routed event Hm Hs.
  - intros Hm id rest Hs.
    pose proof (segments_of_are_segments event) as Hall. rewrite Hs in Hall.
    inversion Hall as [|? ? _ Htail]; subst.
    inversion Htail as [|? ? Hid _]; subst.
    apply is_segment_not_empty in Hid.
    unfold handler; fold (segments_of event). rewrite Hm, Hs.
    cbn [String.eqb Ascii.eqb Bool.eqb andb segment_is no_segment nth_error
         segment1 nth].
    rewrite Hid. reflexivity.
  - intros Hm id rest Hs. routed event Hm Hs.
  - intros Hm rest Hs. routed event Hm Hs.
  - intros Hm rest Hs. routed event Hm Hs.
  - intros Hm id rest Hs. routed event Hm Hs.
  - intros Hm rest Hs. routed event Hm Hs.
  - intros Hm rest Hs. routed event Hm Hs.
  - intros Hm rest Hs. routed event Hm Hs.
Qed.

(** X15 on two requests with something after the first segment: the one
    under [/agents] is not found, the one under [/workflows] is the listing. *)
Lemma requests_are_routed_by_path_shape_witness :
  segments_of (request "GET" "/.netlify/functions/api/agents/scout" None)
  = ["agents"; "scout"]
  /\ handler sample_env (request "GET" "/.netlify/functions/api/agents/scout" None)
             (fresh agents_store)
     = (Ok (not_found corsHeaders), fresh agents_store)
  /\ segments_of (request "GET" "/.netlify/functions/api/workflows/scout" None)
     = ["workflows"; "scout"]
  /\ handler sample_env (request "GET" "/.netlify/functions/api/workflows/scout" None)
             (fresh agents_store)
     = handleGetWorkflows sample_env corsHeaders (fresh agents_store).
Proof.
  pose proof (requests_are_routed_by_path_shape sample_env
                (request "GET" "/.netlify/functions/api/agents/scout" None)
                (fresh agents_store)) as (_ & Hagents & _).
  pose proof (requests_are_routed_by_path_shape sample_env
                (request "GET" "/.netlify/functions/api/workflows/scout" None)
                (fresh agents_store)) as (_ & _ & _ & _ & _ & _ & Hworkflows & _).
  split; [reflexivity|].
  split; [exact (Hagents eq_refl "scout" [] eq_refl)|].
  split; [reflexivity|].
  exact (Hworkflows eq_refl ["scout"] eq_refl).
Defined.

(* ================================================================= *)
(** ** The route table of the specification *)

Lemma is_path_begins pattern : forall segments,
  is_path pattern segments = true -> begins_with pattern segments = true.
Proof.
  induction pattern as [|[s|] pattern IH]; intros [|x segments]; simpl;
    try discriminate; try reflexivity.
  - rewrite !andb_true_iff. intros [Hx Hrest]. split; [exact Hx | apply IH, Hrest].
  - apply IH.
Qed.

(** On segments that are not empty, the eight tests of the router are those
    of the table read as [is_served] reads it. *)
Lemma is_served_unrouted method segments :
  Forall (fun s => is_segment s = true) segments ->
  is_served method segments = negb (unrouted method segments).
Proof.
  intros Hall. rewrite unrouted_cases.
  unfold is_served, route_table, is_agent_listing.
  cbn [existsb fst snd is_path String.eqb Ascii.eqb Bool.eqb andb].
  assert (Hne : forall i,
             no_segment segments i
             = match nth_error segments i with Some _ => false | None => true end).
  { intros i. unfold no_segment.
    destruct (nth_error segments i) as [x|] eqn:Hx; [|reflexivity].
    apply nth_error_In in Hx. rewrite Forall_forall in Hall.
    apply is_segment_not_empty, Hall, Hx. }
  rewrite Hne. unfold segment_is.
  destruct segments as [|a [|b [|c rest]]]; cbn [nth_error begins_with is_path];
    destruct (String.eqb method "GET"), (String.eqb method "POST");
    cbn [andb orb negb];
    repeat match goal with
           | |- context [String.eqb ?x ?y] =>
               destruct (String.eqb x y); cbn [andb orb negb]
           end; reflexivity.
Qed.

Lemma in_route_table_is_served method segments :
  in_route_table method segments = true -> is_served method segments = true.
Proof.
  unfold in_route_table, is_served. rewrite !existsb_exists.
  intros (r & Hin & Hr). exists r. split; [exact Hin|].
  apply andb_true_iff in Hr. destruct Hr as [Hm Hp]. rewrite Hm. simpl.
  destruct (is_agent_listing r); [exact Hp | apply is_path_begins, Hp].
Qed.

(** A request that a test of the router holds of is answered by a handler. *)
Lemma routed_is_answered env event w :
  String.eqb (Event.httpMethod event) "OPTIONS" = false ->
  unrouted (Event.httpMethod event) (segments_of event) = false ->
  exists resp w', handler env event w = (Ok resp, w') /\ answered corsHeaders resp.
Proof.
  intros Hopt Hrouted. unfold handler. rewrite Hopt. fold (segments_of event).
  rewrite unrouted_cases in Hrouted.
  repeat match goal with
         | |- context [try_catch (if ?b then _ else _)] => destruct b
         end; cbn [negb andb] in Hrouted; try discriminate;
    match goal with
    | |- context [try_catch ?m ?c w] =>
        rewrite (try_returns (answered corsHeaders) m c w) by auto with answers;
        let Hr := fresh in
        assert (Hr : returns (answered corsHeaders) m) by auto with answers;
        exact (Hr w)
    end.
Qed.

(** C5 (as amended).  A request whose method is not OPTIONS is answered 404
    with the body [{"error":"Endpoint not found"}] and the CORS headers, the
    world being left as it was (no handler ran, no store operation was
    issued, the clock was not read and nothing was logged), exactly when it
    matches no entry of the route table as the code tests the entries:
    [GET /agents] by its path, every other entry by the beginning of the
    path.  A path without segments matches none; a request that matches an
    entry is answered by a handler, with 200 or 500; and a request that
    matches an entry of the table as the specification reads it (by the
    whole path) matches it as the code does. *)
Theorem unmatched_request_is_not_found :
  forall (env : Env) (event : Event.t) (w : World),
    String.eqb (Event.httpMethod event) "OPTIONS" = false ->
    let method := Event.httpMethod event in
    let segments := segments_of event in
    (is_served method segments = false ->
     handler env event w
     = (Ok {| statusCode := 404; headers := corsHeaders; body := not_found_text |}, w))
    /\ (segments = [] -> is_served method segments = false)
    /\ (is_served method segments = true ->
        exists resp w',
          handler env event w = (Ok resp, w')
          /\ (statusCode resp = 200 \/ statusCode resp = 500))
    /\ (in_route_table method segments = true -> is_served method segments = true).
Proof.
  intros env event w Hopt method segments.
  pose proof (is_served_unrouted method segments (segments_of_are_segments event))
    as Hserved.
  split; [|split; [|split]].
  - intros Hnone. rewrite Hnone in Hserved.
    apply (f_equal negb) in Hserved. rewrite negb_involutive in Hserved.
    simpl in Hserved. symmetry in Hserved.
    unfold handler. rewrite Hopt. fold (segments_of event). fold segments.
    rewrite unrouted_cases in Hserved. fold method.
    rewrite !andb_true_iff in Hserved. rewrite !negb_true_iff in Hserved.
    destruct Hserved as (((((((H1 & H2) & H3) & H4) & H5) & H6) & H7) & H8).
    unfold try_catch. rewrite H1, H2, H3, H4, H5, H6, H7, H8. reflexivity.
  - intros Hempty. rewrite Hserved, Hempty, unrouted_no_segments. reflexivity.
  - intros Hsome. rewrite Hsome in Hserved.
    apply (f_equal negb) in Hserved. rewrite negb_involutive in Hserved.
    simpl in Hserved. symmetry in Hserved.
    destruct (routed_is_answered env event w Hopt Hserved)
      as (resp & w' & Hrun & _ & Hcode).
    exists resp, w'. split; [exact Hrun|].
    destruct Hcode as [H200 | (message & ->)]; [left; exact H200 | right; reflexivity].
  - apply in_route_table_is_served.
Qed.

(** C5 at [GET /agents/scout], which matches no entry, and at [DELETE] of
    the mount point, whose path has no segment left. *)
Lemma unmatched_request_is_not_found_witness :
  String.eqb "GET" "OPTIONS" = false
  /\ segments_of (request "GET" "/.netlify/functions/api/agents/scout" None)
     = ["agents"; "scout"]
  /\ is_served "GET" ["agents"; "scout"] = false
  /\ handler sample_env (request "GET" "/.netlify/functions/api/agents/scout" None)
             (fresh agents_store)
     = (Ok {| statusCode := 404; headers := corsHeaders; body := not_found_text |},
        fresh agents_store)
  /\ segments_of (request "DELETE" "/.netlify/functions/api" None) = []
  /\ handler sample_env (request "DELETE" "/.netlify/functions/api" None)
             (fresh empty_store)
     = (Ok {| statusCode := 404; headers := corsHeaders; body := not_found_text |},
        fresh empty_store).
Proof.
  split; [reflexivity|]. split; [reflexivity|]. split; [reflexivity|].
  split.
  - exact (proj1 (unmatched_request_is_not_found sample_env
                    (request "GET" "/.netlify/functions/api/agents/scout" None)
                    (fresh agents_store) eq_refl) eq_refl).
  - split; [reflexivity|].
    destruct (unmatched_request_is_not_found sample_env
                (request "DELETE" "/.netlify/functions/api" None)
                (fresh empty_store) eq_refl) as (Hnone & Hempty & _).
    exact (Hnone (Hempty eq_refl)).
Defined.

(** C5 as stated fails at [POST /workflows/no/such/endpoint]: the request
    matches no entry of the route table of the specification, and it is not
    answered 404: the creation handler runs, a workflow is added to the
    store and the answer is 200. *)
Lemma unknown_path_is_served_counterexample :
  String.eqb "POST" "OPTIONS" = false
  /\ segments_of (request "POST" "/.netlify/functions/api/workflows/no/such/endpoint"
                          None)
     = ["workflows"; "no"; "such"; "endpoint"]
  /\ in_route_table "POST" ["workflows"; "no"; "such"; "endpoint"] = false
  /\ statusCode
       (response_of
          (handler sample_env
             (request "POST" "/.netlify/functions/api/workflows/no/such/endpoint" None)
             (fresh empty_store))) = 200
  /\ trace
       (snd (handler sample_env
               (request "POST" "/.netlify/functions/api/workflows/no/such/endpoint" None)
               (fresh empty_store))) = [OpAdd "workflows"]
  /\ List.map fst
       (workflows
          (store
             (snd (handler sample_env
                     (request "POST" "/.netlify/functions/api/workflows/no/such/endpoint"
                              None)
                     (fresh empty_store))))) = ["wf0"].
Proof.
  repeat split; vm_compute; reflexivity.
Qed.
